(** * data_sensor_collector: a shallow embedding of the acquisition pipeline

  The firmware cycles through sensor channels behind a multiplexer, reads a
  CO2/temperature/humidity sensor (SCD40) and an oxygen sensor (Gravity),
  gathers the readings in a batch and hands every batch to an SD-card log
  and to a BLE notification link.

  Python objects are modelled by records, mutation by explicit state
  passing through a small state-and-exception monad, MicroPython integers
  by [Z] and floats by exact rationals [Q] (floating-point rounding error
  is outside the model).  Hardware is modelled by scripted devices: every
  bus transaction consumes one scripted response and is recorded in a
  trace. *)

From Stdlib Require Import ZArith QArith Qround Qabs String Ascii List Lia
  DecimalString.
From stdpp Require Import base list gmap strings.

Open Scope Z_scope.

(** ** The MicroPython runtime *)

Module Py.

(** The exception classes the firmware raises or catches. *)
Inductive exn : Type :=
| OSError
| ValueError
| IndexError
| TypeError
| ZeroDivisionError.

Inductive result (A : Type) : Type :=
| Ok (a : A)
| Raise (e : exn).
Arguments Ok {A} a.
Arguments Raise {A} e.

(** Computations over a mutable state [S]: the state survives an
    exception, as the mutations of a Python object do. *)
Definition M (S A : Type) : Type := S -> result A * S.

Definition ret {S A} (a : A) : M S A := fun s => (Ok a, s).
Definition raise {S A} (e : exn) : M S A := fun s => (Raise e, s).
Definition bind {S A B} (m : M S A) (k : A -> M S B) : M S B :=
  fun s => match m s with
           | (Ok a, s') => k a s'
           | (Raise e, s') => (Raise e, s')
           end.
Definition get {S} : M S S := fun s => (Ok s, s).
Definition put {S} (s : S) : M S unit := fun _ => (Ok tt, s).
Definition modify {S} (f : S -> S) : M S unit := fun s => (Ok tt, f s).

(** [try: m except <classes accepted by handles> : h]. *)
Definition try_except {S A} (m : M S A) (handles : exn -> bool) (h : M S A)
  : M S A :=
  fun s => match m s with
           | (Ok a, s') => (Ok a, s')
           | (Raise e, s') => if handles e then h s' else (Raise e, s')
           end.
Definition any_exception (_ : exn) : bool := true.
Definition is_OSError (e : exn) : bool :=
  match e with OSError => true | _ => false end.

(** [for x in xs: body x]. *)
Fixpoint for_each {S A} (xs : list A) (body : A -> M S unit) : M S unit :=
  match xs with
  | [] => ret tt
  | x :: xs' => bind (body x) (fun _ => for_each xs' body)
  end.

(** Run a computation on a component of a larger state. *)
Definition zoom {S T A} (proj : T -> S) (upd : S -> T -> T) (m : M S A)
  : M T A :=
  fun t => let '(r, s') := m (proj t) in (r, upd s' t).

(** [xs[i]] on a list: [IndexError] out of range (the firmware only uses
    non-negative indices). *)
Definition index {S A} (xs : list A) (i : nat) : M S A :=
  match xs !! i with
  | Some x => ret x
  | None => raise IndexError
  end.

(** Dynamic values the drivers return. *)
Inductive value : Type :=
| VNone
| VInt (z : Z)
| VFloat (q : Q).

Inductive payload : Type :=
| PValue (v : value)
| PTuple (vs : list value)
| PList (vs : list value).

(** [time.ticks_diff(a, b)]: the signed difference of two tick counts on
    the ring of [TICKS_PERIOD] values (2^30 on the ESP32 port). *)
Definition TICKS_PERIOD : Z := 2 ^ 30.
Definition ticks_diff (a b : Z) : Z :=
  (a - b + TICKS_PERIOD / 2) mod TICKS_PERIOD - TICKS_PERIOD / 2.

(** [int(x)] on a float truncates towards zero. *)
Definition int (q : Q) : Z := Z.quot (Qnum q) (Z.pos (Qden q)).

(** [round(x, 2)]: the nearest multiple of 1/100, ties to the even one. *)
Definition round_half_even (q : Q) : Z :=
  let f := Qfloor q in
  match Qcompare (q - inject_Z f) (1 # 2) with
  | Lt => f
  | Gt => f + 1
  | Eq => if Z.even f then f else f + 1
  end.
Definition round2 (q : Q) : Q := inject_Z (round_half_even (q * 100)) / 100.

(** [sum(xs)] adds from the left, starting at 0. *)
Definition sum (xs : list Q) : Q := fold_left Qplus xs 0%Q.

(** [str(n)] for an integer. *)
Definition str_int (z : Z) : string := NilZero.string_of_int (Z.to_int z).

(** [sep.join(xs)]. *)
Fixpoint join (sep : string) (xs : list string) : string :=
  match xs with
  | [] => EmptyString
  | [x] => x
  | x :: xs' => x +:+ sep +:+ join sep xs'
  end.

Section Str.

(** The text MicroPython prints for a float is left to the runtime. *)
Variable float_str : Q -> string.

(** [str(v)] (and [repr(v)]) of a scalar. *)
Definition str_value (v : value) : string :=
  match v with
  | VNone => "None"
  | VInt z => str_int z
  | VFloat q => float_str q
  end.

(** [str(p)]: a scalar, a tuple [(a, b, c)] or a list [[a, b, c]]. *)
Definition str (p : payload) : string :=
  match p with
  | PValue v => str_value v
  | PTuple [v] => "(" +:+ str_value v +:+ ",)"
  | PTuple vs => "(" +:+ join ", " (map str_value vs) +:+ ")"
  | PList vs => "[" +:+ join ", " (map str_value vs) +:+ "]"
  end.

End Str.

(** The identity of a mutable list object. *)
Definition ref : Type := nat.

End Py.

Import Py.

Declare Scope py_scope.
Delimit Scope py_scope with py.
Notation "'let*' x := m 'in' k" := (bind m (fun x => k))
  (at level 10, x name, m at level 100, k at level 200, only parsing)
  : py_scope.
Notation "m ;; k" := (bind m (fun _ => k))
  (at level 100, k at level 200, right associativity, only parsing)
  : py_scope.
Open Scope py_scope.

(** The dictionary the main loop appends for every channel visit. *)
Record reading : Type := {
  timestamp : Q;
  channel : Z;
  sensor_type : string;
  data : payload
}.

Definition mk_reading (ts : Q) (ch : Z) (label : string) (d : payload)
  : reading :=
  {| timestamp := ts; channel := ch; sensor_type := label; data := d |}.

(** ** The I2C bus *)

Module I2C.

Inductive op : Type :=
| WriteTo (addr : Z) (data : list Z)
| ReadFrom (addr : Z) (nbytes : nat).

(** A scripted bus.  Every transaction pops one response: [None] is a
    device that does not answer ([OSError]); [Some bs] acknowledges a
    write or supplies the bytes of a read (a well-formed script supplies
    as many bytes as the read asks for).  An exhausted script does not
    answer.  [trace] lists the transactions issued, oldest first. *)
Record bus : Type := {
  pending : list (option (list Z));
  trace : list op
}.

Definition transact (o : op) : M bus (list Z) :=
  fun b =>
    let b' := fun rest => {| pending := rest; trace := trace b ++ [o] |} in
    match pending b with
    | Some bs :: rest => (Ok bs, b' rest)
    | None :: rest => (Raise OSError, b' rest)
    | [] => (Raise OSError, b' [])
    end.

Definition writeto (addr : Z) (data : list Z) : M bus unit :=
  transact (WriteTo addr data) ;; ret tt.
Definition readfrom (addr : Z) (nbytes : nat) : M bus (list Z) :=
  transact (ReadFrom addr nbytes).

End I2C.

(** ** board/utils/sensors.py: the SCD40 driver *)

Module SCD40Sensor.

Definition SCD40_ADDRESS : Z := 0x62.

Definition start_periodic_measurement : M I2C.bus unit :=
  try_except (I2C.writeto SCD40_ADDRESS [0x21; 0xb1]) is_OSError (ret tt).

(** [SCD40Sensor(i2c)]. *)
Definition init : M I2C.bus unit := start_periodic_measurement.

(** One pass of the inner loop of [crc8]: shift left, xor the polynomial
    in when the top bit was set, keep eight bits. *)
Definition crc8_bit (crc : Z) : Z :=
  Z.land (if Z.land crc 0x80 =? 0 then Z.shiftl crc 1
          else Z.lxor (Z.shiftl crc 1) 0x31) 0xFF.
Definition crc8_byte (crc byte : Z) : Z :=
  Nat.iter 8 crc8_bit (Z.lxor crc byte).
Definition crc8 (data : list Z) : Z := fold_left crc8_byte data 0xFF.

Definition parse_word (data : list Z) (start_index : nat) : M I2C.bus Z :=
  let raw := take 2 (drop start_index data) in
  let* crc_received := index data (start_index + 2) in
  if negb (crc8 raw =? crc_received) then raise ValueError
  else
    let* hi := index raw 0 in
    let* lo := index raw 1 in
    ret (Z.lor (Z.shiftl hi 8) lo).

Definition temp_of_raw (temp_raw : Z) : Q :=
  (-45 + 175 * (inject_Z temp_raw / 65535))%Q.
Definition humidity_of_raw (rh_raw : Z) : Q :=
  (100 * (inject_Z rh_raw / 65535))%Q.

Definition read_failed : payload := PTuple [VNone; VNone; VNone].

Definition read_sensor : M I2C.bus payload :=
  try_except
    (I2C.writeto SCD40_ADDRESS [0xEC; 0x05] ;;
     let* data := I2C.readfrom SCD40_ADDRESS 9 in
     let* co2 := parse_word data 0 in
     let* temp_raw := parse_word data 3 in
     let* rh_raw := parse_word data 6 in
     let temp := temp_of_raw temp_raw in
     let humidity := humidity_of_raw rh_raw in
     ret (PTuple [VInt co2; VFloat (round2 temp); VFloat (round2 humidity)]))
    any_exception
    (ret read_failed).

End SCD40Sensor.

(** ** board/utils/sensors.py: the Gravity oxygen driver *)

Module GravitySensor.

Definition ADDRESS_3 : Z := 0x73.
Definition OXYGEN_DATA_REGISTER : Z := 0x03.
Definition GET_KEY_REGISTER : Z := 0x0A.
Definition MAX_BUFFER_SIZE : Z := 101.
Definition DEFAULT_COLLECT_NUM : Z := 10.

(** The attributes of a [GravitySensor] object. *)
Record sensor : Type := {
  _addr : Z;
  _key : Q;
  _count : Z;
  _txbuf : list Z;
  _oxygendata : list Q;
  _init_success : bool
}.

(** A method runs on the object and on the bus it holds. *)
Definition state : Type := (sensor * I2C.bus)%type.
Definition self : M state sensor := fun st => (Ok (fst st), st).
Definition set_self (f : sensor -> sensor) : M state unit :=
  modify (fun st : state => (f (fst st), snd st)).
Definition on_bus {A} (m : M I2C.bus A) : M state A :=
  zoom snd (fun b (st : state) => (fst st, b)) m.

Definition set_key (k : Q) (s : sensor) : sensor :=
  {| _addr := _addr s; _key := k; _count := _count s; _txbuf := _txbuf s;
     _oxygendata := _oxygendata s; _init_success := _init_success s |}.
Definition set_count (c : Z) (s : sensor) : sensor :=
  {| _addr := _addr s; _key := _key s; _count := c; _txbuf := _txbuf s;
     _oxygendata := _oxygendata s; _init_success := _init_success s |}.
Definition set_oxygendata (d : list Q) (s : sensor) : sensor :=
  {| _addr := _addr s; _key := _key s; _count := _count s;
     _txbuf := _txbuf s; _oxygendata := d;
     _init_success := _init_success s |}.
Definition set_init_success (b : bool) (s : sensor) : sensor :=
  {| _addr := _addr s; _key := _key s; _count := _count s;
     _txbuf := _txbuf s; _oxygendata := _oxygendata s;
     _init_success := b |}.

Definition default_key : Q := (209 # 10) / 120.

(** Any failure of the two bus calls is re-raised as [OSError]. *)
Definition read_reg (reg : Z) (length : nat) : M state (list Z) :=
  let* s := self in
  try_except
    (on_bus (I2C.writeto (_addr s) [reg] ;;
             I2C.readfrom (_addr s) length))
    any_exception
    (raise OSError).

Definition get_flash : M state unit :=
  let* result := read_reg GET_KEY_REGISTER 1 in
  let* value := index result 0 in
  set_self (set_key (if value =? 0 then default_key
                     else inject_Z value / 1000)).

Definition _try_initialize : M state bool :=
  try_except
    (read_reg OXYGEN_DATA_REGISTER 1 ;;
     get_flash ;;
     ret true)
    any_exception
    (ret false).

(** [GravitySensor(i2c, addr)]: the fresh object, then the probe. *)
Definition fresh (addr : Z) : sensor :=
  {| _addr := addr; _key := default_key; _count := 0; _txbuf := [0];
     _oxygendata := replicate (Z.to_nat MAX_BUFFER_SIZE) 0%Q;
     _init_success := false |}.
Definition init (addr : Z) : M I2C.bus sensor :=
  fun b =>
    let '(r, (s, b')) := _try_initialize (fresh addr, b) in
    match r with
    | Ok ok => (Ok (set_init_success ok s), b')
    | Raise e => (Raise e, b')
    end.

(** [sum(array[:length]) / float(length)]. *)
Definition _average (array : list Q) (length : Z) : M state Q :=
  if length =? 0 then raise ZeroDivisionError
  else ret (Py.sum (take (Z.to_nat length) array) / inject_Z length)%Q.

(** [self._oxygendata[i] = self._oxygendata[i - 1]]. *)
Definition shift_one (i : nat) : M state unit :=
  let* s := self in
  let* x := index (_oxygendata s) (i - 1) in
  if decide (i < length (_oxygendata s))%nat
  then set_self (set_oxygendata (<[i := x]> (_oxygendata s)))
  else raise IndexError.

(** [range(collect_num - 1, 0, -1)]. *)
Definition shift_range (collect_num : Z) : list nat :=
  rev (seq 1 (Z.to_nat (collect_num - 1))).

Definition get_oxygen_data (collect_num : Z) : M state Q :=
  if (collect_num <=? 0) || (collect_num >? MAX_BUFFER_SIZE)
  then ret (-1)%Q
  else
    get_flash ;;
    for_each (shift_range collect_num) shift_one ;;
    let* result := read_reg OXYGEN_DATA_REGISTER 3 in
    let* b0 := index result 0 in
    let* b1 := index result 1 in
    let* b2 := index result 2 in
    let* s := self in
    let val := (_key s * (inject_Z b0 + inject_Z b1 / 10
                          + inject_Z b2 / 100))%Q in
    (if decide (0 < length (_oxygendata s))%nat
     then set_self (set_oxygendata (<[0%nat := val]> (_oxygendata s)))
     else raise IndexError) ;;
    set_self (fun s => set_count (Z.min (_count s + 1) collect_num) s) ;;
    let* s := self in
    _average (_oxygendata s) (_count s).

Definition read_sensor (collect_num : Z) : M state payload :=
  let* s := self in
  if negb (_init_success s) then ret (PValue (VFloat (-1)))
  else
    let* x := get_oxygen_data collect_num in
    ret (PValue (VFloat (round2 x))).

End GravitySensor.

(** ** mux.py: the multiplexer *)

Module Multiplexer.

(** Output level of every GPIO pin that was written, by pin number. *)
Abbreviation gpio := (gmap Z Z).

Record mux : Type := {
  name : string;
  en : Z;
  control_pins : list Z
}.

Definition pin_value (pin val : Z) : M gpio unit :=
  modify (fun g : gpio => <[pin := val]> g).

Definition disable (m : mux) : M gpio unit := pin_value (en m) 1.
Definition enable (m : mux) : M gpio unit := pin_value (en m) 0.

(** [Multiplexer(name, s_pins, en_pin, i2c)]. *)
Definition init (nm : string) (s_pins : list Z) (en_pin : Z)
  : M gpio mux :=
  let m := {| name := nm; en := en_pin; control_pins := s_pins |} in
  pin_value en_pin 0 ;;
  disable m ;;
  ret m.

(** The digits of ["{:04b}".format(channel)] for a non-negative channel:
    binary, most significant digit first, zero-padded to four (the range
    check of [select_channel] keeps negative channels away from it). *)
Fixpoint binary_digits (p : positive) : list Z :=
  match p with
  | xH => [1]
  | xO p' => binary_digits p' ++ [0]
  | xI p' => binary_digits p' ++ [1]
  end.
Definition format_04b (channel : Z) : list Z :=
  let ds := match channel with
            | Z.pos p => binary_digits p
            | _ => [0]
            end in
  replicate (4 - length ds) 0 ++ ds.

Definition select_channel (m : mux) (channel : Z) : M gpio unit :=
  if negb ((0 <=? channel) && (channel <=? 15)) then raise ValueError
  else
    enable m ;;
    let bits := format_04b channel in
    for_each (zip (control_pins m) bits)
             (fun pv => pin_value (fst pv) (snd pv)).

End Multiplexer.

(** ** board/utils/sd_manager.py: the SD-card log *)

Module SDCardLogger.

(** The card: whether [/sd] is mounted, and the files of [/sd] by name. *)
Record card : Type := {
  mounted : bool;
  sd : gmap string string
}.

(** The attributes of an [SDCardLogger].  [log_file] is the name of the log
    inside [/sd]: the source keeps the path ['/sd/log_sensors.txt'], opens
    it, and looks its last component up in the listing of [/sd]. *)
Record logger : Type := {
  data_buffer : list ref;
  device_name : option string;
  timer : Q;
  cs_pin : Z;
  log_file : string
}.

Definition state : Type := (logger * card)%type.
Definition self : M state logger := fun st => (Ok (fst st), st).
Definition the_card : M state card := fun st => (Ok (snd st), st).
Definition set_files (f : gmap string string -> gmap string string)
  : M state unit :=
  modify (fun st : state =>
            (fst st, {| mounted := mounted (snd st); sd := f (sd (snd st)) |})).

(** [SDCardLogger(cs_pin, timer, device_name, log_file)]. *)
Definition fresh (cs timer_ms : Z) (dev : option string) (file : string)
  : logger :=
  {| data_buffer := []; device_name := dev; timer := inject_Z timer_ms / 1000;
     cs_pin := cs; log_file := file |}.

(** [os.statvfs("/sd")] and [os.listdir('/sd')] need the mount point. *)
Definition statvfs : M state unit :=
  let* c := the_card in
  if mounted c then ret tt else raise OSError.
Definition listdir : M state (list string) :=
  let* c := the_card in
  if mounted c then ret (map fst (map_to_list (sd c))) else raise OSError.
Definition exists_in_sd (file : string) : M state bool :=
  let* c := the_card in
  if mounted c then ret (bool_decide (is_Some (sd c !! file)))
  else raise OSError.

(** [open(file, 'w')] followed by one [write]. *)
Definition write_new (file text : string) : M state unit :=
  set_files (fun fs => <[file := text]> fs).
(** One [write] on a file opened by [open(file, 'a')]. *)
Definition append (file text : string) : M state unit :=
  set_files
    (fun fs => <[file := default EmptyString (fs !! file) +:+ text]> fs).
(** [open(file, 'a')] itself creates a missing file. *)
Definition open_append (file : string) : M state unit :=
  set_files (fun fs => <[file := default EmptyString (fs !! file)]> fs).

Definition nl : string := String (ascii_of_nat 10) EmptyString.
Definition header : string :=
  "timestamp,channel_id,sensor_type,data" +:+ nl.

Definition _prepare_log_file : M state unit :=
  try_except
    (let* s := self in
     listdir ;;
     let* present := exists_in_sd (log_file s) in
     if negb present then write_new (log_file s) header else ret tt)
    any_exception
    (ret tt).

Section Formatting.

Variable float_str : Q -> string.

Definition _format_data (d : payload) : string :=
  match d with
  | PList vs => join "," (map (str_value float_str) vs)
  | _ => str float_str d
  end.

(** [str(self.device_name)]. *)
Definition str_device_name (s : logger) : string :=
  match device_name s with
  | Some n => n
  | None => "None"
  end.

(** The line of one entry; the division by [self.timer] raises when the
    timer is zero. *)
Definition format_line (s : logger) (entry : reading) : M state string :=
  if Qeq_bool (timer s) 0 then raise ZeroDivisionError
  else
    let timestamp_str := str_int (int (timestamp entry / timer s)) in
    let data_str := _format_data (data entry) in
    ret (timestamp_str +:+ "," +:+ str_device_name s +:+ ","
         +:+ str_int (channel entry) +:+ "," +:+ sensor_type entry +:+ ","
         +:+ data_str +:+ nl).

(** [log_data(data_buffer)]: [batch] is the identity of the list object
    passed in and [entries] its content at the call. *)
Definition log_data (batch : ref) (entries : list reading) : M state unit :=
  modify (fun st : state =>
            ({| data_buffer := data_buffer (fst st) ++ [batch];
                device_name := device_name (fst st);
                timer := timer (fst st);
                cs_pin := cs_pin (fst st);
                log_file := log_file (fst st) |}, snd st)) ;;
  try_except
    (statvfs ;;
     _prepare_log_file ;;
     let* s := self in
     open_append (log_file s) ;;
     for_each entries
       (fun entry =>
          let* line := format_line s entry in
          append (log_file s) line))
    any_exception
    (ret tt).

End Formatting.

Definition clear_buffer : M state unit :=
  modify (fun st : state =>
            ({| data_buffer := [];
                device_name := device_name (fst st);
                timer := timer (fst st);
                cs_pin := cs_pin (fst st);
                log_file := log_file (fst st) |}, snd st)).

End SDCardLogger.

(** ** board/utils/ble_sender.py: the BLE link *)

Module BLEPeripheral.

(** Calls made on the BLE stack, oldest first.  A frame is recorded as the
    slice of readings whose JSON text is written and notified. *)
Inductive event : Type :=
| Active (on : bool)
| Irq
| RegisterServices
| Advertise (interval_us : Z) (adv_data : list Z)
| GattsWrite (handle : Z) (frame : list reading)
| GattsNotify (conn handle : Z) (frame : list reading).

(** The object together with the stack it drives.  [script] says, for the
    successive [gatts_write] and [gatts_notify] calls, whether the call
    raises; past its end every call succeeds.  [service_handle] is the
    handle the stack returns for the registered characteristic. *)
Record ble : Type := {
  name : string;
  buffer : list reading;
  conn_handle : option Z;
  tx_handle : Z;
  active : bool;
  service_handle : Z;
  script : list bool;
  log : list event
}.

Definition with_buffer (b : list reading) (s : ble) : ble :=
  {| name := name s; buffer := b; conn_handle := conn_handle s;
     tx_handle := tx_handle s; active := active s;
     service_handle := service_handle s; script := script s;
     log := log s |}.
Definition with_conn_handle (c : option Z) (s : ble) : ble :=
  {| name := name s; buffer := buffer s; conn_handle := c;
     tx_handle := tx_handle s; active := active s;
     service_handle := service_handle s; script := script s;
     log := log s |}.
Definition with_tx_handle (h : Z) (s : ble) : ble :=
  {| name := name s; buffer := buffer s; conn_handle := conn_handle s;
     tx_handle := h; active := active s;
     service_handle := service_handle s; script := script s;
     log := log s |}.
Definition with_active (a : bool) (s : ble) : ble :=
  {| name := name s; buffer := buffer s; conn_handle := conn_handle s;
     tx_handle := tx_handle s; active := a;
     service_handle := service_handle s; script := script s;
     log := log s |}.
Definition with_script (sc : list bool) (s : ble) : ble :=
  {| name := name s; buffer := buffer s; conn_handle := conn_handle s;
     tx_handle := tx_handle s; active := active s;
     service_handle := service_handle s; script := sc;
     log := log s |}.
Definition logged (e : event) (s : ble) : ble :=
  {| name := name s; buffer := buffer s; conn_handle := conn_handle s;
     tx_handle := tx_handle s; active := active s;
     service_handle := service_handle s; script := script s;
     log := log s ++ [e] |}.

(** [self.ble.active(on)]. *)
Definition ble_active (on : bool) : M ble unit :=
  modify (fun s => with_active on (logged (Active on) s)).
Definition ble_irq : M ble unit := modify (logged Irq).
Definition gatts_register_services : M ble Z :=
  modify (logged RegisterServices) ;;
  let* s := get in
  ret (service_handle s).
Definition gap_advertise (interval_us : Z) (adv_data : list Z) : M ble unit :=
  modify (logged (Advertise interval_us adv_data)).

(** A [gatts_write] or [gatts_notify]: logged, then the script decides. *)
Definition gatts_call (e : event) : M ble unit :=
  modify (logged e) ;;
  let* s := get in
  match script s with
  | [] => ret tt
  | raises :: rest =>
      put (with_script rest s) ;;
      if raises : bool then raise OSError else ret tt
  end.

Definition utf8 (s : string) : list Z :=
  map (fun c => Z.of_nat (nat_of_ascii c)) (list_ascii_of_string s).

Definition advertise : M ble unit :=
  let* s := get in
  let nm := utf8 (name s) in
  let adv_data :=
    [0x02; 0x01; 0x06] ++ [Z.of_nat (length nm) + 1; 0x09] ++ nm in
  gap_advertise 100000 adv_data.

(** [BLEPeripheral(name)] on a stack with the given handle and script. *)
Definition fresh (nm : string) (handle : Z) (sc : list bool) : ble :=
  {| name := nm; buffer := []; conn_handle := None; tx_handle := 0;
     active := false; service_handle := handle; script := sc; log := [] |}.
Definition init (nm : string) (handle : Z) (sc : list bool) : ble :=
  snd ((ble_active true ;;
        let* h := gatts_register_services in
        modify (with_tx_handle h) ;;
        ble_irq ;;
        advertise) (fresh nm handle sc)).

(** [bt_irq(event, data)]: 1 carries the handle of the central that
    connected, 2 is a disconnection. *)
Definition bt_irq (ev : Z) (conn : Z) : M ble unit :=
  if ev =? 1 then modify (with_conn_handle (Some conn))
  else if ev =? 2 then modify (with_conn_handle None)
  else ret tt.

Definition shutdown_ble : M ble unit := ble_active false.

Definition enable_ble : M ble unit :=
  ble_active true ;;
  modify (with_conn_handle None) ;;
  ble_irq ;;
  let* h := gatts_register_services in
  modify (with_tx_handle h) ;;
  advertise.

(** [for d in data: self.buffer.append(d)]. *)
Definition buffer_all (data : list reading) : M ble unit :=
  for_each data (fun d => modify (fun s => with_buffer (buffer s ++ [d]) s)).

Definition BATCH_SIZE : nat := 2.

(** [range(0, n, BATCH_SIZE)]. *)
Definition batch_starts (n : nat) : list nat :=
  map (fun k => (k * BATCH_SIZE)%nat)
      (seq 0 ((n + BATCH_SIZE - 1) / BATCH_SIZE)).

(** The body of the frame loop.  [gatts_notify] rejects a connection handle
    that is [None]. *)
Definition send_batch (all_data : list reading) (i : nat) : M ble unit :=
  let batch := take BATCH_SIZE (drop i all_data) in
  let* s := get in
  gatts_call (GattsWrite (tx_handle s) batch) ;;
  let* s := get in
  match conn_handle s with
  | Some conn => gatts_call (GattsNotify conn (tx_handle s) batch)
  | None => raise TypeError
  end.

Definition send_data (data : list reading) : M ble unit :=
  let* s := get in
  match conn_handle s with
  | None =>
      buffer_all data ;;
      enable_ble
  | Some _ =>
      try_except
        (buffer_all data ;;
         let* s := get in
         let all_data := buffer s in
         for_each (batch_starts (length all_data)) (send_batch all_data) ;;
         modify (with_buffer []) ;;
         shutdown_ble)
        any_exception
        (buffer_all data)
  end.

End BLEPeripheral.

(** ** master.py: the recording loop *)

Module Master.

(** The two values of [info["sensor_type"]] the loop tests for. *)
Inductive sensor_kind : Type :=
| KSCD40Sensor
| KGravitySensor.

(** One entry of [channel_maps]. *)
Record info : Type := {
  sensor_type : sensor_kind;
  interval : Z;
  last : Z
}.

Definition sampling_timer : Z := 30000.
Definition device : string := "ESP32-SensorData-1".

(** [mux = Multiplexer("MUX1", s_pins=[5, 4, 3, 2], en_pin=11, ...)]. *)
Definition mux : Multiplexer.mux :=
  {| Multiplexer.name := "MUX1"; Multiplexer.en := 11;
     Multiplexer.control_pins := [5; 4; 3; 2] |}.

(** Everything the loop reads and writes.  [channel_maps] keeps the order
    in which the dictionary is iterated; [data_buffer] is the content of the
    one list object, of identity [batch_ref], that the loop fills, hands to
    both sinks and clears. *)
Record world : Type := {
  i2c : I2C.bus;
  pins : Multiplexer.gpio;
  sd_logger : SDCardLogger.logger;
  card : SDCardLogger.card;
  ble_peripheral : BLEPeripheral.ble;
  channel_maps : list (Z * info);
  data_buffer : list reading;
  last_write_time : Z
}.

Definition batch_ref : ref := 0%nat.

Definition with_i2c (b : I2C.bus) (w : world) : world :=
  {| i2c := b; pins := pins w; sd_logger := sd_logger w; card := card w;
     ble_peripheral := ble_peripheral w; channel_maps := channel_maps w;
     data_buffer := data_buffer w; last_write_time := last_write_time w |}.
Definition with_pins (g : Multiplexer.gpio) (w : world) : world :=
  {| i2c := i2c w; pins := g; sd_logger := sd_logger w; card := card w;
     ble_peripheral := ble_peripheral w; channel_maps := channel_maps w;
     data_buffer := data_buffer w; last_write_time := last_write_time w |}.
Definition with_sd (st : SDCardLogger.state) (w : world) : world :=
  {| i2c := i2c w; pins := pins w; sd_logger := fst st; card := snd st;
     ble_peripheral := ble_peripheral w; channel_maps := channel_maps w;
     data_buffer := data_buffer w; last_write_time := last_write_time w |}.
Definition with_ble (b : BLEPeripheral.ble) (w : world) : world :=
  {| i2c := i2c w; pins := pins w; sd_logger := sd_logger w; card := card w;
     ble_peripheral := b; channel_maps := channel_maps w;
     data_buffer := data_buffer w; last_write_time := last_write_time w |}.
Definition with_channel_maps (m : list (Z * info)) (w : world) : world :=
  {| i2c := i2c w; pins := pins w; sd_logger := sd_logger w; card := card w;
     ble_peripheral := ble_peripheral w; channel_maps := m;
     data_buffer := data_buffer w; last_write_time := last_write_time w |}.
Definition with_data_buffer (d : list reading) (w : world) : world :=
  {| i2c := i2c w; pins := pins w; sd_logger := sd_logger w; card := card w;
     ble_peripheral := ble_peripheral w; channel_maps := channel_maps w;
     data_buffer := d; last_write_time := last_write_time w |}.
Definition with_last_write_time (t : Z) (w : world) : world :=
  {| i2c := i2c w; pins := pins w; sd_logger := sd_logger w; card := card w;
     ble_peripheral := ble_peripheral w; channel_maps := channel_maps w;
     data_buffer := data_buffer w; last_write_time := t |}.

Definition on_i2c {A} (m : M I2C.bus A) : M world A := zoom i2c with_i2c m.
Definition on_pins {A} (m : M Multiplexer.gpio A) : M world A :=
  zoom pins with_pins m.
Definition on_sd {A} (m : M SDCardLogger.state A) : M world A :=
  zoom (fun w => (sd_logger w, card w)) with_sd m.
Definition on_ble {A} (m : M BLEPeripheral.ble A) : M world A :=
  zoom ble_peripheral with_ble m.

(** [info["last"] = current_time] on the entry of [channel]. *)
Definition set_last (channel current_time : Z) (m : list (Z * info))
  : list (Z * info) :=
  map (fun ci : Z * info =>
         if fst ci =? channel
         then (fst ci, {| sensor_type := sensor_type (snd ci);
                          interval := interval (snd ci);
                          last := current_time |})
         else ci) m.

(** A [GravitySensor] is built, read once with the default window and
    dropped. *)
Definition read_gravity : M I2C.bus payload :=
  let* sensor := GravitySensor.init GravitySensor.ADDRESS_3 in
  fun b =>
    let '(r, st) := GravitySensor.read_sensor
                      GravitySensor.DEFAULT_COLLECT_NUM (sensor, b) in
    (r, snd st).

Definition read_scd40 : M I2C.bus payload :=
  SCD40Sensor.init ;;
  SCD40Sensor.read_sensor.

(** The test that guards a channel visit. *)
Definition due (current_time : Z) (i : info) : bool :=
  let elapsed := ticks_diff current_time (last i) in
  elapsed >=? sampling_timer.

(** The body of [for channel, info in channel_maps.items()]. *)
Definition visit (current_time : Z) (ci : Z * info) : M world unit :=
  let '(channel, info) := ci in
  if due current_time info then
    on_pins (Multiplexer.select_channel mux channel) ;;
    modify (fun w => with_channel_maps
                       (set_last channel current_time (channel_maps w)) w) ;;
    let* labelled :=
      match sensor_type info with
      | KSCD40Sensor =>
          let* d := on_i2c read_scd40 in ret ("CO2"%string, d)
      | KGravitySensor =>
          let* d := on_i2c read_gravity in ret ("O2"%string, d)
      end in
    modify (fun w => with_data_buffer
                       (data_buffer w ++
                        [mk_reading (inject_Z current_time / 1000) channel
                                    (fst labelled) (snd labelled)]) w)
  else ret tt.

Section Loop.

Variable float_str : Q -> string.

Definition flush_due (current_time : Z) (w : world) : bool :=
  ticks_diff current_time (last_write_time w) >=? 60000.

(** One pass of the body of [while True], entered at tick count
    [current_time]. *)
Definition tick (current_time : Z) : M world unit :=
  let* w := get in
  for_each (channel_maps w) (visit current_time) ;;
  let* w := get in
  if flush_due current_time w then
    on_sd (SDCardLogger.log_data float_str batch_ref (data_buffer w)) ;;
    on_ble (BLEPeripheral.send_data (data_buffer w)) ;;
    modify (with_data_buffer []) ;;
    modify (with_last_write_time current_time)
  else ret tt.

(** The loop over the successive readings of the clock; an exception that
    escapes a pass ends it. *)
Definition record_data (ticks : list Z) : M world unit :=
  for_each ticks tick.

End Loop.

End Master.

(** ** Reference notions the properties are stated against *)

Module Reference.

(** CRC-8 as polynomial division over GF(2), written from its parameters:
    generator x^8 + x^5 + x^4 + 1 (0x31 with the leading term, 0x131),
    register preset to 0xFF, bits taken most significant first, nothing
    reflected, no final xor.  A polynomial is the integer of its
    coefficients.  [gf2_mod n p] reduces the [n] coefficients above x^7. *)
Definition generator : Z := 0x131.

Fixpoint gf2_mod (n : nat) (p : Z) : Z :=
  match n with
  | O => p
  | S k => gf2_mod k (if Z.testbit p (Z.of_nat k + 8)
                      then Z.lxor p (Z.shiftl generator (Z.of_nat k))
                      else p)
  end.

Definition message (data : list Z) : Z :=
  fold_left (fun acc b => Z.lor (Z.shiftl acc 8) b) data 0.

(** The preset register is the same as 0xFF xor-ed onto the first byte. *)
Definition ref_crc8 (data : list Z) : Z :=
  let n := (8 * length data)%nat in
  gf2_mod n (Z.lxor (Z.shiftl (message data) 8)
                    (Z.shiftl 0xFF (Z.of_nat n))).

(** Bit [k] of a byte string flipped: bit [k mod 8] of byte [k / 8]. *)
Definition flip_bit (k : nat) (data : list Z) : list Z :=
  alter (fun b => Z.lxor b (Z.shiftl 1 (Z.of_nat (k mod 8)))) (k / 8)%nat data.

Definition is_byte (b : Z) : Prop := 0 <= b < 256.

(** The byte values, for exhaustive checks. *)
Definition bytes256 : list Z := map Z.of_nat (seq 0 256).

(** The table of the byte step of [crc8]: eight shift-and-xor passes. *)
Definition crc8_table (x : Z) : Z := Nat.iter 8 SCD40Sensor.crc8_bit x.

(** The 16-bit word at offset [i] of a frame, high byte first. *)
Definition word_at (data : list Z) (i : nat) : Z :=
  Z.lor (Z.shiftl (data !!! i) 8) (data !!! (i + 1)%nat).

(** *** The oxygen driver *)

(** The arithmetic mean of a non-empty list. *)
Definition mean (xs : list Q) : Q :=
  (Py.sum xs / inject_Z (Z.of_nat (length xs)))%Q.

(** The calibration key for the byte read from the key register, and the
    calibrated sample of a raw 3-byte frame. *)
Definition key_of (value : Z) : Q :=
  if value =? 0 then ((209 # 10) / 120)%Q else (inject_Z value / 1000)%Q.
Definition calibrated (key : Q) (b0 b1 b2 : Z) : Q :=
  (key * (inject_Z b0 + inject_Z b1 / 10 + inject_Z b2 / 100))%Q.

(** The bus after the two transactions of a [read_reg]. *)
Definition after_read_reg (addr reg : Z) (n : nat)
           (rest : list (option (list Z))) (b : I2C.bus) : I2C.bus :=
  {| I2C.pending := rest;
     I2C.trace := I2C.trace b ++ [I2C.WriteTo addr [reg];
                                  I2C.ReadFrom addr n] |}.

(** The driver tracks a history [hist] of calibrated samples, most recent
    first, when the first [_count] cells of [_oxygendata] are the [_count]
    most recent samples. *)
Definition tracks (s : GravitySensor.sensor) (hist : list Q) : Prop :=
  length (GravitySensor._oxygendata s) = Z.to_nat GravitySensor.MAX_BUFFER_SIZE
  /\ 0 <= GravitySensor._count s <= GravitySensor.MAX_BUFFER_SIZE
  /\ (Z.to_nat (GravitySensor._count s) <= length hist)%nat
  /\ take (Z.to_nat (GravitySensor._count s)) (GravitySensor._oxygendata s)
     = take (Z.to_nat (GravitySensor._count s)) hist.

(** *** The SD-card log *)

Import SDCardLogger.

(** The line [log_data] writes for an entry when the timer is not zero,
    and the lines of a batch. *)
Definition line_of (float_str : Q -> string) (s : logger) (entry : reading)
  : string :=
  str_int (int (timestamp entry / timer s)) +:+ "," +:+ str_device_name s
  +:+ "," +:+ str_int (channel entry) +:+ "," +:+ sensor_type entry +:+ ","
  +:+ _format_data float_str (data entry) +:+ nl.
Fixpoint lines_of (float_str : Q -> string) (s : logger)
         (entries : list reading) : string :=
  match entries with
  | [] => EmptyString
  | e :: es => line_of float_str s e +:+ lines_of float_str s es
  end.

(** The number of line ends in a text. *)
Fixpoint count_nl (t : string) : nat :=
  match t with
  | EmptyString => 0
  | String c t' =>
      (if Ascii.eqb c (ascii_of_nat 10) then 1 else 0) + count_nl t'
  end.

(** The card after [text] was appended to [file]. *)
Definition card_with (file text : string) (c : card) : card :=
  {| mounted := mounted c; sd := <[file := text]> (sd c) |}.

(** The logger after one more batch object was recorded. *)
Definition recorded (batch : ref) (s : logger) : logger :=
  {| data_buffer := data_buffer s ++ [batch]; device_name := device_name s;
     timer := timer s; cs_pin := cs_pin s; log_file := log_file s |}.

(** *** The BLE link *)

Import BLEPeripheral.

(** Consecutive frames of at most two readings. *)
Fixpoint frames (xs : list reading) : list (list reading) :=
  match xs with
  | [] => []
  | [x] => [[x]]
  | x :: y :: rest => [x; y] :: frames rest
  end.

(** The frames notified, and written, by a sequence of stack calls. *)
Definition notified (evs : list event) : list (list reading) :=
  omap (fun e => match e with
                 | GattsNotify _ _ f => Some f
                 | _ => None
                 end) evs.
Definition written (evs : list event) : list (list reading) :=
  omap (fun e => match e with
                 | GattsWrite _ f => Some f
                 | _ => None
                 end) evs.
Definition is_gatts (e : event) : Prop :=
  match e with
  | GattsWrite _ _ | GattsNotify _ _ _ => True
  | _ => False
  end.
(** The two calls that carry one frame. *)
Definition frame_events (tx conn : Z) (f : list reading) : list event :=
  [GattsWrite tx f; GattsNotify conn tx f].
(** No call among the next [n] of the script raises. *)
Definition quiet (n : nat) (sc : list bool) : bool := forallb negb (take n sc).
(** The calls of [enable_ble], and the state it leaves. *)
Definition advertisement (nm : string) : event :=
  let b := utf8 nm in
  Advertise 100000 ([0x02; 0x01; 0x06] ++ [Z.of_nat (length b) + 1; 0x09] ++ b).
Definition enable_events (nm : string) : list event :=
  [Active true; Irq; RegisterServices; advertisement nm].

Definition enabled (s : ble) : ble :=
  {| name := name s; buffer := buffer s; conn_handle := None;
     tx_handle := service_handle s; active := true;
     service_handle := service_handle s; script := script s;
     log := log s ++ enable_events (name s) |}.

(** What a run of the frame loop may change: only the script and the log,
    and the log only by [gatts_write] and [gatts_notify] calls. *)
Definition radio_only (s s' : ble) : Prop :=
  name s' = name s /\ buffer s' = buffer s /\ conn_handle s' = conn_handle s
  /\ tx_handle s' = tx_handle s /\ active s' = active s
  /\ service_handle s' = service_handle s
  /\ exists evs, log s' = log s ++ evs /\ Forall is_gatts evs.

(** *** The recording loop *)

(** What the channel visits of a pass leave alone: both sinks, the card and
    the time of the last flush. *)
Definition sinks (w : Master.world)
  : SDCardLogger.logger * SDCardLogger.card * BLEPeripheral.ble * Z :=
  (Master.sd_logger w, Master.card w, Master.ble_peripheral w,
   Master.last_write_time w).
Definition keeps_sinks {A} (m : M Master.world A) : Prop :=
  forall w, sinks (snd (m w)) = sinks w.

End Reference.

(** ** Sample data *)

Module Sample.

Import BLEPeripheral.
Import Reference.

Definition o2 (k : Z) : reading :=
  mk_reading (inject_Z k) 0 "O2" (PValue (VFloat (inject_Z k))).
Definition r1 : reading := o2 1.
Definition r2 : reading := o2 2.
Definition r3 : reading := o2 3.
Definition r4 : reading := o2 4.
Definition r5 : reading := o2 5.
(** A connected peripheral holding three unsent readings. *)
Definition connected (sc : list bool) : ble :=
  {| name := "ESP32-SensorData-1"; buffer := [r1; r2; r3];
     conn_handle := Some 64; tx_handle := 9; active := true;
     service_handle := 9; script := sc; log := [] |}.
Definition disconnected : ble :=
  {| name := "ESP32-SensorData-1"; buffer := [r1];
     conn_handle := None; tx_handle := 9; active := false;
     service_handle := 9; script := []; log := [] |}.
(** A well-formed measurement frame: 500 ppm, 25 degrees C, 37 percent. *)
Definition frame : list Z :=
  [0x01; 0xf4; 0x33; 0x66; 0x67; 0xa2; 0x5e; 0xb9; 0x3c].
(** The same frame with one bit of the temperature word flipped. *)
Definition corrupted : list Z :=
  [0x01; 0xf4; 0x33; 0x66; 0x66; 0xa2; 0x5e; 0xb9; 0x3c].
Definition bus_with (data : list Z) : I2C.bus :=
  {| I2C.pending := [Some []; Some data]; I2C.trace := [] |}.

(** A bus on which the key register reads 0 and the data register 20.90. *)
Definition gravity_bus : I2C.bus :=
  {| I2C.pending := [Some []; Some [0]; Some []; Some [20; 9; 0]];
     I2C.trace := [] |}.

(** The logger of the main script, a mounted card without a log file, and
    the entry of a CO2 reading taken at tick 60000. *)
Definition logger : SDCardLogger.logger :=
  SDCardLogger.fresh 20 30000 (Some "ESP32-SensorData-1") "log_sensors.txt".
Definition blank_card : SDCardLogger.card :=
  {| SDCardLogger.mounted := true; SDCardLogger.sd := ∅ |}.
Definition co2_entry : reading :=
  mk_reading (inject_Z 60000 / 1000) 1 "CO2"
             (PTuple [VInt 500; VFloat 25%Q; VFloat 37%Q]).

(** Channel 1 of the main script: a CO2 sensor to be read every 5 s, last
    read at tick 0; and a world holding that channel alone, with a bus on
    which the sensor answers [frame]. *)
Definition scd40_channel : Z * Master.info :=
  (1, {| Master.sensor_type := Master.KSCD40Sensor;
         Master.interval := 5000; Master.last := 0 |}).
Definition world0 : Master.world :=
  {| Master.i2c := {| I2C.pending := [Some []; Some []; Some frame];
                      I2C.trace := [] |};
     Master.pins := ∅;
     Master.sd_logger := logger;
     Master.card := blank_card;
     Master.ble_peripheral := disconnected;
     Master.channel_maps := [scd40_channel];
     Master.data_buffer := [];
     Master.last_write_time := 0 |}.

(** A world whose only channel is an oxygen sensor that answers the two
    probe reads of the constructor and nothing after. *)
Definition o2_channel : Z * Master.info :=
  (0, {| Master.sensor_type := Master.KGravitySensor;
         Master.interval := 15000; Master.last := 0 |}).
Definition fading_world : Master.world :=
  {| Master.i2c := {| I2C.pending := [Some []; Some [0]; Some []; Some [0]];
                      I2C.trace := [] |};
     Master.pins := ∅;
     Master.sd_logger := logger;
     Master.card := blank_card;
     Master.ble_peripheral := disconnected;
     Master.channel_maps := [o2_channel];
     Master.data_buffer := [];
     Master.last_write_time := 0 |}.

End Sample.

(** ** board/utils/sensors.py: calibration of the oxygen driver *)

Module GravityCalibration.
Import GravitySensor.






Section Floats.

(** The float arithmetic of the interpreter, which rounds: the value of
    the literal [1e-6], and the product and the quotient of two finite
    numbers, each given by the exact value of the float it yields.  [abs],
    [<] and [int] are exact on such values. *)
Variable EPSILON : Q.
Variable float_mul : Q -> Q -> Q.
Variable float_div : Q -> Q -> Q.



End Floats.

End GravityCalibration.

Module CalibrationSample.
End CalibrationSample.

(** ** Further notions the properties are stated against *)

Module Invariants.

Import Reference.

(** What [read_sensor] of the SCD40 driver returns for a frame it
    accepts. *)
Definition decoded (data : list Z) : payload :=
  PTuple [VInt (word_at data 0);
          VFloat (round2 (-45 + 175 * (inject_Z (word_at data 3) / 65535)));
          VFloat (round2 (100 * (inject_Z (word_at data 6) / 65535)))].

(** A bus whose next transaction is not answered. *)
Definition silent (b : I2C.bus) : Prop :=
  forall bs rest, I2C.pending b <> Some bs :: rest.

(** The bus after one unanswered (or acknowledged) transaction. *)
Definition after_op (o : I2C.op) (b : I2C.bus) : I2C.bus :=
  {| I2C.pending := tail (I2C.pending b); I2C.trace := I2C.trace b ++ [o] |}.

(** The shape of the history of a Gravity driver: 101 cells and a count
    between 0 and 101. *)
Definition shape (s : GravitySensor.sensor) : Prop :=
  length (GravitySensor._oxygendata s) = 101%nat
  /\ 0 <= GravitySensor._count s <= 101.
Definition keeps_shape {A} (m : M GravitySensor.state A) : Prop :=
  forall st, shape (fst st) -> shape (fst (snd (m st))).
(** A method that leaves the object alone, whatever it does on the bus. *)
Definition reads_only {A} (m : M GravitySensor.state A) : Prop :=
  forall st, fst (snd (m st)) = fst st.

(** The stack calls a step added to the log. *)
Definition new_events (s s' : BLEPeripheral.ble) : list BLEPeripheral.event :=
  drop (length (BLEPeripheral.log s)) (BLEPeripheral.log s').
(** The calls a send on a connection may make. *)
Definition is_send_event (e : BLEPeripheral.event) : Prop :=
  match e with
  | BLEPeripheral.GattsWrite _ _
  | BLEPeripheral.GattsNotify _ _ _
  | BLEPeripheral.Active false => True
  | _ => False
  end.

End Invariants.

(** ** The history of an oxygen driver *)

Module OxygenHistory.

Import Reference.
Import GravitySensor.

(** What a call of [get_oxygen_data] meets: a window it rejects; a key
    register that cannot be read (the history is not yet shifted); a data
    register that cannot be read, or gives fewer than three bytes (the
    history is already shifted); or both reads answered, with the
    calibrated sample [key * (b0 + b1/10 + b2/100)] they give. *)
Inductive outcome : Type :=
| Rejected
| KeyFailed
| DataFailed
| Sampled (v : Q).

Definition outcome_of (collect_num : Z) (b : I2C.bus) : outcome :=
  if (collect_num <=? 0) || (collect_num >? 101) then Rejected
  else
    match I2C.pending b with
    | Some _ :: Some (kb :: _) :: rest =>
        match rest with
        | Some _ :: Some (b0 :: b1 :: b2 :: _) :: _ =>
            Sampled (calibrated (key_of kb) b0 b1 b2)
        | _ => DataFailed
        end
    | _ => KeyFailed
    end.

(** The driver and the bus after a list of calls, oldest first, whose
    exceptions the caller caught. *)
Fixpoint after_calls (windows : list Z) (st : state) : state :=
  match windows with
  | [] => st
  | c :: cs => after_calls cs (snd (get_oxygen_data c st))
  end.

(** The same calls, each with its window and what it met. *)
Fixpoint met (windows : list Z) (st : state) : list (Z * outcome) :=
  match windows with
  | [] => []
  | c :: cs =>
      (c, outcome_of c (snd st)) :: met cs (snd (get_oxygen_data c st))
  end.

Definition sample_of (co : Z * outcome) : option Q :=
  match snd co with
  | Sampled v => Some v
  | _ => None
  end.

(** The samples taken by a list of calls, most recent first. *)
Definition samples (log : list (Z * outcome)) : list Q :=
  rev (omap sample_of log).

(** The running sample count: one more for each sample, capped at the
    window of the call that took it. *)
Definition count_step (n : Z) (co : Z * outcome) : Z :=
  match snd co with
  | Sampled _ => Z.min (n + 1) (fst co)
  | _ => n
  end.
Definition counted (log : list (Z * outcome)) : Z :=
  fold_left count_step log 0.

(** No call failed at the data register. *)
Definition no_data_failure (log : list (Z * outcome)) : Prop :=
  Forall (fun co => snd co <> DataFailed) log.

(** Every call that took a sample asked for the window [c]. *)
Definition same_window (c : Z) (log : list (Z * outcome)) : Prop :=
  Forall (fun co : Z * outcome =>
            match snd co with
            | Sampled _ => fst co = c
            | _ => True
            end) log.

End OxygenHistory.

Module OxygenSample.
Import GravitySensor.
(** The two probe reads of the constructor; a call that reads the key 250
    (a factor 1/4) and the frame [b0, 0, 0]; a call whose data register
    is not acknowledged. *)
Definition probe : list (option (list Z)) :=
  [Some []; Some [0]; Some []; Some [250]].
Definition answered (b0 : Z) : list (option (list Z)) :=
  [Some []; Some [250]; Some []; Some [b0; 0; 0]].
Definition data_unanswered : list (option (list Z)) :=
  [Some []; Some [250]; None].
Definition scripted (p : list (option (list Z))) : I2C.bus :=
  {| I2C.pending := p; I2C.trace := [] |}.
(** [GravitySensor(i2c)] on a scripted bus. *)
Definition new_driver (p : list (option (list Z))) : state :=
  match init ADDRESS_3 (scripted p) with
  | (Ok s, b) => (s, b)
  | (Raise _, b) => (fresh ADDRESS_3, b)
  end.
(** Samples 4, 2 and 8. *)
Definition steady : list (option (list Z)) :=
  probe ++ answered 16 ++ answered 8 ++ answered 32.
(** The same with a call between 2 and 8 whose data read fails. *)
Definition interrupted : list (option (list Z)) :=
  probe ++ answered 16 ++ answered 8 ++ data_unanswered ++ answered 32.
End OxygenSample.

(** ** pc_side/central_receiver.py *)

Module CentralReceiver.

(** A value built by [ujson.loads].  An object lists its items; the keys
    of a dictionary are distinct. *)
#[warnings="-register-all"]
Inductive json : Type :=
| JNull
| JBool (b : bool)
| JNum (q : Q)
| JStr (s : string)
| JList (xs : list json)
| JObj (items : list (string * json)).

(** The exceptions that can leave [write_to_file]. *)
Inductive host_exn : Type :=
| JSONError
| NotIterable
| AttributeError.

(** A row handed to [csv.writer.writerow]: its cells, before the writer
    turns them into text. *)
Definition row : Type := list json.

(** The output file, [None] while it does not exist, and the number of
    [datetime.now()] calls made so far. *)
Record host : Type := {
  output_file : option (list row);
  clock : nat
}.

(** [entry.get(key, default)]. *)
Fixpoint dict_get (items : list (string * json)) (key : string)
         (default : json) : json :=
  match items with
  | [] => default
  | (k, v) :: rest => if String.eqb k key then v else dict_get rest key default
  end.

Definition blank : json := JStr EmptyString.

Definition header_row : row :=
  [JStr "Receving_time"; JStr "Device_name"; JStr "Time (s)";
   JStr "Channel"; JStr "Sensor_type"; JStr "CO2 (ppm)";
   JStr "Temperature (Â°C)"; JStr "Humidity (%)"; JStr "O2 (%)"].

(** The four payload cells: oxygen, CO2, temperature, humidity.  A [bool]
    is an [int] for [isinstance]. *)
Definition payload_cells (reading_output : json)
  : json * json * json * json :=
  match reading_output with
  | JList [a; b; c] => (blank, a, b, c)
  | JNum _ | JBool _ => (reading_output, blank, blank, blank)
  | _ => (blank, blank, blank, blank)
  end.

Definition entry_row (now device_name : string)
           (entry : list (string * json)) : row :=
  let reading_output := dict_get entry "data" JNull in
  let '(oxygen_output, co2, temperature, humidity) :=
    payload_cells reading_output in
  [JStr now; JStr device_name;
   dict_get entry "timestamp" blank;
   dict_get entry "channel" blank;
   dict_get entry "sensor_type" blank;
   co2; temperature; humidity; oxygen_output].

Definition writerow (r : row) (h : host) : host :=
  {| output_file := Some (default [] (output_file h) ++ [r]);
     clock := clock h |}.

Section Receiver.

(** The parser, [None] when it raises, and the text of the successive
    values of [datetime.now().isoformat()]. *)
Variable loads : string -> option json.
Variable now : nat -> string.

(** The body of [for entry in batch] on one element of a list. *)
Definition write_entry (device_name : string) (entry : json) (h : host)
  : option host_exn * host :=
  match entry with
  | JObj items =>
      let h' := {| output_file := output_file h; clock := S (clock h) |} in
      (None, writerow (entry_row (now (clock h)) device_name items) h')
  | _ => (Some AttributeError, h)
  end.

Fixpoint write_entries (device_name : string) (entries : list json)
         (h : host) : option host_exn * host :=
  match entries with
  | [] => (None, h)
  | e :: es =>
      match write_entry device_name e h with
      | (None, h') => write_entries device_name es h'
      | (Some x, h') => (Some x, h')
      end
  end.

(** [for entry in batch] on whatever the parser returned: a list is run
    through; the keys of an object and the characters of a string have no
    [get]; nothing else can be iterated. *)
Definition write_batch (device_name : string) (batch : json) (h : host)
  : option host_exn * host :=
  match batch with
  | JList xs => write_entries device_name xs h
  | JObj [] | JStr EmptyString => (None, h)
  | JObj _ | JStr _ => (Some AttributeError, h)
  | _ => (Some NotIterable, h)
  end.

Definition write_to_file (device_name data : string) (h : host)
  : option host_exn * host :=
  let file_exists := bool_decide (is_Some (output_file h)) in
  let h1 := {| output_file := Some (default [] (output_file h));
               clock := clock h |} in
  let h2 := if negb file_exists then writerow header_row h1 else h1 in
  match loads data with
  | None => (Some JSONError, h2)
  | Some batch => write_batch device_name batch h2
  end.

End Receiver.

End CentralReceiver.

(** ** Vocabulary for the rows the receiver writes *)

Module ReceivedRows.
Import CentralReceiver.
(** The rows a run of well-formed entries adds, the first stamped with the
    [k]-th time. *)
Fixpoint entry_rows (now : nat -> string) (device_name : string) (k : nat)
         (entries : list (list (string * json))) : list row :=
  match entries with
  | [] => []
  | e :: es =>
      entry_row (now k) device_name e :: entry_rows now device_name (S k) es
  end.
(** The rows of the file once it was opened for appending. *)
Definition opened (h : host) : list row :=
  match output_file h with
  | None => [header_row]
  | Some rows => rows
  end.
Definition is_object (j : json) : Prop :=
  match j with JObj _ => True | _ => False end.
End ReceivedRows.


Module HostSample.
Import CentralReceiver.

Definition o2_entry : list (string * json) :=
  [("timestamp", JNum (30 # 1)); ("channel", JNum (3 # 1));
   ("sensor_type", JStr "O2"); ("data", JNum (209 # 10))].

Definition co2_entry : list (string * json) :=
  [("timestamp", JNum (30 # 1)); ("channel", JNum (1 # 1));
   ("sensor_type", JStr "CO2");
   ("data", JList [JNum (500 # 1); JNum (215 # 10); JNum (40 # 1)])].

(** A parser that knows three texts: a batch of two entries, an empty
    batch, and a batch with a number between two entries. *)
Definition loads (data : string) : option json :=
  if String.eqb data "batch" then Some (JList [JObj o2_entry; JObj co2_entry])
  else if String.eqb data "[]" then Some (JList [])
  else if String.eqb data "mixed"
       then Some (JList [JObj o2_entry; JNum (7 # 1); JObj co2_entry])
       else None.

Definition now (k : nat) : string :=
  NilZero.string_of_uint (Nat.to_uint k).

Definition no_file : host := {| output_file := None; clock := 0 |}.

End HostSample.

(** * Properties *)

Import Reference.

(** ** Facts about the SCD40 checksum *)

Example crc8_datasheet_word : SCD40Sensor.crc8 [0xBE; 0xEF] = 0x92.
Proof. reflexivity. Qed.

Lemma bytes256_forall (P : Z -> bool) :
  forallb P bytes256 = true ->
  forall x, is_byte x -> P x = true.
Proof.
  intros Hall x [Hlo Hhi].
  rewrite forallb_forall in Hall. apply Hall.
  unfold bytes256.
  replace x with (Z.of_nat (Z.to_nat x)) by lia.
  apply in_map, in_seq. lia.
Qed.

Lemma crc8_pair (a b : Z) :
  SCD40Sensor.crc8 [a; b]
  = crc8_table (Z.lxor (crc8_table (Z.lxor 0xFF a)) b).
Proof.
  unfold SCD40Sensor.crc8. cbn [fold_left].
  unfold SCD40Sensor.crc8_byte, crc8_table. reflexivity.
Qed.

Lemma table_linear_check :
  forallb
    (fun x =>
       forallb
         (fun y =>
            (crc8_table (Z.lxor x y) =? Z.lxor (crc8_table x) (crc8_table y))
            && (Z.lxor x y <? 256) && (crc8_table x <? 256)
            && (0 <=? crc8_table x))
         bytes256)
    bytes256 = true.
Proof. vm_compute. reflexivity. Qed.

Lemma table_linear (x y : Z) :
  is_byte x -> is_byte y ->
  crc8_table (Z.lxor x y) = Z.lxor (crc8_table x) (crc8_table y)
  /\ is_byte (Z.lxor x y) /\ is_byte (crc8_table x).
Proof.
  intros Hx Hy.
  pose proof (bytes256_forall _ table_linear_check x Hx) as H.
  pose proof (bytes256_forall _ H y Hy) as H'.
  cbv beta in H'.
  apply andb_prop in H' as [H' H4]. apply andb_prop in H' as [H' H3].
  apply andb_prop in H' as [H1 H2].
  apply Z.eqb_eq in H1. apply Z.ltb_lt in H2, H3. apply Z.leb_le in H4.
  assert (0 <= Z.lxor x y) by (apply Z.lxor_nonneg; unfold is_byte in *; lia).
  unfold is_byte. repeat split; lia.
Qed.

Lemma lxor_fixed (c d : Z) : Z.lxor c d = c -> d = 0.
Proof.
  intros H.
  transitivity (Z.lxor c (Z.lxor c d)).
  - rewrite <- Z.lxor_assoc, Z.lxor_nilpotent, Z.lxor_0_l. reflexivity.
  - rewrite H. apply Z.lxor_nilpotent.
Qed.

(** A flip in the first byte moves the CRC by the table applied twice to
    the flipped bit, a flip in the second byte by the table applied once. *)
Lemma crc8_flip_first (a b e : Z) :
  is_byte a -> is_byte b -> is_byte e ->
  SCD40Sensor.crc8 [Z.lxor a e; b]
  = Z.lxor (SCD40Sensor.crc8 [a; b]) (crc8_table (crc8_table e)).
Proof.
  intros Ha Hb He. rewrite !crc8_pair.
  assert (is_byte 0xFF) as Hff by (unfold is_byte; lia).
  destruct (table_linear 0xFF a Hff Ha) as (_ & Hx & _).
  destruct (table_linear _ e Hx He) as (L1 & _ & Htx).
  destruct (table_linear e e He He) as (_ & _ & Hte).
  destruct (table_linear _ b Htx Hb) as (_ & Hxb & _).
  destruct (table_linear _ _ Hxb Hte) as (L2 & _ & _).
  rewrite <- Z.lxor_assoc, L1.
  rewrite <- L2. f_equal.
  rewrite !Z.lxor_assoc. f_equal. apply Z.lxor_comm.
Qed.

Lemma crc8_flip_second (a b e : Z) :
  is_byte a -> is_byte b -> is_byte e ->
  SCD40Sensor.crc8 [a; Z.lxor b e]
  = Z.lxor (SCD40Sensor.crc8 [a; b]) (crc8_table e).
Proof.
  intros Ha Hb He. rewrite !crc8_pair.
  assert (is_byte 0xFF) as Hff by (unfold is_byte; lia).
  destruct (table_linear 0xFF a Hff Ha) as (_ & Hx & _).
  destruct (table_linear _ e Hx He) as (_ & _ & Htx).
  destruct (table_linear _ b Htx Hb) as (_ & Hxb & _).
  destruct (table_linear _ _ Hxb He) as (L2 & _ & _).
  rewrite <- L2. f_equal. symmetry. apply Z.lxor_assoc.
Qed.

Lemma crc8_detects_bit_flip (b0 b1 : Z) (k : nat) :
  is_byte b0 -> is_byte b1 -> (k < 16)%nat ->
  SCD40Sensor.crc8 (flip_bit k [b0; b1]) <> SCD40Sensor.crc8 [b0; b1].
Proof.
  intros H0 H1 Hk Heq.
  do 8 (destruct k as [|k];
        [ lazymatch type of Heq with
          | SCD40Sensor.crc8 (flip_bit ?K _) = _ =>
              change (flip_bit K [b0; b1])
                with [Z.lxor b0 (Z.shiftl 1 (Z.of_nat K)); b1] in Heq
          end;
          rewrite crc8_flip_first in Heq
            by (assumption
                || (split; [apply Z.leb_le | apply Z.ltb_lt];
                    vm_compute; reflexivity));
          apply lxor_fixed in Heq; vm_compute in Heq; discriminate | ]).
  do 8 (destruct k as [|k];
        [ lazymatch type of Heq with
          | SCD40Sensor.crc8 (flip_bit ?K _) = _ =>
              change (flip_bit K [b0; b1])
                with [b0; Z.lxor b1 (Z.shiftl 1 (Z.of_nat (K - 8)))] in Heq
          end;
          rewrite crc8_flip_second in Heq
            by (assumption
                || (split; [apply Z.leb_le | apply Z.ltb_lt];
                    vm_compute; reflexivity));
          apply lxor_fixed in Heq; vm_compute in Heq; discriminate | ]).
  lia.
Qed.

Lemma crc8_reference_check :
  forallb
    (fun a =>
       forallb (fun b => SCD40Sensor.crc8 [a; b] =? ref_crc8 [a; b]) bytes256)
    bytes256 = true.
Proof. vm_compute. reflexivity. Qed.

Lemma crc8_matches_reference (b0 b1 : Z) :
  is_byte b0 -> is_byte b1 ->
  SCD40Sensor.crc8 [b0; b1] = ref_crc8 [b0; b1].
Proof.
  intros H0 H1.
  pose proof (bytes256_forall _ crc8_reference_check b0 H0) as H.
  pose proof (bytes256_forall _ H b1 H1) as H'.
  cbv beta in H'. apply Z.eqb_eq in H'. exact H'.
Qed.

(** [parse_word] leaves the bus alone and answers only for a word whose
    checksum byte matches. *)
Lemma parse_word_bus (data : list Z) (i : nat) (b : I2C.bus) :
  snd (SCD40Sensor.parse_word data i b) = b.
Proof.
  unfold SCD40Sensor.parse_word, bind, index, ret, raise.
  destruct (data !! (i + 2)%nat); [|reflexivity].
  destruct (negb _); [reflexivity|].
  destruct (take 2 (drop i data) !! 0%nat); [|reflexivity].
  destruct (take 2 (drop i data) !! 1%nat); reflexivity.
Qed.

Lemma parse_word_mismatch (data : list Z) (i : nat) (c : Z) (b : I2C.bus) :
  data !! (i + 2)%nat = Some c ->
  SCD40Sensor.crc8 (take 2 (drop i data)) <> c ->
  SCD40Sensor.parse_word data i b = (Raise ValueError, b).
Proof.
  intros Hc Hne.
  unfold SCD40Sensor.parse_word, bind, index, ret, raise. rewrite Hc.
  apply Z.eqb_neq in Hne. rewrite Hne. reflexivity.
Qed.

Lemma parse_word_run (data : list Z) (i : nat) (b : I2C.bus) :
  exists r, SCD40Sensor.parse_word data i b = (r, b).
Proof.
  exists (fst (SCD40Sensor.parse_word data i b)).
  rewrite <- (parse_word_bus data i b) at 3.
  apply surjective_pairing.
Qed.

Lemma read_sensor_crc_mismatch (b : I2C.bus) (ack data : list Z)
      (rest : list (option (list Z))) (i : nat) (c : Z) :
  I2C.pending b = Some ack :: Some data :: rest ->
  i ∈ [0; 3; 6]%nat ->
  data !! (i + 2)%nat = Some c ->
  SCD40Sensor.crc8 (take 2 (drop i data)) <> c ->
  fst (SCD40Sensor.read_sensor b) = Ok SCD40Sensor.read_failed.
Proof.
  intros Hp Hi Hc Hne.
  unfold SCD40Sensor.read_sensor, try_except, bind at 1 2.
  unfold I2C.writeto, I2C.readfrom, I2C.transact, bind at 1, ret at 1.
  rewrite Hp. cbn [I2C.pending I2C.trace].
  set (b2 := {| I2C.pending := rest; I2C.trace := _ |}).
  unfold bind.
  destruct (parse_word_run data 0 b2) as [r0 E0].
  destruct (parse_word_run data 3 b2) as [r3 E3].
  destruct (parse_word_run data 6 b2) as [r6 E6].
  assert (Hbad : r0 = Raise ValueError \/ r3 = Raise ValueError
                 \/ r6 = Raise ValueError).
  { repeat (apply elem_of_cons in Hi as [-> | Hi]);
      [ left | right; left | right; right | by apply elem_of_nil in Hi ];
      (pose proof (parse_word_mismatch data _ c b2 Hc Hne) as E;
       congruence). }
  rewrite E0. destruct r0 as [w0|e0]; [|reflexivity].
  rewrite E3. destruct r3 as [w3|e3]; [|reflexivity].
  rewrite E6. destruct r6 as [w6|e6]; [|reflexivity].
  destruct Hbad as [H | [H | H]]; discriminate.
Qed.

Lemma parse_word_match (data : list Z) (i : nat) (b : I2C.bus) :
  (i + 2 < length data)%nat ->
  data !! (i + 2)%nat = Some (SCD40Sensor.crc8 (take 2 (drop i data))) ->
  SCD40Sensor.parse_word data i b = (Ok (word_at data i), b).
Proof.
  intros Hlen Hc.
  unfold SCD40Sensor.parse_word, bind, index, ret, raise. rewrite Hc.
  rewrite Z.eqb_refl. cbn [negb].
  rewrite !lookup_take_lt, !lookup_drop by lia.
  unfold word_at.
  rewrite Nat.add_0_r.
  destruct (lookup_lt_is_Some_2 data i ltac:(lia)) as [hi Hhi].
  destruct (lookup_lt_is_Some_2 data (i + 1) ltac:(lia)) as [lo Hlo].
  rewrite (list_lookup_total_correct _ _ _ Hhi).
  rewrite (list_lookup_total_correct _ _ _ Hlo).
  rewrite Hhi, Hlo. reflexivity.
Qed.

Lemma round_half_even_near (q : Q) :
  (Qabs (inject_Z (round_half_even q) - q) <= 1 # 2)%Q.
Proof.
  unfold round_half_even.
  pose proof (Qfloor_le q) as Hlo. pose proof (Qlt_floor q) as Hhi.
  set (f := Qfloor q) in *.
  rewrite inject_Z_plus in Hhi.
  apply Qabs_Qle_condition.
  destruct (Qcompare_spec (q - inject_Z f) (1 # 2)) as [He | Hl | Hg].
  - destruct (Z.even f); [| rewrite inject_Z_plus];
      split; unfold Qle, Qlt, Qeq in *; simpl in *; lia.
  - split; unfold Qle, Qlt, Qeq in *; simpl in *; lia.
  - rewrite inject_Z_plus. split; unfold Qle, Qlt, Qeq in *; simpl in *; lia.
Qed.

Lemma round2_near (q : Q) : (Qabs (round2 q - q) <= 1 # 200)%Q.
Proof.
  unfold round2.
  pose proof (round_half_even_near (q * 100)) as H.
  apply Qabs_Qle_condition in H as [H1 H2].
  apply Qabs_Qle_condition.
  set (n := round_half_even (q * 100)) in *. clearbody n.
  destruct q as [a b].
  unfold Qle, Qminus, Qplus, Qopp, Qdiv, Qmult, Qinv, inject_Z in *.
  simpl in *. split; lia.
Qed.

Lemma round2_hundredths (q : Q) :
  (round2 q * 100 == inject_Z (round_half_even (q * 100)))%Q.
Proof. unfold round2. field. Qed.

Lemma read_sensor_decodes (b : I2C.bus) (ack data : list Z)
      (rest : list (option (list Z))) :
  I2C.pending b = Some ack :: Some data :: rest ->
  length data = 9%nat ->
  (forall i, i ∈ [0; 3; 6]%nat ->
             data !! (i + 2)%nat
             = Some (SCD40Sensor.crc8 (take 2 (drop i data)))) ->
  fst (SCD40Sensor.read_sensor b)
  = Ok (PTuple
          [VInt (word_at data 0);
           VFloat (round2 (-45 + 175 * (inject_Z (word_at data 3) / 65535)));
           VFloat (round2 (100 * (inject_Z (word_at data 6) / 65535)))]).
Proof.
  intros Hp Hlen Hcrc.
  unfold SCD40Sensor.read_sensor, try_except, bind at 1 2.
  unfold I2C.writeto, I2C.readfrom, I2C.transact, bind at 1, ret at 1.
  rewrite Hp. cbn [I2C.pending I2C.trace].
  set (b2 := {| I2C.pending := rest; I2C.trace := _ |}).
  unfold bind.
  rewrite !parse_word_match by (try lia; apply Hcrc; set_solver).
  reflexivity.
Qed.

Example temperature_low_end :
  (round2 (SCD40Sensor.temp_of_raw 0) == -45)%Q.
Proof. reflexivity. Qed.

Example temperature_high_end :
  (round2 (SCD40Sensor.temp_of_raw 65535) == 130)%Q.
Proof. reflexivity. Qed.

(** C6: over every 2-byte word [crc8] equals the reference CRC-8
    (polynomial 0x31, preset 0xFF, no reflection) and changes under every
    single-bit flip of the word; a frame in which the checksum byte of one
    of the three words differs from the computed CRC makes [read_sensor]
    return the all-[None] triple, no decoded value with it. *)
Theorem crc8_guards_words :
  (forall b0 b1 : Z,
      is_byte b0 -> is_byte b1 ->
      SCD40Sensor.crc8 [b0; b1] = ref_crc8 [b0; b1]
      /\ forall k : nat,
          (k < 16)%nat ->
          SCD40Sensor.crc8 (flip_bit k [b0; b1]) <> SCD40Sensor.crc8 [b0; b1])
  /\ (forall (b : I2C.bus) (ack data : list Z)
             (rest : list (option (list Z))) (i : nat) (c : Z),
         I2C.pending b = Some ack :: Some data :: rest ->
         i ∈ [0; 3; 6]%nat ->
         data !! (i + 2)%nat = Some c ->
         SCD40Sensor.crc8 (take 2 (drop i data)) <> c ->
         fst (SCD40Sensor.read_sensor b) = Ok SCD40Sensor.read_failed).
Proof.
  split.
  - intros b0 b1 H0 H1. split.
    + apply crc8_matches_reference; assumption.
    + intros k Hk. apply crc8_detects_bit_flip; assumption.
  - apply read_sensor_crc_mismatch.
Qed.

Lemma crc8_guards_words_witness :
  SCD40Sensor.crc8 [0xBE; 0xEF] = ref_crc8 [0xBE; 0xEF]
  /\ SCD40Sensor.crc8 (flip_bit 11 [0xBE; 0xEF])
     <> SCD40Sensor.crc8 [0xBE; 0xEF]
  /\ fst (SCD40Sensor.read_sensor (Sample.bus_with Sample.corrupted))
     = Ok SCD40Sensor.read_failed.
Proof.
  destruct crc8_guards_words as [Hword Hread].
  assert (is_byte 0xBE) as Hb0 by (unfold is_byte; lia).
  assert (is_byte 0xEF) as Hb1 by (unfold is_byte; lia).
  destruct (Hword 0xBE 0xEF Hb0 Hb1) as [Href Hflip].
  split; [exact Href|]. split; [apply Hflip; lia|].
  apply (Hread (Sample.bus_with Sample.corrupted) [] Sample.corrupted []
               3%nat 0xa2).
  - reflexivity.
  - repeat constructor.
  - reflexivity.
  - vm_compute. discriminate.
Defined.

(** C7: for a 9-byte frame whose three checksum bytes match, [read_sensor]
    returns the first word as the CO2 value, -45 + 175 * raw / 65535 for
    the second and 100 * raw / 65535 for the third, each rounded to the
    nearest hundredth; the raw temperature words 0 and 65535 give -45 and
    130. *)
Theorem read_sensor_decoding (b : I2C.bus) (ack data : list Z)
        (rest : list (option (list Z))) :
  I2C.pending b = Some ack :: Some data :: rest ->
  length data = 9%nat ->
  (forall i, i ∈ [0; 3; 6]%nat ->
             data !! (i + 2)%nat
             = Some (SCD40Sensor.crc8 (take 2 (drop i data)))) ->
  fst (SCD40Sensor.read_sensor b)
  = Ok (PTuple
          [VInt (word_at data 0);
           VFloat (round2 (-45 + 175 * (inject_Z (word_at data 3) / 65535)));
           VFloat (round2 (100 * (inject_Z (word_at data 6) / 65535)))])
  /\ (forall q : Q,
         (Qabs (round2 q - q) <= 1 # 200)%Q
         /\ (round2 q * 100 == inject_Z (round_half_even (q * 100)))%Q)
  /\ (round2 (-45 + 175 * (inject_Z 0 / 65535)) == -45)%Q
  /\ (round2 (-45 + 175 * (inject_Z 65535 / 65535)) == 130)%Q.
Proof.
  intros Hp Hlen Hcrc.
  split; [apply (read_sensor_decodes b ack data rest Hp Hlen Hcrc)|].
  split; [intros q; split; [apply round2_near | apply round2_hundredths]|].
  split; reflexivity.
Qed.

Lemma read_sensor_decoding_witness :
  fst (SCD40Sensor.read_sensor (Sample.bus_with Sample.frame))
  = Ok (PTuple
          [VInt (word_at Sample.frame 0);
           VFloat (round2 (-45 + 175 * (inject_Z (word_at Sample.frame 3)
                                        / 65535)));
           VFloat (round2 (100 * (inject_Z (word_at Sample.frame 6)
                                  / 65535)))]).
Proof.
  apply (read_sensor_decoding (Sample.bus_with Sample.frame) []
                              Sample.frame []).
  - reflexivity.
  - reflexivity.
  - intros i Hi.
    repeat (apply elem_of_cons in Hi as [-> | Hi]);
      [reflexivity | reflexivity | reflexivity | by apply elem_of_nil in Hi].
Defined.

Example sample_frame_reading :
  fst (SCD40Sensor.read_sensor (Sample.bus_with Sample.frame))
  = Ok (PTuple [VInt 500; VFloat (2500 # 100); VFloat (3700 # 100)]).
Proof. vm_compute. reflexivity. Qed.

(** ** Facts about the monad *)

Lemma for_each_ok {S A} (xs : list A) (body : A -> M S unit) (s : S) :
  (forall x s', fst (body x s') = Ok tt) ->
  fst (for_each xs body s) = Ok tt.
Proof.
  intros Hbody. revert s.
  induction xs as [|x xs IH]; intros s; [reflexivity|].
  cbn [for_each]. unfold bind.
  specialize (Hbody x s). destruct (body x s) as [[[]|e] s']; cbn in Hbody.
  - apply IH.
  - discriminate.
Qed.

(** ** The multiplexer *)

Lemma select_channel_rejects (m : Multiplexer.mux) (channel : Z)
      (g : Multiplexer.gpio) :
  ~ 0 <= channel <= 15 ->
  Multiplexer.select_channel m channel g = (Raise ValueError, g).
Proof.
  intros Hout. unfold Multiplexer.select_channel.
  destruct (0 <=? channel) eqn:Hlo; destruct (channel <=? 15) eqn:Hhi;
    try reflexivity.
  apply Z.leb_le in Hlo, Hhi. lia.
Qed.

Lemma select_channel_accepts (m : Multiplexer.mux) (channel : Z)
      (g : Multiplexer.gpio) :
  0 <= channel <= 15 ->
  fst (Multiplexer.select_channel m channel g) = Ok tt.
Proof.
  intros [Hlo Hhi]. unfold Multiplexer.select_channel.
  apply Z.leb_le in Hlo, Hhi. rewrite Hlo, Hhi. cbn [andb negb].
  unfold bind, Multiplexer.enable, Multiplexer.pin_value at 1, modify.
  apply for_each_ok. reflexivity.
Qed.

(** The address lines of the board's multiplexer carry the channel number,
    pin 5 the most significant bit. *)
Example select_channel_ten :
  let g := snd (Multiplexer.select_channel Master.mux 10 ∅) in
  (g !! 11, g !! 5, g !! 4, g !! 3, g !! 2)
  = (Some 0, Some 1, Some 0, Some 1, Some 0).
Proof. vm_compute. reflexivity. Qed.

(** C9: a channel outside 0..15 makes [select_channel] raise [ValueError]
    with no pin written, the enable pin and the control pins included; a
    channel inside 0..15 is accepted. *)
Theorem select_channel_domain (m : Multiplexer.mux) (channel : Z)
        (g : Multiplexer.gpio) :
  (~ 0 <= channel <= 15 ->
   Multiplexer.select_channel m channel g = (Raise ValueError, g))
  /\ (0 <= channel <= 15 ->
      fst (Multiplexer.select_channel m channel g) = Ok tt).
Proof.
  split; [apply select_channel_rejects | apply select_channel_accepts].
Qed.

Lemma select_channel_domain_witness :
  Multiplexer.select_channel Master.mux 16 ∅ = (Raise ValueError, ∅)
  /\ Multiplexer.select_channel Master.mux (-1) ∅ = (Raise ValueError, ∅)
  /\ fst (Multiplexer.select_channel Master.mux 15 ∅) = Ok tt.
Proof.
  split; [|split].
  - apply (select_channel_domain Master.mux 16 ∅). lia.
  - apply (select_channel_domain Master.mux (-1) ∅). lia.
  - apply (select_channel_domain Master.mux 15 ∅). lia.
Defined.

(** ** The BLE link *)

Import BLEPeripheral.

Lemma frames_concat (xs : list reading) : concat (frames xs) = xs.
Proof.
  induction xs as [xs IH] using (induction_ltof1 _ (@length reading)).
  destruct xs as [|x [|y rest]]; try reflexivity.
  cbn [frames concat app]. rewrite IH; [reflexivity|]. unfold ltof. cbn. lia.
Qed.

Lemma frames_sizes (xs : list reading) :
  Forall (fun f => 1 <= length f <= 2)%nat (frames xs).
Proof.
  induction xs as [xs IH] using (induction_ltof1 _ (@length reading)).
  destruct xs as [|x [|y rest]]; cbn [frames].
  - constructor.
  - repeat constructor.
  - constructor; [cbn; lia|]. apply IH. unfold ltof. cbn. lia.
Qed.

Lemma frames_of_five (xs : list reading) :
  length xs = 5%nat -> map length (frames xs) = [2; 2; 1]%nat.
Proof.
  intros H. do 6 (destruct xs as [|? xs]; try discriminate). reflexivity.
Qed.

(** The slices the loop of [send_data] cuts are those frames. *)
Lemma batch_starts_step (n : nat) :
  batch_starts (S (S n)) = 0%nat :: map (fun i => (2 + i)%nat) (batch_starts n).
Proof.
  unfold batch_starts, BATCH_SIZE.
  replace ((S (S n) + 2 - 1) / 2)%nat with (S ((n + 2 - 1) / 2)).
  2:{ replace (S (S n) + 2 - 1)%nat with (1 * 2 + (n + 2 - 1))%nat by lia.
      rewrite Nat.div_add_l by lia. lia. }
  cbn [seq map]. f_equal.
  rewrite <- seq_shift, !map_map. apply map_ext. intros k. lia.
Qed.

Lemma loop_slices (xs : list reading) :
  map (fun i => take BATCH_SIZE (drop i xs)) (batch_starts (length xs))
  = frames xs.
Proof.
  induction xs as [xs IH] using (induction_ltof1 _ (@length reading)).
  destruct xs as [|x [|y rest]]; try reflexivity.
  cbn [length]. rewrite batch_starts_step. cbn [map frames]. f_equal.
  rewrite map_map. cbn [drop Nat.add]. apply IH. unfold ltof. cbn. lia.
Qed.

Ltac ble_step :=
  repeat (progress
            (cbn;
             try unfold ret, raise, bind, get, put, modify, logged,
               with_script, with_buffer, with_active, with_conn_handle,
               with_tx_handle, frame_events)).

Lemma buffer_all_run (data : list reading) (s : ble) :
  buffer_all data s = (Ok tt, with_buffer (buffer s ++ data) s).
Proof.
  revert s. induction data as [|d data IH]; intros s.
  - destruct s. cbn. rewrite app_nil_r. reflexivity.
  - unfold buffer_all in *. cbn [for_each]. unfold bind, modify at 1.
    rewrite IH. destruct s. cbn. rewrite <- app_assoc. reflexivity.
Qed.

Lemma enable_ble_run (s : ble) : enable_ble s = (Ok tt, enabled s).
Proof.
  destruct s.
  unfold enabled, enable_events, advertisement, enable_ble, advertise,
    gap_advertise, gatts_register_services, ble_irq, ble_active, bind,
    modify, get, ret, with_tx_handle, with_conn_handle, with_active, logged.
  cbn. rewrite <- !app_assoc. reflexivity.
Qed.

Lemma gatts_call_run (e : event) (s : ble) :
  gatts_call e s
  = (match script s with true :: _ => Raise OSError | _ => Ok tt end,
     with_script (tail (script s)) (logged e s)).
Proof. destruct s as [? ? ? ? ? ? [|[] sc] ?]; reflexivity. Qed.

Lemma radio_only_refl (s : ble) : radio_only s s.
Proof.
  repeat split. exists []. split; [by rewrite app_nil_r | constructor].
Qed.

Lemma radio_only_trans (s1 s2 s3 : ble) :
  radio_only s1 s2 -> radio_only s2 s3 -> radio_only s1 s3.
Proof.
  intros (?&?&?&?&?&?&e1&L1&F1) (?&?&?&?&?&?&e2&L2&F2).
  repeat split; try congruence.
  exists (e1 ++ e2). split; [rewrite L2, L1; symmetry; apply app_assoc|].
  apply Forall_app; auto.
Qed.

Lemma gatts_call_radio_only (e : event) (s : ble) :
  is_gatts e -> radio_only s (snd (gatts_call e s)).
Proof.
  intros He. rewrite gatts_call_run. cbn [snd].
  repeat split. exists [e]. split; [reflexivity | by constructor].
Qed.

Lemma send_batch_radio_only (all_data : list reading) (i : nat) (s : ble) :
  radio_only s (snd (send_batch all_data i s)).
Proof.
  unfold send_batch, bind, get.
  pose proof (gatts_call_radio_only
                (GattsWrite (tx_handle s) (take BATCH_SIZE (drop i all_data)))
                s I) as H1.
  destruct (gatts_call _ s) as [[[]|e] s1]; cbn [snd] in *; [|exact H1].
  destruct (conn_handle s1) as [c|]; [|exact H1].
  eapply radio_only_trans; [exact H1|].
  apply gatts_call_radio_only. exact I.
Qed.

Lemma frame_loop_radio_only (all_data : list reading) (starts : list nat)
      (s : ble) :
  radio_only s (snd (for_each starts (send_batch all_data) s)).
Proof.
  revert s. induction starts as [|i starts IH]; intros s.
  - apply radio_only_refl.
  - cbn [for_each]. unfold bind.
    pose proof (send_batch_radio_only all_data i s) as H1.
    destruct (send_batch all_data i s) as [[[]|e] s1]; cbn [snd] in *.
    + eapply radio_only_trans; [exact H1 | apply IH].
    + exact H1.
Qed.

(** One frame: both calls go through when the next two script entries
    are quiet. *)
Lemma send_batch_quiet (all_data : list reading) (i : nat) (s : ble)
      (c : Z) :
  conn_handle s = Some c ->
  quiet 2 (script s) = true ->
  send_batch all_data i s
  = (Ok tt,
     {| name := name s; buffer := buffer s; conn_handle := Some c;
        tx_handle := tx_handle s; active := active s;
        service_handle := service_handle s;
        script := drop 2 (script s);
        log := log s ++ frame_events (tx_handle s) c
                          (take BATCH_SIZE (drop i all_data)) |}).
Proof.
  intros Hc Hq. unfold send_batch, bind, get. rewrite !gatts_call_run.
  destruct s as [nm buf ch tx act sh sc lg]. cbn in *. subst ch.
  destruct sc as [|[] [|[] sc]]; try discriminate;
    ble_step; rewrite <- ?app_assoc; reflexivity.
Qed.

Lemma send_batch_noisy (all_data : list reading) (i : nat) (s : ble)
      (c : Z) :
  conn_handle s = Some c ->
  quiet 2 (script s) = false ->
  fst (send_batch all_data i s) = Raise OSError.
Proof.
  intros Hc Hq. unfold send_batch, bind, get. rewrite !gatts_call_run.
  destruct s as [nm buf ch tx act sh sc lg]. cbn in *. subst ch.
  destruct sc as [|[] [|[] sc]]; try discriminate; reflexivity.
Qed.

Lemma quiet_split (n m : nat) (sc : list bool) :
  quiet (n + m) sc = quiet n sc && quiet m (drop n sc).
Proof.
  unfold quiet. revert sc. induction n as [|n IH]; intros sc; [reflexivity|].
  destruct sc as [|b sc]; cbn [Nat.add take drop forallb].
  - destruct m; reflexivity.
  - rewrite IH. apply andb_assoc.
Qed.

Lemma frame_loop_quiet (all_data : list reading) (starts : list nat)
      (s : ble) (c : Z) :
  conn_handle s = Some c ->
  quiet (2 * length starts) (script s) = true ->
  for_each starts (send_batch all_data) s
  = (Ok tt,
     {| name := name s; buffer := buffer s; conn_handle := Some c;
        tx_handle := tx_handle s; active := active s;
        service_handle := service_handle s;
        script := drop (2 * length starts) (script s);
        log := log s
               ++ concat (map (fun i => frame_events (tx_handle s) c
                                          (take BATCH_SIZE (drop i all_data)))
                              starts) |}).
Proof.
  revert s. induction starts as [|i starts IH]; intros s Hc Hq.
  - destruct s. cbn in *. subst. rewrite app_nil_r. reflexivity.
  - replace (2 * length (i :: starts))%nat with (2 + 2 * length starts)%nat
      in * by (cbn [length]; lia).
    rewrite quiet_split in Hq. apply andb_prop in Hq as [Hq1 Hq2].
    cbn [for_each]. unfold bind at 1.
    rewrite (send_batch_quiet all_data i s c Hc Hq1).
    rewrite IH by (cbn; auto). cbn [name buffer tx_handle active
      service_handle script log map concat].
    rewrite drop_drop, <- app_assoc. reflexivity.
Qed.

Lemma frame_loop_noisy (all_data : list reading) (starts : list nat)
      (s : ble) (c : Z) :
  conn_handle s = Some c ->
  quiet (2 * length starts) (script s) = false ->
  fst (for_each starts (send_batch all_data) s) = Raise OSError.
Proof.
  revert s. induction starts as [|i starts IH]; intros s Hc Hq.
  - discriminate.
  - replace (2 * length (i :: starts))%nat with (2 + 2 * length starts)%nat
      in * by (cbn [length]; lia).
    rewrite quiet_split in Hq.
    cbn [for_each]. unfold bind at 1.
    destruct (quiet 2 (script s)) eqn:Hq1.
    + rewrite (send_batch_quiet all_data i s c Hc Hq1).
      apply IH; [reflexivity | exact Hq].
    + pose proof (send_batch_noisy all_data i s c Hc Hq1) as H.
      destruct (send_batch all_data i s) as [r s1]. cbn in H. subst r.
      reflexivity.
Qed.

Lemma frames_count (xs : list reading) :
  length (batch_starts (length xs)) = length (frames xs).
Proof. rewrite <- loop_slices, length_map. reflexivity. Qed.

(** [send_data] without a connection. *)
Lemma send_data_disconnected (data : list reading) (s : ble) :
  conn_handle s = None ->
  send_data data s = (Ok tt, enabled (with_buffer (buffer s ++ data) s)).
Proof.
  intros Hc. unfold send_data, bind at 1, get. rewrite Hc.
  unfold bind. rewrite buffer_all_run. apply enable_ble_run.
Qed.

(** [send_data] on a connection when no call of the frame loop raises. *)
Lemma send_data_delivered (data : list reading) (s : ble) (c : Z) :
  conn_handle s = Some c ->
  quiet (2 * length (frames (buffer s ++ data))) (script s) = true ->
  send_data data s
  = (Ok tt,
     {| name := name s; buffer := []; conn_handle := Some c;
        tx_handle := tx_handle s; active := false;
        service_handle := service_handle s;
        script := drop (2 * length (frames (buffer s ++ data))) (script s);
        log := log s
               ++ concat (map (frame_events (tx_handle s) c)
                              (frames (buffer s ++ data)))
               ++ [Active false] |}).
Proof.
  intros Hc Hq. unfold send_data, bind at 1, get. rewrite Hc.
  unfold try_except, bind at 1. rewrite buffer_all_run.
  unfold bind at 1, get.
  set (s1 := with_buffer (buffer s ++ data) s).
  change (buffer s1) with (buffer s ++ data).
  unfold bind at 1.
  rewrite (frame_loop_quiet _ _ s1 c Hc)
    by (rewrite frames_count; exact Hq).
  rewrite frames_count.
  rewrite <- (map_map (fun i => take BATCH_SIZE (drop i (buffer s ++ data)))
                      (frame_events (tx_handle s1) c)).
  rewrite loop_slices.
  unfold bind, modify, shutdown_ble, ble_active, with_buffer, with_active,
    logged. cbn. rewrite <- app_assoc. reflexivity.
Qed.

(** [send_data] on a connection when a call of the frame loop raises. *)
Lemma send_data_failed (data : list reading) (s : ble) (c : Z) :
  conn_handle s = Some c ->
  quiet (2 * length (frames (buffer s ++ data))) (script s) = false ->
  exists s',
    send_data data s = (Ok tt, s')
    /\ buffer s' = (buffer s ++ data) ++ data
    /\ active s' = active s
    /\ conn_handle s' = Some c
    /\ exists evs, log s' = log s ++ evs /\ Forall is_gatts evs.
Proof.
  intros Hc Hq. unfold send_data, bind at 1, get. rewrite Hc.
  unfold try_except, bind at 1. rewrite buffer_all_run.
  unfold bind at 1, get.
  set (s1 := with_buffer (buffer s ++ data) s).
  change (buffer s1) with (buffer s ++ data).
  unfold bind at 1.
  pose proof (frame_loop_noisy (buffer s ++ data)
                (batch_starts (length (buffer s ++ data))) s1 c Hc) as Hr.
  rewrite frames_count in Hr. specialize (Hr Hq).
  pose proof (frame_loop_radio_only (buffer s ++ data)
                (batch_starts (length (buffer s ++ data))) s1) as Hro.
  destruct (for_each _ _ s1) as [r s2]. cbn [fst snd] in *. subst r.
  cbn [any_exception]. rewrite buffer_all_run.
  destruct Hro as (Hn & Hb & Hch & Htx & Ha & Hsh & evs & Hl & Hf).
  eexists. split; [reflexivity|].
  cbn [with_buffer buffer active conn_handle log].
  rewrite Hb, Ha, Hch, Hl. subst s1. cbn.
  repeat split; eauto.
Qed.

Lemma notified_app (l1 l2 : list event) :
  notified (l1 ++ l2) = notified l1 ++ notified l2.
Proof. apply omap_app. Qed.

Lemma written_app (l1 l2 : list event) :
  written (l1 ++ l2) = written l1 ++ written l2.
Proof. apply omap_app. Qed.

Lemma notified_frame_events (tx c : Z) (fs : list (list reading)) :
  notified (concat (map (frame_events tx c) fs)) = fs.
Proof.
  induction fs as [|f fs IH]; [reflexivity|].
  cbn [map concat]. rewrite notified_app, IH. reflexivity.
Qed.

Lemma written_frame_events (tx c : Z) (fs : list (list reading)) :
  written (concat (map (frame_events tx c) fs)) = fs.
Proof.
  induction fs as [|f fs IH]; [reflexivity|].
  cbn [map concat]. rewrite written_app, IH. reflexivity.
Qed.

(** C4: without a connection [send_data] returns after appending the whole
    batch, in order, to the retry buffer and calling [enable_ble] (radio
    activated, services registered, advertising started); no frame is
    written or notified. *)
Theorem send_data_while_disconnected (data : list reading) (s : ble) :
  conn_handle s = None ->
  fst (send_data data s) = Ok tt
  /\ buffer (snd (send_data data s)) = buffer s ++ data
  /\ log (snd (send_data data s)) = log s ++ enable_events (name s)
  /\ active (snd (send_data data s)) = true
  /\ conn_handle (snd (send_data data s)) = None
  /\ written (log (snd (send_data data s))) = written (log s)
  /\ notified (log (snd (send_data data s))) = notified (log s).
Proof.
  intros Hc. rewrite (send_data_disconnected data s Hc).
  cbn [fst snd enabled with_buffer buffer log active conn_handle name].
  rewrite written_app, notified_app. cbn. rewrite !app_nil_r. auto 10.
Qed.

Lemma send_data_while_disconnected_witness :
  buffer (snd (send_data [Sample.r2; Sample.r3] Sample.disconnected))
  = [Sample.r1; Sample.r2; Sample.r3]
  /\ active (snd (send_data [Sample.r2; Sample.r3] Sample.disconnected))
     = true
  /\ notified
       (log (snd (send_data [Sample.r2; Sample.r3] Sample.disconnected)))
     = [].
Proof.
  pose proof (send_data_while_disconnected
                [Sample.r2; Sample.r3] Sample.disconnected eq_refl)
    as (_ & Hb & _ & Ha & _ & _ & Hn).
  split; [exact Hb | split; [exact Ha | exact Hn]].
Defined.

(** C3: on a connection, when no [gatts_write] or [gatts_notify] raises,
    [send_data] transmits the retry buffer followed by the incoming batch
    as consecutive frames of at most two readings (sizes 2, 2, 1 for five
    readings), each written and notified once, in order; afterwards the
    retry buffer is empty and the radio has been switched off. *)
Theorem send_data_while_connected (data : list reading) (s : ble) (c : Z) :
  conn_handle s = Some c ->
  quiet (2 * length (frames (buffer s ++ data))) (script s) = true ->
  fst (send_data data s) = Ok tt
  /\ written (log (snd (send_data data s)))
     = written (log s) ++ frames (buffer s ++ data)
  /\ notified (log (snd (send_data data s)))
     = notified (log s) ++ frames (buffer s ++ data)
  /\ concat (frames (buffer s ++ data)) = buffer s ++ data
  /\ Forall (fun f => 1 <= length f <= 2)%nat (frames (buffer s ++ data))
  /\ (length (buffer s ++ data) = 5%nat ->
      map length (frames (buffer s ++ data)) = [2; 2; 1]%nat)
  /\ buffer (snd (send_data data s)) = []
  /\ active (snd (send_data data s)) = false
  /\ last (log (snd (send_data data s))) = Some (Active false).
Proof.
  intros Hc Hq. rewrite (send_data_delivered data s c Hc Hq).
  cbn [fst snd buffer log active].
  rewrite !written_app, !notified_app.
  rewrite written_frame_events, notified_frame_events.
  cbn [written notified omap]. rewrite !app_nil_r.
  split; [reflexivity|]. split; [reflexivity|]. split; [reflexivity|].
  split; [apply frames_concat|]. split; [apply frames_sizes|].
  split; [apply frames_of_five|]. split; [reflexivity|].
  split; [reflexivity|].
  rewrite app_assoc. apply last_snoc.
Qed.

Lemma send_data_while_connected_witness :
  fst (send_data [Sample.r4; Sample.r5] (Sample.connected [])) = Ok tt
  /\ notified
       (log (snd (send_data [Sample.r4; Sample.r5] (Sample.connected []))))
     = [[Sample.r1; Sample.r2]; [Sample.r3; Sample.r4]; [Sample.r5]]
  /\ buffer (snd (send_data [Sample.r4; Sample.r5] (Sample.connected [])))
     = []
  /\ active (snd (send_data [Sample.r4; Sample.r5] (Sample.connected [])))
     = false.
Proof.
  pose proof (send_data_while_connected
                [Sample.r4; Sample.r5] (Sample.connected []) 64
                eq_refl eq_refl)
    as (Hr & _ & Hn & _ & _ & _ & Hb & Ha & _).
  split; [exact Hr | split; [exact Hn | split; [exact Hb | exact Ha]]].
Defined.

(** C2 as the code has it: when a [gatts_write] or [gatts_notify] of the
    frame loop raises, [send_data] still returns; the retry buffer then
    begins with everything it held when transmission started (the earlier
    content followed by the incoming batch, the readings of frames already
    sent included), so no reading is dropped; the radio is left as it was,
    the only calls made on it being writes and notifications. *)
Theorem send_data_failure_keeps_readings (data : list reading) (s : ble)
        (c : Z) :
  conn_handle s = Some c ->
  quiet (2 * length (frames (buffer s ++ data))) (script s) = false ->
  fst (send_data data s) = Ok tt
  /\ (buffer s ++ data) `prefix_of` buffer (snd (send_data data s))
  /\ active (snd (send_data data s)) = active s
  /\ exists evs, log (snd (send_data data s)) = log s ++ evs
                 /\ Forall is_gatts evs.
Proof.
  intros Hc Hq.
  destruct (send_data_failed data s c Hc Hq) as (s' & E & Hb & Ha & _ & Hl).
  rewrite E. cbn [fst snd]. rewrite Hb.
  split; [reflexivity|]. split; [by exists data|]. split; assumption.
Qed.

Lemma send_data_failure_keeps_readings_witness :
  [Sample.r1; Sample.r2; Sample.r3; Sample.r4; Sample.r5]
    `prefix_of`
    buffer (snd (send_data [Sample.r4; Sample.r5]
                           (Sample.connected [false; false; true])))
  /\ active (snd (send_data [Sample.r4; Sample.r5]
                            (Sample.connected [false; false; true])))
     = true.
Proof.
  pose proof (send_data_failure_keeps_readings
                [Sample.r4; Sample.r5]
                (Sample.connected [false; false; true]) 64
                eq_refl eq_refl)
    as (_ & Hb & Ha & _).
  split; [exact Hb | exact Ha].
Defined.

(** The retry buffer after a failure in the second of three frames: all
    five readings stay, followed by the incoming batch once more; it is not
    the three readings of frames 2 and 3. *)
Lemma send_data_failure_counterexample :
  frames (buffer (Sample.connected [false; false; true])
          ++ [Sample.r4; Sample.r5])
  = [[Sample.r1; Sample.r2]; [Sample.r3; Sample.r4]; [Sample.r5]]
  /\ notified (log (snd (send_data [Sample.r4; Sample.r5]
                            (Sample.connected [false; false; true]))))
     = [[Sample.r1; Sample.r2]]
  /\ buffer (snd (send_data [Sample.r4; Sample.r5]
                            (Sample.connected [false; false; true])))
     = [Sample.r1; Sample.r2; Sample.r3; Sample.r4; Sample.r5;
        Sample.r4; Sample.r5]
  /\ buffer (snd (send_data [Sample.r4; Sample.r5]
                            (Sample.connected [false; false; true])))
     <> [Sample.r3; Sample.r4; Sample.r5].
Proof.
  split; [reflexivity|]. split; [vm_compute; reflexivity|].
  assert (buffer (snd (send_data [Sample.r4; Sample.r5]
                            (Sample.connected [false; false; true])))
     = [Sample.r1; Sample.r2; Sample.r3; Sample.r4; Sample.r5;
        Sample.r4; Sample.r5]) as E by (vm_compute; reflexivity).
  split; [exact E|]. rewrite E. discriminate.
Qed.

(** ** The oxygen driver *)

Import GravitySensor.

Lemma read_reg_run (reg : Z) (n : nat) (s : sensor) (b : I2C.bus)
      (ack d : list Z) (rest : list (option (list Z))) :
  I2C.pending b = Some ack :: Some d :: rest ->
  read_reg reg n (s, b) = (Ok d, (s, after_read_reg (_addr s) reg n rest b)).
Proof.
  intros Hp. destruct b as [p t]. cbn in Hp. subst p.
  unfold read_reg, self, bind, try_except, on_bus, zoom, I2C.writeto,
    I2C.readfrom, I2C.transact, bind, ret, after_read_reg.
  cbn. rewrite <- app_assoc. reflexivity.
Qed.

Lemma get_flash_run (s : sensor) (b : I2C.bus) (ack kr : list Z) (kb : Z)
      (rest : list (option (list Z))) :
  I2C.pending b = Some ack :: Some (kb :: kr) :: rest ->
  get_flash (s, b)
  = (Ok tt, (set_key (key_of kb) s,
             after_read_reg (_addr s) GET_KEY_REGISTER 1 rest b)).
Proof.
  intros Hp. unfold get_flash, bind.
  rewrite (read_reg_run _ _ s b ack (kb :: kr) rest Hp).
  reflexivity.
Qed.

Lemma set_oxygendata_id (s : sensor) : set_oxygendata (_oxygendata s) s = s.
Proof. destruct s; reflexivity. Qed.

Lemma set_oxygendata_twice (l1 l2 : list Q) (s : sensor) :
  set_oxygendata l2 (set_oxygendata l1 s) = set_oxygendata l2 s.
Proof. reflexivity. Qed.

Lemma shift_one_run (i : nat) (s : sensor) (b : I2C.bus) (x : Q) :
  _oxygendata s !! (i - 1)%nat = Some x ->
  (i < length (_oxygendata s))%nat ->
  shift_one i (s, b)
  = (Ok tt, (set_oxygendata (<[i := x]> (_oxygendata s)) s, b)).
Proof.
  intros Hx Hi. unfold shift_one, bind, self, index. cbn [fst].
  rewrite Hx. unfold ret. rewrite decide_True by exact Hi. reflexivity.
Qed.

(** The downward loop moves cells [0 .. n-1] up by one. *)
Lemma shift_loop_run (n : nat) (s : sensor) (b : I2C.bus) :
  (n < length (_oxygendata s))%nat ->
  for_each (rev (seq 1 n)) shift_one (s, b)
  = (Ok tt,
     (set_oxygendata (take 1 (_oxygendata s) ++ take n (_oxygendata s)
                      ++ drop (S n) (_oxygendata s)) s, b)).
Proof.
  revert s. induction n as [|n IH]; intros s Hn.
  - cbn [seq rev for_each]. unfold ret.
    rewrite take_0, app_nil_l, take_drop, set_oxygendata_id. reflexivity.
  - rewrite seq_S, rev_app_distr. cbn [rev app Nat.add for_each].
    destruct (lookup_lt_is_Some_2 (_oxygendata s) n ltac:(lia)) as [x Hx].
    unfold bind.
    rewrite (shift_one_run (S n) s b x)
      by (try replace (S n - 1)%nat with n by lia; assumption).
    rewrite IH by (cbn; rewrite length_insert; lia).
    rewrite set_oxygendata_twice.
    change (_oxygendata (set_oxygendata ?l s)) with l.
    assert (take 1 (<[S n:=x]> (_oxygendata s))
            ++ take n (<[S n:=x]> (_oxygendata s))
            ++ drop (S n) (<[S n:=x]> (_oxygendata s))
            = take 1 (_oxygendata s) ++ take (S n) (_oxygendata s)
              ++ drop (S (S n)) (_oxygendata s)) as ->; [|reflexivity].
    rewrite !take_insert_ge by lia.
    rewrite (take_S_r _ _ _ Hx), <- !app_assoc. do 2 f_equal.
    cbn [app].
    rewrite (drop_S _ x) by (rewrite list_lookup_insert_eq; [done|lia]).
    f_equal. rewrite drop_insert_lt by lia. reflexivity.
Qed.

Lemma insert_front (l rest : list Q) (v : Q) :
  (0 < length l)%nat -> <[0%nat := v]> (take 1 l ++ rest) = v :: rest.
Proof. destruct l; [cbn; lia | reflexivity]. Qed.

Lemma window_guard (c : Z) :
  (c <=? 0) || (c >? MAX_BUFFER_SIZE) = false <-> 0 < c <= MAX_BUFFER_SIZE.
Proof.
  rewrite orb_false_iff, Z.leb_gt, Z.gtb_ltb, Z.ltb_ge. tauto.
Qed.

Lemma get_oxygen_data_run (c : Z) (s : sensor) (b : I2C.bus)
      (a1 kr a2 dr : list Z) (kb b0 b1 b2 : Z)
      (rest : list (option (list Z))) :
  0 < c <= MAX_BUFFER_SIZE ->
  0 <= _count s ->
  length (_oxygendata s) = Z.to_nat MAX_BUFFER_SIZE ->
  I2C.pending b = Some a1 :: Some (kb :: kr)
                  :: Some a2 :: Some (b0 :: b1 :: b2 :: dr) :: rest ->
  let v := calibrated (key_of kb) b0 b1 b2 in
  let n := Z.min (_count s + 1) c in
  let cells := v :: take (Z.to_nat (c - 1)) (_oxygendata s)
                 ++ drop (Z.to_nat c) (_oxygendata s) in
  get_oxygen_data c (s, b)
  = (Ok (Py.sum (take (Z.to_nat n) cells) / inject_Z n)%Q,
     (set_count n (set_oxygendata cells (set_key (key_of kb) s)),
      after_read_reg (_addr s) OXYGEN_DATA_REGISTER 3 rest
        (after_read_reg (_addr s) GET_KEY_REGISTER 1
           (Some a2 :: Some (b0 :: b1 :: b2 :: dr) :: rest) b))).
Proof.
  intros Hc Hcount Hlen Hp v n cells.
  unfold get_oxygen_data.
  rewrite (proj2 (window_guard c) Hc).
  unfold MAX_BUFFER_SIZE in *.
  unfold bind at 1. rewrite (get_flash_run s b a1 kr kb _ Hp).
  unfold bind at 1. unfold shift_range.
  rewrite shift_loop_run by (cbn [_oxygendata set_key]; lia).
  change (_oxygendata (set_key ?k s)) with (_oxygendata s).
  unfold bind at 1.
  rewrite (read_reg_run _ _ _
             (after_read_reg (_addr s) GET_KEY_REGISTER 1
                (Some a2 :: Some (b0 :: b1 :: b2 :: dr) :: rest) b)
             a2 (b0 :: b1 :: b2 :: dr) rest eq_refl).
  unfold bind, index, self, ret, set_self, modify.
  cbn [lookup list_lookup fst snd].
  change (_oxygendata (set_oxygendata ?l ?s0)) with l.
  replace (S (Z.to_nat (c - 1))) with (Z.to_nat c) by lia.
  rewrite decide_True by (rewrite length_app, length_take; lia).
  rewrite insert_front by lia.
  cbn [_key set_oxygendata set_key set_count _count _oxygendata _addr
       _txbuf _init_success fst snd].
  unfold _average.
  fold n. replace (n =? 0) with false by (symmetry; apply Z.eqb_neq; lia).
  unfold ret. reflexivity.
Qed.

Lemma tracks_fresh (addr : Z) : tracks (fresh addr) [].
Proof.
  unfold tracks, fresh, MAX_BUFFER_SIZE. cbn. rewrite length_replicate.
  repeat split; lia.
Qed.

Lemma window_cells (c n : Z) (v : Q) (l hist : list Q) (count : Z) :
  0 < c <= MAX_BUFFER_SIZE ->
  length l = Z.to_nat MAX_BUFFER_SIZE ->
  0 <= count ->
  (Z.to_nat count <= length hist)%nat ->
  take (Z.to_nat count) l = take (Z.to_nat count) hist ->
  n = Z.min (count + 1) c ->
  take (Z.to_nat n)
       (v :: take (Z.to_nat (c - 1)) l ++ drop (Z.to_nat c) l)
  = take (Z.to_nat n) (v :: hist).
Proof.
  unfold MAX_BUFFER_SIZE. intros Hc Hlen Hcount Hhist Htake ->.
  set (n := Z.min (count + 1) c).
  replace (Z.to_nat n) with (S (Z.to_nat (n - 1))) by lia.
  cbn [take]. f_equal.
  assert (Z.to_nat (n - 1) <= Z.to_nat (c - 1))%nat as H1 by lia.
  assert (Z.to_nat (n - 1) <= Z.to_nat count)%nat as H2 by lia.
  rewrite take_app_le by (rewrite length_take; lia).
  rewrite take_take, Nat.min_l by lia.
  rewrite <- (Nat.min_l _ _ H2), <- !take_take, Htake. reflexivity.
Qed.

Lemma get_oxygen_data_mean (c : Z) (s : sensor) (b : I2C.bus)
      (hist : list Q) (a1 kr a2 dr : list Z) (kb b0 b1 b2 : Z)
      (rest : list (option (list Z))) :
  0 < c <= MAX_BUFFER_SIZE ->
  tracks s hist ->
  I2C.pending b = Some a1 :: Some (kb :: kr)
                  :: Some a2 :: Some (b0 :: b1 :: b2 :: dr) :: rest ->
  let v := calibrated (key_of kb) b0 b1 b2 in
  let n := Z.min (_count s + 1) c in
  fst (get_oxygen_data c (s, b)) = Ok (mean (take (Z.to_nat n) (v :: hist)))
  /\ _count (fst (snd (get_oxygen_data c (s, b)))) = n
  /\ tracks (fst (snd (get_oxygen_data c (s, b)))) (v :: hist).
Proof.
  intros Hc (Hlen & Hcount & Hhist & Htake) Hp v n.
  rewrite (get_oxygen_data_run c s b a1 kr a2 dr kb b0 b1 b2 rest Hc
             (proj1 Hcount) Hlen Hp).
  cbn [fst snd]. fold v. fold n.
  pose proof (window_cells c n v (_oxygendata s) hist (_count s) Hc Hlen
                (proj1 Hcount) Hhist Htake eq_refl) as Hcells.
  unfold MAX_BUFFER_SIZE in *.
  split; [|split].
  - rewrite Hcells. unfold mean. do 2 f_equal.
    rewrite length_take, Nat.min_l by (cbn [length]; lia).
    rewrite Z2Nat.id by lia. reflexivity.
  - reflexivity.
  - unfold tracks, MAX_BUFFER_SIZE.
    cbn [set_count set_oxygendata _oxygendata _count].
    split; [|split; [|split]].
    + cbn [length]. rewrite length_app, length_take, length_drop. lia.
    + lia.
    + cbn [length]. lia.
    + exact Hcells.
Qed.

Lemma get_oxygen_data_out_of_window (c : Z) (st : GravitySensor.state) :
  ~ 0 < c <= MAX_BUFFER_SIZE ->
  get_oxygen_data c st = (Ok (-1)%Q, st).
Proof.
  intros Hc. unfold get_oxygen_data.
  destruct ((c <=? 0) || (c >? MAX_BUFFER_SIZE)) eqn:G; [reflexivity|].
  apply window_guard in G. contradiction.
Qed.

Import OxygenHistory.

Lemma outcome_sampled (c : Z) (b : I2C.bus) (v : Q) :
  outcome_of c b = Sampled v ->
  0 < c <= 101
  /\ exists (a1 kr a2 dr : list Z) (kb x0 x1 x2 : Z)
            (rest : list (option (list Z))),
      I2C.pending b = Some a1 :: Some (kb :: kr)
                      :: Some a2 :: Some (x0 :: x1 :: x2 :: dr) :: rest
      /\ v = calibrated (key_of kb) x0 x1 x2.
Proof.
  unfold outcome_of.
  destruct ((c <=? 0) || (c >? 101)) eqn:G; [discriminate|].
  apply window_guard in G. unfold MAX_BUFFER_SIZE in G.
  intros H. split; [exact G|].
  destruct (I2C.pending b)
    as [|[a1|] [|[[|kb kr]|] [|[a2|] [|[[|x0 [|x1 [|x2 dr]]]|] rest]]]];
    try discriminate.
  injection H as <-. eexists _, _, _, _, _, _, _, _, _.
  split; reflexivity.
Qed.

(** A call that cannot read the key register leaves the driver as it
    was. *)
Lemma get_oxygen_data_key_failed (c : Z) (s : sensor) (b : I2C.bus) :
  outcome_of c b = KeyFailed ->
  fst (snd (get_oxygen_data c (s, b))) = s.
Proof.
  unfold outcome_of, get_oxygen_data. unfold MAX_BUFFER_SIZE.
  destruct ((c <=? 0) || (c >? 101)); [discriminate|].
  intros H.
  unfold bind at 1, get_flash, bind at 1, read_reg, bind at 1, self,
    try_except, on_bus, zoom, bind at 1, I2C.writeto, bind at 1,
    I2C.readfrom, I2C.transact, ret, raise, any_exception.
  cbn [fst snd].
  destruct b as [p t]. cbn [I2C.pending I2C.trace] in *.
  destruct p as [|[a1|] [|[[|kb kr]|] rest]]; cbn; try reflexivity.
  destruct rest as [|[a2|] [|[[|x0 [|x1 [|x2 dr]]]|] rest]]; discriminate.
Qed.

Lemma samples_cons (co : Z * outcome) (log : list (Z * outcome)) :
  samples (co :: log)
  = samples log ++ match sample_of co with Some v => [v] | None => [] end.
Proof.
  unfold samples. cbn [omap list_omap].
  destruct (sample_of co); cbn [rev]; [reflexivity|].
  rewrite app_nil_r. reflexivity.
Qed.

(** One call that does not fail at the data register keeps the history
    tracked and the count in step. *)
Lemma get_oxygen_data_tracks (c : Z) (s : sensor) (b : I2C.bus)
      (hist : list Q) :
  tracks s hist ->
  outcome_of c b <> DataFailed ->
  tracks (fst (snd (get_oxygen_data c (s, b))))
         (match sample_of (c, outcome_of c b) with
          | Some v => [v]
          | None => []
          end ++ hist)
  /\ _count (fst (snd (get_oxygen_data c (s, b))))
     = count_step (_count s) (c, outcome_of c b).
Proof.
  intros Ht Hd. unfold sample_of, count_step. cbn [fst snd].
  destruct (outcome_of c b) as [| | |v] eqn:E.
  - assert (~ 0 < c <= MAX_BUFFER_SIZE) as Hc.
    { unfold outcome_of in E. unfold MAX_BUFFER_SIZE.
      destruct ((c <=? 0) || (c >? 101)) eqn:G.
      - intros Hc. apply (proj2 (window_guard c)) in Hc.
        unfold MAX_BUFFER_SIZE in Hc. congruence.
      - destruct (I2C.pending b)
          as [|[a1|] [|[[|kb kr]|]
                [|[a2|] [|[[|x0 [|x1 [|x2 dr]]]|] rest]]]];
          discriminate. }
    rewrite (get_oxygen_data_out_of_window c (s, b) Hc).
    cbn [fst snd app]. split; [exact Ht | reflexivity].
  - rewrite (get_oxygen_data_key_failed c s b E).
    cbn [app]. split; [exact Ht | reflexivity].
  - contradiction.
  - destruct (outcome_sampled c b v E)
      as (Hc & a1 & kr & a2 & dr & kb & x0 & x1 & x2 & rest & Hp & ->).
    destruct (get_oxygen_data_mean c s b hist a1 kr a2 dr kb x0 x1 x2 rest
                Hc Ht Hp) as (_ & H2 & H3).
    cbn [app]. split; [exact H3 | exact H2].
Qed.

Lemma after_calls_tracks (windows : list Z) (s : sensor) (b : I2C.bus)
      (hist : list Q) :
  tracks s hist ->
  no_data_failure (met windows (s, b)) ->
  tracks (fst (after_calls windows (s, b)))
         (samples (met windows (s, b)) ++ hist)
  /\ _count (fst (after_calls windows (s, b)))
     = fold_left count_step (met windows (s, b)) (_count s).
Proof.
  revert s b hist.
  induction windows as [|c cs IH]; intros s b hist Ht Hlog.
  - cbn. split; [exact Ht | reflexivity].
  - cbn [met after_calls] in *. cbn [snd] in Hlog.
    apply Forall_cons in Hlog as [Hc Hlog]. cbn [snd] in Hc.
    destruct (get_oxygen_data_tracks c s b hist Ht Hc) as [Ht' Hn'].
    destruct (get_oxygen_data c (s, b)) as [r [s' b']].
    cbn [fst snd] in *.
    destruct (IH s' b' _ Ht' Hlog) as [H1 H2].
    rewrite samples_cons, <- app_assoc. cbn [fold_left].
    rewrite <- Hn'. split; assumption.
Qed.

(** A new driver has an empty history. *)
Lemma init_tracks (addr : Z) (b0 b : I2C.bus) (s0 : sensor) :
  init addr b0 = (Ok s0, b) -> tracks s0 [] /\ _count s0 = 0.
Proof.
  unfold init, _try_initialize, try_except, bind at 1, read_reg at 1,
    bind at 1, self, try_except, on_bus, zoom, bind at 1, I2C.writeto,
    bind at 1, I2C.readfrom, I2C.transact, ret, raise, any_exception.
  assert (forall k ok,
             tracks (set_init_success ok (set_key k (fresh addr))) []
             /\ _count (set_init_success ok (set_key k (fresh addr))) = 0)
    as Hk.
  { intros k ok. split; [|reflexivity].
    unfold tracks, MAX_BUFFER_SIZE. cbn. rewrite length_replicate.
    repeat split; lia. }
  assert (forall ok,
             tracks (set_init_success ok (fresh addr)) []
             /\ _count (set_init_success ok (fresh addr)) = 0) as Hf.
  { intros ok. split; [|reflexivity].
    unfold tracks, MAX_BUFFER_SIZE. cbn. rewrite length_replicate.
    repeat split; lia. }
  destruct b0 as [p t]. cbn [fst snd I2C.pending I2C.trace].
  destruct p as [|[a1|] [|[d1|] p]]; cbn;
    try (intros [= <- <-]; apply Hf).
  unfold bind at 1, get_flash, bind at 1, read_reg, bind at 1, self,
    try_except, on_bus, zoom, bind at 1, I2C.writeto, bind at 1,
    I2C.readfrom, I2C.transact, ret, raise, any_exception.
  cbn [fst snd I2C.pending I2C.trace].
  destruct p as [|[a2|] [|[[|kb kr]|] p]]; cbn;
    intros [= <- <-]; first [apply Hf | apply Hk].
Qed.

Lemma counted_same_window (c m : Z) (log : list (Z * outcome)) :
  same_window c log ->
  fold_left count_step log (Z.min m c)
  = Z.min (m + Z.of_nat (length (samples log))) c.
Proof.
  revert m. induction log as [|co log IH]; intros m Hw.
  - cbn. rewrite Z.add_0_r. reflexivity.
  - apply Forall_cons in Hw as [Hco Hw].
    rewrite samples_cons, length_app. cbn [fold_left].
    unfold count_step at 2, sample_of.
    destruct (snd co) as [| | |v].
    + rewrite (IH m Hw). cbn [length]. f_equal. lia.
    + rewrite (IH m Hw). cbn [length]. f_equal. lia.
    + rewrite (IH m Hw). cbn [length]. f_equal. lia.
    + rewrite Hco.
      replace (Z.min (Z.min m c + 1) c) with (Z.min (m + 1) c) by lia.
      rewrite (IH (m + 1) Hw). cbn [length]. f_equal. lia.
Qed.

(** C5 as the code has it.  Take a driver from its constructor and a list
    of earlier calls of [get_oxygen_data], with any windows, whose
    exceptions the caller caught, none of which failed at the data
    register.  For a window [c] in 1..101, a call whose two register reads
    are answered returns the arithmetic mean of the most recent
    [min(count_so_far, c)] calibrated samples, the new one
    [key * (b0 + b1/10 + b2/100)] first, with the key 20.9/120 when the
    key register reads zero.  Here [count_so_far] is the running sample
    count, which the driver holds after the call: one more for each
    sample, capped at the window of the call that took it; it is
    [min(samples taken, c)] when every sample was taken with the window
    [c].  For a window outside 1..101 the call raises nothing: it returns
    -1 with no bus transaction and no change of the driver. *)
Theorem get_oxygen_data_window (addr : Z) (bus0 b : I2C.bus) (s0 : sensor)
        (earlier : list Z) (c : Z) (v : Q) :
  init addr bus0 = (Ok s0, b) ->
  let log := met earlier (s0, b) in
  let st := after_calls earlier (s0, b) in
  (0 < c <= 101 ->
   no_data_failure log ->
   outcome_of c (snd st) = Sampled v ->
   let count_so_far := counted (log ++ [(c, Sampled v)]) in
   fst (get_oxygen_data c st)
   = Ok (mean (take (Z.to_nat (Z.min count_so_far c)) (v :: samples log)))
   /\ _count (fst (snd (get_oxygen_data c st))) = count_so_far
   /\ (same_window c log ->
       count_so_far = Z.min (Z.of_nat (length (v :: samples log))) c))
  /\ (~ 0 < c <= 101 -> get_oxygen_data c st = (Ok (-1)%Q, st)).
Proof.
  intros Hinit log st. split.
  - intros Hc Hlog Hv count_so_far.
    destruct (init_tracks addr bus0 b s0 Hinit) as [Ht0 Hn0].
    destruct (after_calls_tracks earlier s0 b [] Ht0 Hlog) as [Ht Hn].
    fold st in Ht, Hn. fold log in Ht, Hn.
    rewrite app_nil_r in Ht. rewrite Hn0 in Hn. fold (counted log) in Hn.
    assert (count_so_far = Z.min (counted log + 1) c) as Hcount.
    { unfold count_so_far, counted. rewrite fold_left_app. reflexivity. }
    destruct st as [s b']. cbn [fst snd] in *.
    destruct (outcome_sampled c b' v Hv)
      as (_ & a1 & kr & a2 & dr & kb & x0 & x1 & x2 & rest & Hp & Ev).
    destruct (get_oxygen_data_mean c s b' (samples log) a1 kr a2 dr kb
                x0 x1 x2 rest Hc Ht Hp) as (H1 & H2 & _).
    rewrite <- Ev in H1. rewrite Hn in H1, H2. rewrite <- Hcount in H1, H2.
    split; [|split].
    + rewrite H1. replace (Z.min count_so_far c) with count_so_far by lia.
      reflexivity.
    + exact H2.
    + intros Hw. rewrite Hcount. unfold counted.
      pose proof (counted_same_window c 0 log Hw) as Hs.
      replace (Z.min 0 c) with 0 in Hs by lia.
      rewrite Hs. cbn [length]. lia.
  - intros Hc. apply get_oxygen_data_out_of_window. exact Hc.
Qed.

Lemma get_oxygen_data_window_witness :
  exists q : Q,
    fst (get_oxygen_data 3
           (after_calls [3; 3] (OxygenSample.new_driver OxygenSample.steady)))
    = Ok q
    /\ Qred q = 14 # 3.
Proof.
  destruct (get_oxygen_data_window ADDRESS_3
              (OxygenSample.scripted OxygenSample.steady)
              (snd (OxygenSample.new_driver OxygenSample.steady))
              (fst (OxygenSample.new_driver OxygenSample.steady))
              [3; 3] 3 (calibrated (key_of 250) 32 0 0) eq_refl)
    as [Hin _].
  destruct Hin as (H1 & _ & _).
  - lia.
  - unfold no_data_failure. vm_compute met.
    repeat constructor; discriminate.
  - vm_compute. reflexivity.
  - eexists. split; [exact H1|]. vm_compute. reflexivity.
Defined.

(** The claim fails in four ways.  After a call whose data read failed
    (samples 4 and 2, the failure, then 8, all with window 3) the call
    returns 4, not the mean 14/3 of the three most recent samples: the
    history was shifted before the read and 2 is there twice.  On a bus
    that does not answer, the call raises [OSError] and returns no mean.
    After two calls with window 1, a call with window 3 returns the mean
    5 of two samples, though three were taken.  A window of 0, or of 102,
    does not make the call fail: it returns the number -1. *)
Lemma get_oxygen_data_window_counterexample :
  (exists q v : Q,
      let st0 := OxygenSample.new_driver OxygenSample.interrupted in
      let log := met [3; 3; 3] st0 in
      fst (get_oxygen_data 3 (after_calls [3; 3; 3] st0)) = Ok q
      /\ outcome_of 3 (snd (after_calls [3; 3; 3] st0)) = Sampled v
      /\ Qred q = 4 # 1
      /\ map Qred (v :: samples log) = [8 # 1; 2 # 1; 4 # 1]
      /\ Z.min (counted (log ++ [(3, Sampled v)])) 3 = 3
      /\ ~ (q == mean (take 3 (v :: samples log)))%Q)
  /\ fst (get_oxygen_data 3 (OxygenSample.new_driver OxygenSample.probe))
     = Raise OSError
  /\ (exists q v : Q,
         let st0 := OxygenSample.new_driver OxygenSample.steady in
         let log := met [1; 1] st0 in
         fst (get_oxygen_data 3 (after_calls [1; 1] st0)) = Ok q
         /\ outcome_of 3 (snd (after_calls [1; 1] st0)) = Sampled v
         /\ Qred q = 5 # 1
         /\ map Qred (v :: samples log) = [8 # 1; 2 # 1; 4 # 1]
         /\ ~ (q == mean (take 3 (v :: samples log)))%Q)
  /\ get_oxygen_data 0 (OxygenSample.new_driver OxygenSample.steady)
     = (Ok (-1)%Q, OxygenSample.new_driver OxygenSample.steady)
  /\ get_oxygen_data 102 (OxygenSample.new_driver OxygenSample.steady)
     = (Ok (-1)%Q, OxygenSample.new_driver OxygenSample.steady).
Proof.
  split; [|split; [|split; [|split]]].
  - eexists _, _. cbv zeta.
    split; [vm_compute; reflexivity|].
    split; [vm_compute; reflexivity|].
    repeat split; vm_compute; try reflexivity. discriminate.
  - vm_compute. reflexivity.
  - eexists _, _. cbv zeta.
    split; [vm_compute; reflexivity|].
    split; [vm_compute; reflexivity|].
    repeat split; vm_compute; try reflexivity. discriminate.
  - reflexivity.
  - reflexivity.
Qed.

Example oxygen_first_reading :
  fst (read_sensor 10 (set_init_success true (fresh ADDRESS_3),
                       Sample.gravity_bus))
  = Ok (PValue (VFloat (364 # 100))).
Proof. vm_compute. reflexivity. Qed.

(** ** The SD-card log *)

Import SDCardLogger.

Lemma string_app_assoc (a b c : string) : (a +:+ b) +:+ c = a +:+ (b +:+ c).
Proof.
  induction a as [|x a IH]; [reflexivity|].
  change (String x ((a +:+ b) +:+ c) = String x (a +:+ (b +:+ c))).
  f_equal. exact IH.
Qed.

Lemma string_app_nil_r (a : string) : a +:+ EmptyString = a.
Proof.
  induction a as [|x a IH]; [reflexivity|].
  change (String x (a +:+ EmptyString) = String x a).
  f_equal. exact IH.
Qed.

Lemma count_nl_app (a b : string) :
  count_nl (a +:+ b) = (count_nl a + count_nl b)%nat.
Proof.
  induction a as [|x a IH]; [reflexivity|].
  change (String x a +:+ b) with (String x (a +:+ b)).
  cbn [count_nl]. rewrite IH. lia.
Qed.

Example str_int_samples :
  (str_int 0, str_int 42, str_int (-5)) = ("0", "42", "-5").
Proof. reflexivity. Qed.

Lemma count_nl_uint (d : Decimal.uint) :
  count_nl (NilEmpty.string_of_uint d) = 0%nat.
Proof. induction d; cbn [NilEmpty.string_of_uint count_nl]; auto. Qed.

Lemma count_nl_str_int (z : Z) : count_nl (str_int z) = 0%nat.
Proof.
  unfold str_int, NilZero.string_of_int, NilZero.string_of_uint.
  destruct (Z.to_int z) as [d|d]; destruct d;
    cbn [count_nl]; rewrite ?count_nl_uint; try reflexivity;
    apply (count_nl_uint (_ d)).
Qed.

Lemma count_nl_join (sep : string) (xs : list string) :
  count_nl sep = 0%nat ->
  Forall (fun x => count_nl x = 0%nat) xs ->
  count_nl (join sep xs) = 0%nat.
Proof.
  intros Hsep. induction 1 as [|x xs Hx Hxs IH]; [reflexivity|].
  destruct xs as [|y ys]; [exact Hx|].
  change (join sep (x :: y :: ys)) with (x +:+ sep +:+ join sep (y :: ys)).
  rewrite !count_nl_app, Hx, Hsep, IH. reflexivity.
Qed.

Section Log.

Variable float_str : Q -> string.

Lemma append_loop_run (s : logger) (c : card) (entries : list reading)
      (text : string) :
  Qeq_bool (timer s) 0 = false ->
  sd c !! log_file s = Some text ->
  for_each entries
    (fun entry =>
       let* line := format_line float_str s entry in
       append (log_file s) line) (s, c)
  = (Ok tt, (s, card_with (log_file s)
                          (text +:+ lines_of float_str s entries) c)).
Proof.
  intros Ht.
  set (body := fun entry : reading => _).
  assert (forall e c' old,
             sd c' !! log_file s = Some old ->
             body e (s, c')
             = (Ok tt, (s, card_with (log_file s)
                                     (old +:+ line_of float_str s e) c')))
    as Hbody.
  { intros e c' old Hf. subst body. cbv beta.
    unfold bind, format_line. rewrite Ht.
    unfold ret, append, set_files, modify. cbn [fst snd mounted sd].
    rewrite Hf. reflexivity. }
  clearbody body. revert c text.
  induction entries as [|e es IH]; intros c text Hf.
  - cbn [for_each lines_of]. rewrite string_app_nil_r. unfold ret, card_with.
    rewrite insert_id by exact Hf. destruct c; reflexivity.
  - cbn [for_each lines_of]. unfold bind.
    rewrite (Hbody e c text Hf).
    erewrite IH; [|cbn [card_with sd]; apply lookup_insert_eq].
    unfold card_with. cbn [mounted sd]. rewrite insert_insert_eq.
    rewrite string_app_assoc. reflexivity.
Qed.

(** [log_data] on a mounted card, with a timer that is not zero. *)
Lemma log_data_run (batch : ref) (entries : list reading) (s : logger)
      (c : card) :
  mounted c = true ->
  Qeq_bool (timer s) 0 = false ->
  log_data float_str batch entries (s, c)
  = (Ok tt,
     (recorded batch s,
      card_with (log_file s)
                (default header (sd c !! log_file s)
                 +:+ lines_of float_str (recorded batch s) entries) c)).
Proof.
  intros Hm Ht.
  unfold log_data, bind at 1, modify at 1. cbn [fst snd].
  fold (recorded batch s).
  unfold try_except, bind at 1, statvfs, bind at 1, the_card, ret.
  cbn [fst snd]. rewrite Hm.
  unfold bind at 1, _prepare_log_file, try_except, bind at 1, self.
  cbn [fst snd].
  unfold bind at 1, listdir, bind at 1, the_card. cbn [fst snd].
  rewrite Hm. unfold ret.
  unfold bind at 1, exists_in_sd, bind at 1, the_card. cbn [fst snd].
  rewrite Hm. unfold ret.
  change (log_file (recorded batch s)) with (log_file s).
  destruct (sd c !! log_file s) as [old|] eqn:Hf.
  - rewrite bool_decide_true by eauto. cbn [negb].
    unfold bind at 1, self. cbn [fst snd].
    unfold bind at 1, open_append, set_files, modify. cbn [fst snd mounted sd].
    change (log_file (recorded batch s)) with (log_file s).
    rewrite Hf. cbn [default].
    erewrite (append_loop_run (recorded batch s));
      [|exact Ht | cbn [sd]; apply lookup_insert_eq].
    unfold card_with. cbn [mounted sd log_file recorded].
    rewrite insert_insert_eq. reflexivity.
  - rewrite bool_decide_false by (intros [? ?]; discriminate). cbn [negb].
    unfold write_new, set_files, modify. cbn [fst snd mounted sd].
    unfold bind at 1, self. cbn [fst snd].
    unfold bind at 1, open_append, set_files, modify. cbn [fst snd mounted sd].
    change (log_file (recorded batch s)) with (log_file s).
    rewrite lookup_insert_eq. cbn [default].
    erewrite (append_loop_run (recorded batch s));
      [|exact Ht | cbn [sd]; apply lookup_insert_eq].
    unfold card_with. cbn [mounted sd log_file recorded].
    rewrite !insert_insert_eq. reflexivity.
Qed.

(** [log_data] never raises and always records the batch object, whatever
    the card does. *)
Lemma log_data_records (batch : ref) (entries : list reading) (s : logger)
      (c : card) :
  exists c', log_data float_str batch entries (s, c)
             = (Ok tt, (recorded batch s, c')).
Proof.
  destruct (mounted c) eqn:Hm.
  - destruct (Qeq_bool (timer s) 0) eqn:Ht.
    + unfold log_data, bind at 1, modify at 1. cbn [fst snd].
      fold (recorded batch s).
      unfold try_except.
      match goal with
      | |- context [bind statvfs ?k ?st] =>
          assert (fst (snd (bind statvfs k st)) = recorded batch s) as H
      end.
      { unfold bind at 1, statvfs, bind at 1, the_card, ret.
        cbn [fst snd]. rewrite Hm.
        unfold bind at 1, _prepare_log_file, try_except, bind at 1, self.
        cbn [fst snd].
        unfold bind at 1, listdir, bind at 1, the_card. cbn [fst snd].
        rewrite Hm. unfold ret.
        unfold bind at 1, exists_in_sd, bind at 1, the_card. cbn [fst snd].
        rewrite Hm. unfold ret.
        destruct (negb _);
          unfold write_new, set_files, modify, ret; cbn [fst snd];
          unfold bind at 1, self; cbn [fst snd];
          unfold bind at 1, open_append, set_files, modify; cbn [fst snd];
          (destruct entries as [|e es];
           [reflexivity
           | cbn [for_each]; unfold bind, format_line;
             change (timer (recorded batch s)) with (timer s);
             rewrite Ht; reflexivity]). }
      destruct (bind statvfs _ _) as [[[]|e] [s' c']];
        unfold any_exception, ret; cbn [fst snd] in *; subst s'; eauto.
    + rewrite (log_data_run batch entries s c Hm Ht). eauto.
  - unfold log_data, bind at 1, modify at 1. cbn [fst snd].
    unfold try_except, bind at 1, statvfs, bind at 1, the_card, ret.
    cbn [fst snd]. rewrite Hm. cbn. eauto.
Qed.

Hypothesis float_str_one_line : forall q, count_nl (float_str q) = 0%nat.

Lemma count_nl_str_value (v : value) : count_nl (str_value float_str v) = 0%nat.
Proof.
  destruct v; cbn [str_value];
    [reflexivity | apply count_nl_str_int | apply float_str_one_line].
Qed.

Lemma count_nl_values (sep : string) (vs : list value) :
  count_nl sep = 0%nat ->
  count_nl (join sep (map (str_value float_str) vs)) = 0%nat.
Proof.
  intros Hsep. apply count_nl_join; [exact Hsep|].
  apply Forall_map, Forall_forall. intros v _. apply count_nl_str_value.
Qed.

Lemma count_nl_format_data (d : payload) :
  count_nl (_format_data float_str d) = 0%nat.
Proof.
  destruct d as [v|vs|vs]; unfold _format_data, str.
  - apply count_nl_str_value.
  - destruct vs as [|v [|w ws]];
      rewrite !count_nl_app, ?count_nl_values, ?count_nl_str_value;
      reflexivity.
  - apply count_nl_values. reflexivity.
Qed.

Lemma count_nl_line (s : logger) (e : reading) :
  count_nl (str_device_name s) = 0%nat ->
  count_nl (sensor_type e) = 0%nat ->
  count_nl (line_of float_str s e) = 1%nat.
Proof.
  intros Hd He. unfold line_of.
  rewrite !count_nl_app, !count_nl_str_int, Hd, He, count_nl_format_data.
  reflexivity.
Qed.

Lemma count_nl_lines (s : logger) (es : list reading) :
  count_nl (str_device_name s) = 0%nat ->
  Forall (fun e => count_nl (sensor_type e) = 0%nat) es ->
  count_nl (lines_of float_str s es) = length es.
Proof.
  intros Hd. induction 1 as [|e es He Hes IH]; [reflexivity|].
  cbn [lines_of length]. rewrite count_nl_app, count_nl_line, IH; auto.
Qed.

(** The same batch logged twice on a mounted card that has no log file:
    the header once, then the lines of the batch twice, one line end per
    entry. *)
Lemma log_data_twice (batch : ref) (entries : list reading) (s : logger)
      (c : card) :
  mounted c = true ->
  sd c !! log_file s = None ->
  Qeq_bool (timer s) 0 = false ->
  count_nl (str_device_name s) = 0%nat ->
  Forall (fun e => count_nl (sensor_type e) = 0%nat) entries ->
  let st1 := snd (log_data float_str batch entries (s, c)) in
  let st2 := snd (log_data float_str batch entries st1) in
  sd (snd st2) !! log_file s
  = Some (header +:+ lines_of float_str s entries
          +:+ lines_of float_str s entries)
  /\ count_nl header = 1%nat
  /\ count_nl (lines_of float_str s entries) = length entries
  /\ count_nl (header +:+ lines_of float_str s entries
               +:+ lines_of float_str s entries)
     = (1 + 2 * length entries)%nat.
Proof.
  intros Hm Hf Ht Hd He st1 st2. subst st1 st2.
  rewrite (log_data_run batch entries s c Hm Ht). cbn [snd].
  rewrite log_data_run by assumption. cbn [snd card_with sd].
  change (log_file (recorded batch s)) with (log_file s).
  rewrite !lookup_insert_eq, Hf. cbn [default from_option id].
  assert (forall s', lines_of float_str (recorded batch s') entries
                     = lines_of float_str s' entries) as Hrec.
  { intros s'. induction entries as [|e es IH]; [reflexivity|].
    cbn [lines_of]. inversion He; subst. rewrite IH by assumption.
    reflexivity. }
  rewrite !Hrec, string_app_assoc.
  pose proof (count_nl_lines s entries Hd He) as Hl.
  assert (count_nl header = 1%nat) as Hh by reflexivity.
  split; [reflexivity|]. split; [exact Hh|]. split; [exact Hl|].
  rewrite !count_nl_app, Hl, Hh. lia.
Qed.

End Log.

Example log_data_twice_sample :
  let float_str := fun _ : Q => "0.0" in
  let st1 := snd (log_data float_str 0%nat [Sample.r1; Sample.r2]
                           (Sample.logger, Sample.blank_card)) in
  let st2 := snd (log_data float_str 0%nat [Sample.r1; Sample.r2] st1) in
  option_map count_nl (sd (snd st2) !! "log_sensors.txt") = Some 5%nat.
Proof.
  intros float_str st1 st2.
  assert (Forall (fun e => count_nl (sensor_type e) = 0%nat)
                 [Sample.r1; Sample.r2]) as He by (repeat constructor).
  destruct (log_data_twice float_str (fun _ => eq_refl) 0%nat
              [Sample.r1; Sample.r2] Sample.logger Sample.blank_card
              eq_refl eq_refl eq_refl eq_refl He)
    as (Hfile & _ & _ & Hcount).
  subst st1 st2.
  change (log_file Sample.logger) with "log_sensors.txt" in Hfile.
  rewrite Hfile. cbn [option_map]. rewrite Hcount. reflexivity.
Qed.

(** C8 on a CO2 entry: logging the batch twice on a card without a log file
    leaves the header once and two data lines, but the triple the CO2
    driver returns is a tuple, which [_format_data] does not join: the line
    carries it as [str] prints it, in parentheses and with spaces, not as
    three comma-joined values. *)
Theorem log_data_tuple_payload (float_str : Q -> string) :
  let line := "2,ESP32-SensorData-1,1,CO2,(500, " +:+ float_str 25%Q +:+ ", "
              +:+ float_str 37%Q +:+ ")" +:+ nl in
  let joined := "2,ESP32-SensorData-1,1,CO2,500," +:+ float_str 25%Q +:+ ","
                +:+ float_str 37%Q +:+ nl in
  let st1 := snd (log_data float_str 0%nat [Sample.co2_entry]
                           (Sample.logger, Sample.blank_card)) in
  let st2 := snd (log_data float_str 0%nat [Sample.co2_entry] st1) in
  sd (snd st2) !! "log_sensors.txt" = Some (header +:+ line +:+ line)
  /\ line <> joined.
Proof.
  intros line joined st1 st2. split.
  - assert (forall s' : logger,
               timer s' = timer Sample.logger ->
               str_device_name s' = "ESP32-SensorData-1" ->
               lines_of float_str s' [Sample.co2_entry] = line) as Hline.
    { intros s' Ht Hd. subst line.
      unfold lines_of, line_of. rewrite Ht, Hd.
      change (str_int (int (timestamp Sample.co2_entry
                            / timer Sample.logger))) with "2".
      change (str_int (channel Sample.co2_entry)) with "1".
      change (sensor_type Sample.co2_entry) with "CO2".
      change (_format_data float_str (data Sample.co2_entry))
        with ("(" +:+ ("500" +:+ ", " +:+ float_str 25%Q +:+ ", "
                       +:+ float_str 37%Q) +:+ ")").
      rewrite !string_app_assoc, string_app_nil_r. reflexivity. }
    subst st1 st2.
    rewrite (log_data_run float_str 0%nat [Sample.co2_entry] Sample.logger
               Sample.blank_card eq_refl eq_refl).
    cbn [snd].
    rewrite log_data_run by reflexivity.
    cbn [snd card_with sd]. rewrite lookup_insert_eq.
    f_equal. change (log_file _) with "log_sensors.txt".
    rewrite lookup_insert_eq.
    change (sd Sample.blank_card !! "log_sensors.txt")
      with (@None string).
    cbn [default from_option id].
    rewrite !Hline by reflexivity.
    apply string_app_assoc.
  - subst line joined. intros H.
    vm_compute in H. discriminate H.
Qed.

(** ** The recording loop *)

Lemma keeps_ret {A} (a : A) : keeps_sinks (ret a).
Proof. intros w. reflexivity. Qed.

Lemma keeps_bind {A B} (m : M Master.world A) (k : A -> M Master.world B) :
  keeps_sinks m -> (forall a, keeps_sinks (k a)) -> keeps_sinks (bind m k).
Proof.
  intros Hm Hk w. unfold bind. specialize (Hm w).
  destruct (m w) as [[a|e] w1]; cbn [snd] in *.
  - rewrite (Hk a w1). exact Hm.
  - exact Hm.
Qed.

Lemma keeps_for_each {A} (xs : list A) (body : A -> M Master.world unit) :
  (forall x, keeps_sinks (body x)) -> keeps_sinks (for_each xs body).
Proof.
  intros Hb. induction xs as [|x xs IH]; cbn [for_each].
  - apply keeps_ret.
  - apply keeps_bind; [apply Hb | intros _; exact IH].
Qed.

Lemma keeps_modify (f : Master.world -> Master.world) :
  (forall w, sinks (f w) = sinks w) -> keeps_sinks (modify f).
Proof. intros Hf w. apply Hf. Qed.

Lemma keeps_on_pins {A} (m : M Multiplexer.gpio A) :
  keeps_sinks (Master.on_pins m).
Proof.
  intros w. unfold Master.on_pins, zoom.
  destruct (m (Master.pins w)) as [r g]. reflexivity.
Qed.

Lemma keeps_on_i2c {A} (m : M I2C.bus A) : keeps_sinks (Master.on_i2c m).
Proof.
  intros w. unfold Master.on_i2c, zoom.
  destruct (m (Master.i2c w)) as [r b]. reflexivity.
Qed.

Lemma visit_keeps_sinks (t : Z) (ci : Z * Master.info) :
  keeps_sinks (Master.visit t ci).
Proof.
  destruct ci as [ch i]. unfold Master.visit.
  destruct (Master.due t i); [|apply keeps_ret].
  apply keeps_bind; [apply keeps_on_pins | intros _].
  apply keeps_bind; [apply keeps_modify; reflexivity | intros _].
  apply keeps_bind.
  - destruct (Master.sensor_type i);
      (apply keeps_bind; [apply keeps_on_i2c | intros d; apply keeps_ret]).
  - intros l. apply keeps_modify. reflexivity.
Qed.

Lemma due_spec (t : Z) (i : Master.info) :
  Master.due t i = true
  <-> Master.sampling_timer <= ticks_diff t (Master.last i).
Proof. unfold Master.due. rewrite Z.geb_le. reflexivity. Qed.

Lemma ticks_diff_near (a b : Z) :
  - 2 ^ 29 <= a - b < 2 ^ 29 -> ticks_diff a b = a - b.
Proof.
  intros H. unfold ticks_diff, TICKS_PERIOD.
  change (2 ^ 30 / 2) with (2 ^ 29).
  rewrite Z.mod_small; lia.
Qed.

Lemma visit_not_due (t ch : Z) (i : Master.info) (w : Master.world) :
  Master.due t i = false -> Master.visit t (ch, i) w = (Ok tt, w).
Proof. intros H. unfold Master.visit. rewrite H. reflexivity. Qed.

Lemma send_data_total (data : list reading) (s : BLEPeripheral.ble) :
  fst (BLEPeripheral.send_data data s) = Ok tt.
Proof.
  destruct (BLEPeripheral.conn_handle s) as [c|] eqn:Hc.
  - destruct (quiet (2 * length (frames (BLEPeripheral.buffer s ++ data)))
                    (BLEPeripheral.script s)) eqn:Hq.
    + rewrite (send_data_delivered data s c Hc Hq). reflexivity.
    + destruct (send_data_failed data s c Hc Hq) as (s' & E & _).
      rewrite E. reflexivity.
  - rewrite (send_data_disconnected data s Hc). reflexivity.
Qed.

Section Loop.

Variable float_str : Q -> string.

(** One pass leaves the buffer of the logger as it was, or one batch
    object longer when it flushed. *)
Lemma tick_run (t : Z) (w w' : Master.world) (r : result unit) :
  Master.tick float_str t w = (r, w') ->
  SDCardLogger.data_buffer (Master.sd_logger w')
  = SDCardLogger.data_buffer (Master.sd_logger w)
    ++ match r with
       | Ok _ => if Master.flush_due t w then [Master.batch_ref] else []
       | Raise _ => []
       end.
Proof.
  unfold Master.tick, bind at 1, get at 1.
  unfold bind at 1.
  pose proof (keeps_for_each (Master.channel_maps w) (Master.visit t)
                (visit_keeps_sinks t) w) as Hs.
  destruct (for_each (Master.channel_maps w) (Master.visit t) w)
    as [[[]|e] w1]; cbn [fst snd] in *.
  2:{ intros [= <- <-]. injection Hs as H1 _ _ _.
      rewrite H1, app_nil_r. reflexivity. }
  unfold bind at 1, get at 1.
  assert (Master.flush_due t w1 = Master.flush_due t w) as Hfd.
  { unfold Master.flush_due. injection Hs as _ _ _ H4. rewrite H4.
    reflexivity. }
  rewrite Hfd. destruct (Master.flush_due t w).
  - unfold bind at 1, Master.on_sd, zoom.
    destruct (log_data_records float_str Master.batch_ref
                (Master.data_buffer w1) (Master.sd_logger w1)
                (Master.card w1)) as [c' E].
    rewrite E.
    unfold bind at 1, Master.on_ble, zoom.
    pose proof (send_data_total (Master.data_buffer w1)
                  (Master.ble_peripheral
                     (Master.with_sd
                        (recorded Master.batch_ref (Master.sd_logger w1), c')
                        w1))) as Hok.
    destruct (BLEPeripheral.send_data _ _) as [r' b']. cbn [fst] in Hok.
    subst r'. cbn. intros [= <- <-]. cbn.
    injection Hs as H1 _ _ _. rewrite H1. reflexivity.
  - unfold ret. intros [= <- <-]. injection Hs as H1 _ _ _.
    rewrite H1, app_nil_r. reflexivity.
Qed.

Lemma tick_log_buffer (t : Z) (w : Master.world) :
  SDCardLogger.data_buffer (Master.sd_logger (snd (Master.tick float_str t w)))
  = SDCardLogger.data_buffer (Master.sd_logger w)
    ++ match fst (Master.tick float_str t w) with
       | Ok _ => if Master.flush_due t w then [Master.batch_ref] else []
       | Raise _ => []
       end.
Proof. apply tick_run, surjective_pairing. Qed.

Lemma record_data_log_buffer (ticks : list Z) (w : Master.world) :
  SDCardLogger.data_buffer (Master.sd_logger w)
    `prefix_of`
    SDCardLogger.data_buffer
      (Master.sd_logger (snd (Master.record_data float_str ticks w))).
Proof.
  unfold Master.record_data. revert w.
  induction ticks as [|t ticks IH]; intros w; [reflexivity|].
  cbn [for_each]. unfold bind.
  pose proof (tick_log_buffer t w) as Ht.
  destruct (Master.tick float_str t w) as [[[]|e] w1]; cbn [fst snd] in *.
  - etransitivity; [|apply IH]. rewrite Ht. by apply prefix_app_r.
  - rewrite Ht, app_nil_r. reflexivity.
Qed.

(** C10: [log_data] appends the batch object it is given to the
    [data_buffer] of the logger, whatever happens on the card; a pass of
    the recording loop that flushes makes that buffer one entry longer, any
    other pass leaves it alone, and no run of the loop makes it lose an
    entry. *)
Theorem logger_buffer_only_grows (batch : ref) (entries : list reading)
        (s : SDCardLogger.logger) (c : SDCardLogger.card) (t : Z)
        (ticks : list Z) (w : Master.world) :
  SDCardLogger.data_buffer
    (fst (snd (SDCardLogger.log_data float_str batch entries (s, c))))
  = SDCardLogger.data_buffer s ++ [batch]
  /\ SDCardLogger.data_buffer
       (Master.sd_logger (snd (Master.tick float_str t w)))
     = SDCardLogger.data_buffer (Master.sd_logger w)
       ++ match fst (Master.tick float_str t w) with
          | Ok _ => if Master.flush_due t w then [Master.batch_ref] else []
          | Raise _ => []
          end
  /\ SDCardLogger.data_buffer (Master.sd_logger w)
       `prefix_of`
       SDCardLogger.data_buffer
         (Master.sd_logger (snd (Master.record_data float_str ticks w))).
Proof.
  split; [|split].
  - destruct (log_data_records float_str batch entries s c) as [c' E].
    rewrite E. reflexivity.
  - apply tick_log_buffer.
  - apply record_data_log_buffer.
Qed.

End Loop.

Lemma visit_ignores_interval (t ch x : Z) (i : Master.info)
      (w : Master.world) :
  Master.visit t (ch, i) w
  = Master.visit t (ch, {| Master.sensor_type := Master.sensor_type i;
                           Master.interval := x;
                           Master.last := Master.last i |}) w.
Proof. reflexivity. Qed.

(** C1 on the code: the test that guards a visit compares the elapsed time
    with the global [sampling_timer] (30000 ms) and never reads the
    interval of the channel.  The channel with interval 5000 and last
    sample at 0 is visited neither at 4999 nor at 5000, nor at 29999: the
    pass changes nothing.  At 30000 it is visited once: one bus exchange,
    one reading appended, [last] moved to 30000. *)
Theorem tick_gate_is_sampling_timer (float_str : Q -> string) :
  (forall (t : Z) (i : Master.info),
      Master.due t i = (ticks_diff t (Master.last i) >=? 30000))
  /\ (forall (t ch x : Z) (i : Master.info) (w : Master.world),
         Master.visit t (ch, i) w
         = Master.visit t (ch, {| Master.sensor_type := Master.sensor_type i;
                                  Master.interval := x;
                                  Master.last := Master.last i |}) w)
  /\ Master.tick float_str 4999 Sample.world0 = (Ok tt, Sample.world0)
  /\ Master.tick float_str 5000 Sample.world0 = (Ok tt, Sample.world0)
  /\ Master.tick float_str 29999 Sample.world0 = (Ok tt, Sample.world0)
  /\ fst (Master.tick float_str 30000 Sample.world0) = Ok tt
  /\ Master.channel_maps (snd (Master.tick float_str 30000 Sample.world0))
     = [(1, {| Master.sensor_type := Master.KSCD40Sensor;
               Master.interval := 5000; Master.last := 30000 |})]
  /\ Master.data_buffer (snd (Master.tick float_str 30000 Sample.world0))
     = [mk_reading (inject_Z 30000 / 1000) 1 "CO2"
                   (PTuple [VInt 500; VFloat (2500 # 100);
                            VFloat (3700 # 100)])]
  /\ length (I2C.trace
               (Master.i2c (snd (Master.tick float_str 30000 Sample.world0))))
     = 3%nat.
Proof.
  split; [reflexivity|]. split; [intros; apply visit_ignores_interval|].
  repeat split; vm_compute; reflexivity.
Qed.

(** A visit that is due records a reading whether the CO2 read worked or
    not, and moves [last] to the current tick. *)
Example visit_records_failed_read :
  let w := {| Master.i2c := {| I2C.pending := []; I2C.trace := [] |};
              Master.pins := ∅;
              Master.sd_logger := Sample.logger;
              Master.card := Sample.blank_card;
              Master.ble_peripheral := Sample.disconnected;
              Master.channel_maps := [Sample.scd40_channel];
              Master.data_buffer := [];
              Master.last_write_time := 0 |} in
  let w' := snd (Master.visit 30000 Sample.scd40_channel w) in
  Master.data_buffer w'
  = [mk_reading (inject_Z 30000 / 1000) 1 "CO2" SCD40Sensor.read_failed]
  /\ Master.channel_maps w'
     = [(1, {| Master.sensor_type := Master.KSCD40Sensor;
               Master.interval := 5000; Master.last := 30000 |})].
Proof. split; vm_compute; reflexivity. Qed.

Import Invariants.

(** ** More on the multiplexer *)

Lemma format_04b_bits (channel : Z) :
  0 <= channel <= 15 ->
  Multiplexer.format_04b channel
  = [Z.b2z (Z.testbit channel 3); Z.b2z (Z.testbit channel 2);
     Z.b2z (Z.testbit channel 1); Z.b2z (Z.testbit channel 0)].
Proof.
  intros H.
  assert (channel = 0 \/ channel = 1 \/ channel = 2 \/ channel = 3
          \/ channel = 4 \/ channel = 5 \/ channel = 6 \/ channel = 7
          \/ channel = 8 \/ channel = 9 \/ channel = 10 \/ channel = 11
          \/ channel = 12 \/ channel = 13 \/ channel = 14 \/ channel = 15)
    as Hc by lia.
  repeat (destruct Hc as [-> | Hc]; [reflexivity|]). subst. reflexivity.
Qed.

Lemma nibble_value (channel : Z) :
  0 <= channel <= 15 ->
  8 * Z.b2z (Z.testbit channel 3) + 4 * Z.b2z (Z.testbit channel 2)
  + 2 * Z.b2z (Z.testbit channel 1) + Z.b2z (Z.testbit channel 0) = channel.
Proof.
  intros H.
  assert (channel = 0 \/ channel = 1 \/ channel = 2 \/ channel = 3
          \/ channel = 4 \/ channel = 5 \/ channel = 6 \/ channel = 7
          \/ channel = 8 \/ channel = 9 \/ channel = 10 \/ channel = 11
          \/ channel = 12 \/ channel = 13 \/ channel = 14 \/ channel = 15)
    as Hc by lia.
  repeat (destruct Hc as [-> | Hc]; [reflexivity|]). subst. reflexivity.
Qed.

(** X1: For a channel from 0 to 15, on a multiplexer whose enable pin and
    four control pins are five distinct pins, select_channel leaves the
    enable pin low and the control pins S3, S2, S1, S0 holding binary
    digits with 8*S3 + 4*S2 + 2*S1 + S0 = channel; every other pin keeps
    its level. *)
Theorem select_channel_address (m : Multiplexer.mux) (channel : Z)
        (g : Multiplexer.gpio) (p3 p2 p1 p0 : Z) :
  0 <= channel <= 15 ->
  Multiplexer.control_pins m = [p3; p2; p1; p0] ->
  NoDup [Multiplexer.en m; p3; p2; p1; p0] ->
  let g' := snd (Multiplexer.select_channel m channel g) in
  g' !! Multiplexer.en m = Some 0
  /\ (exists b3 b2 b1 b0 : Z,
         g' !! p3 = Some b3 /\ g' !! p2 = Some b2
         /\ g' !! p1 = Some b1 /\ g' !! p0 = Some b0
         /\ 0 <= b3 <= 1 /\ 0 <= b2 <= 1 /\ 0 <= b1 <= 1 /\ 0 <= b0 <= 1
         /\ 8 * b3 + 4 * b2 + 2 * b1 + b0 = channel)
  /\ (forall p, p ∉ [Multiplexer.en m; p3; p2; p1; p0] -> g' !! p = g !! p).
Proof.
  intros Hc Hpins Hnd g'. subst g'.
  unfold Multiplexer.select_channel.
  destruct Hc as [Hlo Hhi].
  rewrite (proj2 (Z.leb_le _ _) Hlo), (proj2 (Z.leb_le _ _) Hhi).
  cbn [andb negb].
  rewrite Hpins, format_04b_bits by lia.
  unfold bind, Multiplexer.enable, Multiplexer.pin_value, modify.
  cbn [zip zip_with for_each fst snd]. unfold bind, ret. cbn [fst snd].
  apply NoDup_cons in Hnd as [He Hnd].
  apply NoDup_cons in Hnd as [H3 Hnd].
  apply NoDup_cons in Hnd as [H2 Hnd].
  apply NoDup_cons in Hnd as [H1 _].
  repeat rewrite not_elem_of_cons in He.
  repeat rewrite not_elem_of_cons in H3.
  repeat rewrite not_elem_of_cons in H2.
  repeat rewrite not_elem_of_cons in H1.
  destruct He as (? & ? & ? & ? & _). destruct H3 as (? & ? & ? & _).
  destruct H2 as (? & ? & _). destruct H1 as (? & _).
  split; [|split].
  - rewrite !lookup_insert_ne by congruence. apply lookup_insert_eq.
  - exists (Z.b2z (Z.testbit channel 3)), (Z.b2z (Z.testbit channel 2)),
      (Z.b2z (Z.testbit channel 1)), (Z.b2z (Z.testbit channel 0)).
    repeat split;
      try (destruct (Z.testbit channel _); cbn; lia);
      try (rewrite ?(lookup_insert_ne (M:=gmap Z)) by congruence;
           apply lookup_insert_eq).
    apply nibble_value. lia.
  - intros p Hp. repeat rewrite not_elem_of_cons in Hp.
    destruct Hp as (? & ? & ? & ? & ? & _).
    rewrite !lookup_insert_ne by congruence. reflexivity.
Qed.

Lemma select_channel_address_witness :
  let g' := snd (Multiplexer.select_channel Master.mux 13 ∅) in
  g' !! 11 = Some 0
  /\ (exists b3 b2 b1 b0 : Z,
         g' !! 5 = Some b3 /\ g' !! 4 = Some b2
         /\ g' !! 3 = Some b1 /\ g' !! 2 = Some b0
         /\ 0 <= b3 <= 1 /\ 0 <= b2 <= 1 /\ 0 <= b1 <= 1 /\ 0 <= b0 <= 1
         /\ 8 * b3 + 4 * b2 + 2 * b1 + b0 = 13)
  /\ (forall p, p ∉ [11; 5; 4; 3; 2] -> g' !! p = (∅ : gmap Z Z) !! p).
Proof.
  apply (select_channel_address Master.mux 13 ∅ 5 4 3 2).
  - lia.
  - reflexivity.
  - compute_done.
Defined.

(** ** More on the SCD40 driver *)

Lemma land_255_byte (x : Z) : is_byte (Z.land x 0xFF).
Proof.
  change 0xFF with (Z.ones 8). rewrite Z.land_ones by lia.
  unfold is_byte. change (2 ^ 8) with 256. apply Z.mod_pos_bound. lia.
Qed.

Lemma crc8_bit_byte (crc : Z) : is_byte (SCD40Sensor.crc8_bit crc).
Proof. unfold SCD40Sensor.crc8_bit. apply land_255_byte. Qed.

Lemma crc8_byte_byte (crc byte : Z) : is_byte (SCD40Sensor.crc8_byte crc byte).
Proof.
  unfold SCD40Sensor.crc8_byte.
  change (Nat.iter 8 SCD40Sensor.crc8_bit (Z.lxor crc byte))
    with (SCD40Sensor.crc8_bit
            (Nat.iter 7 SCD40Sensor.crc8_bit (Z.lxor crc byte))).
  apply crc8_bit_byte.
Qed.

Lemma crc8_fold_byte (data : list Z) (c : Z) :
  is_byte c -> is_byte (fold_left SCD40Sensor.crc8_byte data c).
Proof.
  revert c. induction data as [|b data IH]; intros c Hc; cbn [fold_left].
  - exact Hc.
  - apply IH, crc8_byte_byte.
Qed.

(** X2: Whatever integers it is given, crc8 returns a value from 0 to 255. *)
Theorem crc8_is_byte (data : list Z) : 0 <= SCD40Sensor.crc8 data <= 255.
Proof.
  assert (is_byte (SCD40Sensor.crc8 data)) as H.
  { apply crc8_fold_byte. unfold is_byte. lia. }
  unfold is_byte in H. lia.
Qed.

Lemma crc8_snoc (data : list Z) (b : Z) :
  SCD40Sensor.crc8 (data ++ [b])
  = crc8_table (Z.lxor (SCD40Sensor.crc8 data) b).
Proof.
  unfold SCD40Sensor.crc8. rewrite fold_left_app. cbn [fold_left].
  unfold SCD40Sensor.crc8_byte, crc8_table. reflexivity.
Qed.

Lemma table_kernel_check :
  forallb (fun x => negb (crc8_table x =? 0) || (x =? 0)) bytes256 = true.
Proof. vm_compute. reflexivity. Qed.

Lemma table_kernel (x : Z) : is_byte x -> crc8_table x = 0 -> x = 0.
Proof.
  intros Hx H0.
  pose proof (bytes256_forall _ table_kernel_check x Hx) as H.
  cbv beta in H. rewrite H0 in H. cbn in H. apply Z.eqb_eq. exact H.
Qed.

(** X3: For a byte check, the checksum of data followed by check is 0
    exactly when check is the checksum of data: a word followed by its own
    checksum has residue zero, and no other byte gives that. *)
Theorem crc8_residue (data : list Z) (check : Z) :
  0 <= check <= 255 ->
  SCD40Sensor.crc8 (data ++ [check]) = 0 <-> SCD40Sensor.crc8 data = check.
Proof.
  intros Hc. rewrite crc8_snoc.
  assert (is_byte (SCD40Sensor.crc8 data)) as Hd.
  { apply crc8_fold_byte. unfold is_byte. lia. }
  assert (is_byte check) as Hc' by (unfold is_byte; lia).
  destruct (table_linear _ _ Hd Hc') as (_ & Hx & _).
  split.
  - intros H. apply table_kernel in H; [|exact Hx].
    apply Z.lxor_eq. exact H.
  - intros ->. rewrite Z.lxor_nilpotent. reflexivity.
Qed.

Lemma crc8_residue_witness :
  SCD40Sensor.crc8 ([0xBE; 0xEF] ++ [0x92]) = 0
  <-> SCD40Sensor.crc8 [0xBE; 0xEF] = 0x92.
Proof. apply (crc8_residue [0xBE; 0xEF] 0x92). lia. Defined.

Lemma parse_word_short (data : list Z) (i : nat) (b : I2C.bus) :
  data !! (i + 2)%nat = None ->
  SCD40Sensor.parse_word data i b = (Raise IndexError, b).
Proof.
  intros H. unfold SCD40Sensor.parse_word, bind, index. rewrite H.
  reflexivity.
Qed.

Lemma parse_word_cases (data : list Z) (i : nat) (b : I2C.bus) :
  (exists e, SCD40Sensor.parse_word data i b = (Raise e, b))
  \/ ((i + 2 < length data)%nat
      /\ data !! (i + 2)%nat = Some (SCD40Sensor.crc8 (take 2 (drop i data)))
      /\ SCD40Sensor.parse_word data i b = (Ok (word_at data i), b)).
Proof.
  destruct (data !! (i + 2)%nat) as [c|] eqn:Hc.
  - destruct (decide (SCD40Sensor.crc8 (take 2 (drop i data)) = c)) as [E|N].
    + right. subst c. pose proof (lookup_lt_Some _ _ _ Hc) as Hlen.
      split; [exact Hlen|]. split; [reflexivity|].
      apply parse_word_match; assumption.
    + left. eexists. apply (parse_word_mismatch data i c b Hc N).
  - left. eexists. apply parse_word_short, Hc.
Qed.

Lemma read_sensor_run (b : I2C.bus) :
  exists (p : payload) (b' : I2C.bus),
    SCD40Sensor.read_sensor b = (Ok p, b')
    /\ (p = SCD40Sensor.read_failed
        \/ exists (ack data : list Z) (rest : list (option (list Z))),
            I2C.pending b = Some ack :: Some data :: rest
            /\ (9 <= length data)%nat
            /\ (forall i, i ∈ [0; 3; 6]%nat ->
                          data !! (i + 2)%nat
                          = Some (SCD40Sensor.crc8 (take 2 (drop i data))))
            /\ p = decoded data)
    /\ (I2C.trace b' = I2C.trace b ++ [I2C.WriteTo 0x62 [0xEC; 0x05]]
        \/ I2C.trace b'
           = I2C.trace b ++ [I2C.WriteTo 0x62 [0xEC; 0x05];
                             I2C.ReadFrom 0x62 9]).
Proof.
  unfold SCD40Sensor.read_sensor, try_except, bind at 1 2.
  unfold I2C.writeto, I2C.readfrom, I2C.transact, bind at 1, ret at 1.
  destruct b as [p tr]. cbn [I2C.pending I2C.trace].
  destruct p as [|[ack|] p]; cbn [any_exception fst snd I2C.trace];
    try (eexists _, _; split; [reflexivity|];
         split; [left; reflexivity | left; reflexivity]).
  destruct p as [|[data|] rest];
    cbn [any_exception fst snd I2C.trace I2C.pending];
    try (eexists _, _; split; [reflexivity|]; cbn [I2C.trace];
         rewrite <- app_assoc;
         split; [left; reflexivity | right; reflexivity]).
  set (b2 := {| I2C.pending := rest; I2C.trace := _ |}).
  assert (I2C.trace b2 = tr ++ [I2C.WriteTo 0x62 [0xEC; 0x05];
                                I2C.ReadFrom 0x62 9]) as Htr.
  { subst b2. cbn [I2C.trace]. rewrite <- app_assoc. reflexivity. }
  clearbody b2. unfold bind.
  destruct (parse_word_cases data 0 b2) as [[e0 E0] | (L0 & C0 & E0)];
    rewrite E0;
    [eexists _, _; split; [reflexivity|];
     split; [left; reflexivity | right; exact Htr]|].
  destruct (parse_word_cases data 3 b2) as [[e3 E3] | (L3 & C3 & E3)];
    rewrite E3;
    [eexists _, _; split; [reflexivity|];
     split; [left; reflexivity | right; exact Htr]|].
  destruct (parse_word_cases data 6 b2) as [[e6 E6] | (L6 & C6 & E6)];
    rewrite E6;
    [eexists _, _; split; [reflexivity|];
     split; [left; reflexivity | right; exact Htr]|].
  eexists _, _. split; [reflexivity|]. split; [|right; exact Htr].
  right. exists ack, data, rest. split; [reflexivity|].
  split; [lia|]. split; [|reflexivity].
  intros i Hi.
  repeat (apply elem_of_cons in Hi as [-> | Hi]); try assumption.
  by apply elem_of_nil in Hi.
Qed.

(** X4: read_sensor of the SCD40 driver never raises. It returns (None,
    None, None), or else the sensor acknowledged the command and answered
    the read with at least nine bytes in which each of the three words is
    followed by its checksum, and the result is the decoded triple. On the
    bus it issues the command write 0xEC05 to address 0x62 and at most one
    read of nine bytes after it, nothing else. *)
Theorem read_sensor_outcomes (b : I2C.bus) :
  (fst (SCD40Sensor.read_sensor b) = Ok SCD40Sensor.read_failed
   \/ exists (ack data : list Z) (rest : list (option (list Z))),
       I2C.pending b = Some ack :: Some data :: rest
       /\ (9 <= length data)%nat
       /\ (forall i, i ∈ [0; 3; 6]%nat ->
                     data !! (i + 2)%nat
                     = Some (SCD40Sensor.crc8 (take 2 (drop i data))))
       /\ fst (SCD40Sensor.read_sensor b) = Ok (decoded data))
  /\ (I2C.trace (snd (SCD40Sensor.read_sensor b))
      = I2C.trace b ++ [I2C.WriteTo 0x62 [0xEC; 0x05]]
      \/ I2C.trace (snd (SCD40Sensor.read_sensor b))
         = I2C.trace b ++ [I2C.WriteTo 0x62 [0xEC; 0x05];
                           I2C.ReadFrom 0x62 9]).
Proof.
  destruct (read_sensor_run b) as (p & b' & E & Hp & Htr).
  rewrite E. cbn [fst snd]. split; [|exact Htr].
  destruct Hp as [-> | (ack & data & rest & H1 & H2 & H3 & ->)].
  - left. reflexivity.
  - right. exists ack, data, rest. auto.
Qed.

Lemma word_value_check :
  forallb
    (fun hi =>
       forallb (fun lo => Z.lor (Z.shiftl hi 8) lo =? 256 * hi + lo) bytes256)
    bytes256 = true.
Proof. vm_compute. reflexivity. Qed.

Lemma word_value (hi lo : Z) :
  is_byte hi -> is_byte lo -> Z.lor (Z.shiftl hi 8) lo = 256 * hi + lo.
Proof.
  intros Hh Hl.
  pose proof (bytes256_forall _ word_value_check hi Hh) as H.
  pose proof (bytes256_forall _ H lo Hl) as H'.
  cbv beta in H'. apply Z.eqb_eq in H'. exact H'.
Qed.

Lemma word_at_range (data : list Z) (i : nat) :
  Forall is_byte data -> (i + 1 < length data)%nat ->
  0 <= word_at data i <= 65535.
Proof.
  intros Hb Hlen. unfold word_at.
  destruct (lookup_lt_is_Some_2 data i ltac:(lia)) as [hi Hhi].
  destruct (lookup_lt_is_Some_2 data (i + 1) ltac:(lia)) as [lo Hlo].
  rewrite (list_lookup_total_correct _ _ _ Hhi).
  rewrite (list_lookup_total_correct _ _ _ Hlo).
  rewrite Forall_lookup in Hb.
  pose proof (Hb _ _ Hhi) as Bh. pose proof (Hb _ _ Hlo) as Bl.
  rewrite word_value by assumption. unfold is_byte in *. lia.
Qed.

Lemma round_half_even_ge (q : Q) (n : Z) :
  (inject_Z n <= q)%Q -> n <= round_half_even q.
Proof.
  intros H. apply Qfloor_resp_le in H. rewrite Qfloor_Z in H.
  unfold round_half_even.
  destruct (Qcompare _ _); [destruct (Z.even _)| |]; lia.
Qed.

Lemma round_half_even_le (q : Q) (m : Z) :
  (q <= inject_Z m)%Q -> round_half_even q <= m.
Proof.
  intros H. pose proof (Qfloor_resp_le _ _ H) as Hf.
  rewrite Qfloor_Z in Hf. unfold round_half_even.
  destruct (Z.eq_dec (Qfloor q) m) as [E|N].
  - assert (q - inject_Z (Qfloor q) <= 0)%Q as Hz.
    { rewrite E. unfold Qle, Qminus, Qplus, Qopp, inject_Z in *.
      simpl in *. lia. }
    assert (Qcompare (q - inject_Z (Qfloor q)) (1 # 2) = Lt) as ->.
    { apply Qlt_alt. eapply Qle_lt_trans; [exact Hz|]. reflexivity. }
    lia.
  - destruct (Qcompare _ _); [destruct (Z.even _)| |]; lia.
Qed.

Lemma round2_bounds (q : Q) (n m : Z) :
  (inject_Z n <= q)%Q -> (q <= inject_Z m)%Q ->
  (inject_Z n <= round2 q)%Q /\ (round2 q <= inject_Z m)%Q.
Proof.
  intros Hn Hm. unfold round2.
  assert (100 * n <= round_half_even (q * 100)) as H1.
  { apply round_half_even_ge. rewrite inject_Z_mult.
    rewrite (Qmult_comm (inject_Z 100)).
    apply Qmult_le_compat_r; [exact Hn | discriminate]. }
  assert (round_half_even (q * 100) <= 100 * m) as H2.
  { apply round_half_even_le. rewrite inject_Z_mult.
    rewrite (Qmult_comm (inject_Z 100)).
    apply Qmult_le_compat_r; [exact Hm | discriminate]. }
  set (r := round_half_even (q * 100)) in *. clearbody r.
  unfold Qle, Qdiv, Qmult, Qinv, inject_Z. simpl. lia.
Qed.

Lemma temp_of_raw_bounds (raw : Z) :
  0 <= raw <= 65535 ->
  (inject_Z (-45) <= SCD40Sensor.temp_of_raw raw)%Q
  /\ (SCD40Sensor.temp_of_raw raw <= inject_Z 130)%Q.
Proof.
  intros H. unfold SCD40Sensor.temp_of_raw.
  unfold Qle, Qdiv, Qmult, Qplus, Qinv, inject_Z. simpl. lia.
Qed.

Lemma humidity_of_raw_bounds (raw : Z) :
  0 <= raw <= 65535 ->
  (inject_Z 0 <= SCD40Sensor.humidity_of_raw raw)%Q
  /\ (SCD40Sensor.humidity_of_raw raw <= inject_Z 100)%Q.
Proof.
  intros H. unfold SCD40Sensor.humidity_of_raw.
  unfold Qle, Qdiv, Qmult, Qplus, Qinv, inject_Z. simpl. lia.
Qed.

(** X5: When the bus delivers bytes and read_sensor returns three numbers,
    the CO2 value lies in 0..65535, the temperature in -45..130 and the
    humidity in 0..100. *)
Theorem read_sensor_ranges (b : I2C.bus) (co2 : Z) (temp humidity : Q) :
  Forall (fun r => forall bs, r = Some bs -> Forall is_byte bs)
         (I2C.pending b) ->
  fst (SCD40Sensor.read_sensor b)
  = Ok (PTuple [VInt co2; VFloat temp; VFloat humidity]) ->
  0 <= co2 <= 65535
  /\ (-45 <= temp)%Q /\ (temp <= 130)%Q
  /\ (0 <= humidity)%Q /\ (humidity <= 100)%Q.
Proof.
  intros Hbytes Hr.
  destruct (read_sensor_run b) as (p & b' & E & Hp & _).
  rewrite E in Hr. cbn [fst] in Hr. injection Hr as ->.
  destruct Hp as [Hf | (ack & data & rest & Hpend & Hlen & _ & Hd)];
    [discriminate|].
  unfold decoded in Hd. injection Hd as -> -> ->.
  assert (Forall is_byte data) as Hb.
  { rewrite Hpend in Hbytes. inversion Hbytes as [|? ? _ Hrest]; subst.
    inversion Hrest as [|? ? Hdata _]; subst. apply Hdata. reflexivity. }
  pose proof (word_at_range data 0 Hb ltac:(lia)) as R0.
  pose proof (word_at_range data 3 Hb ltac:(lia)) as R3.
  pose proof (word_at_range data 6 Hb ltac:(lia)) as R6.
  split; [exact R0|].
  destruct (temp_of_raw_bounds _ R3) as [T1 T2].
  destruct (humidity_of_raw_bounds _ R6) as [U1 U2].
  destruct (round2_bounds _ _ _ T1 T2) as [T1' T2'].
  destruct (round2_bounds _ _ _ U1 U2) as [U1' U2'].
  auto.
Qed.

Lemma read_sensor_ranges_witness :
  0 <= 500 <= 65535
  /\ (-45 <= 2500 # 100)%Q /\ (2500 # 100 <= 130)%Q
  /\ (0 <= 3700 # 100)%Q /\ (3700 # 100 <= 100)%Q.
Proof.
  apply (read_sensor_ranges (Sample.bus_with Sample.frame)).
  - repeat constructor; intros bs [= <-]; repeat constructor;
      unfold is_byte; lia.
  - vm_compute. reflexivity.
Defined.

Lemma start_periodic_measurement_run (b : I2C.bus) :
  SCD40Sensor.start_periodic_measurement b
  = (Ok tt, {| I2C.pending := tail (I2C.pending b);
               I2C.trace := I2C.trace b ++ [I2C.WriteTo 0x62 [0x21; 0xb1]] |}).
Proof.
  unfold SCD40Sensor.start_periodic_measurement, try_except, I2C.writeto,
    I2C.transact, bind, ret.
  destruct b as [[|[a|] p] tr]; reflexivity.
Qed.

(** ** More on the oxygen driver *)

Import GravitySensor.
Import GravityCalibration.

Lemma reads_only_ret {A} (a : A) : reads_only (ret a).
Proof. intros st. reflexivity. Qed.

Lemma reads_only_raise {A} (e : exn) : reads_only (@raise state A e).
Proof. intros st. reflexivity. Qed.

Lemma reads_only_bind {A B} (m : M state A) (k : A -> M state B) :
  reads_only m -> (forall a, reads_only (k a)) -> reads_only (bind m k).
Proof.
  intros Hm Hk st. unfold bind. specialize (Hm st).
  destruct (m st) as [[a|e] st1]; cbn [snd] in *.
  - rewrite (Hk a st1). exact Hm.
  - exact Hm.
Qed.

Lemma reads_only_try {A} (m h : M state A) (handles : exn -> bool) :
  reads_only m -> reads_only h -> reads_only (try_except m handles h).
Proof.
  intros Hm Hh st. unfold try_except. specialize (Hm st).
  destruct (m st) as [[a|e] st1]; cbn [snd] in *; [exact Hm|].
  destruct (handles e); cbn [snd]; [|exact Hm].
  rewrite (Hh st1). exact Hm.
Qed.

Lemma reads_only_on_bus {A} (m : M I2C.bus A) : reads_only (on_bus m).
Proof.
  intros [s b]. unfold on_bus, zoom. cbn [snd fst].
  destruct (m b) as [r b']. reflexivity.
Qed.

Lemma reads_only_self : reads_only self.
Proof. intros st. reflexivity. Qed.

Lemma reads_only_index {A} (xs : list A) (i : nat) :
  reads_only (index xs i).
Proof. intros st. unfold index. destruct (xs !! i); reflexivity. Qed.

Lemma read_reg_reads_only (reg : Z) (n : nat) : reads_only (read_reg reg n).
Proof.
  unfold read_reg. apply reads_only_bind; [apply reads_only_self|].
  intros s. apply reads_only_try; [apply reads_only_on_bus|].
  apply reads_only_raise.
Qed.

Lemma keeps_shape_of_reads_only {A} (m : M state A) :
  reads_only m -> keeps_shape m.
Proof. intros H st Hs. rewrite (H st). exact Hs. Qed.

Lemma keeps_shape_bind {A B} (m : M state A) (k : A -> M state B) :
  keeps_shape m -> (forall a, keeps_shape (k a)) -> keeps_shape (bind m k).
Proof.
  intros Hm Hk st Hs. unfold bind. specialize (Hm st Hs).
  destruct (m st) as [[a|e] st1]; cbn [snd] in *.
  - apply (Hk a st1 Hm).
  - exact Hm.
Qed.

Lemma keeps_shape_for_each {A} (xs : list A) (body : A -> M state unit) :
  (forall x, keeps_shape (body x)) -> keeps_shape (for_each xs body).
Proof.
  intros Hb. induction xs as [|x xs IH]; cbn [for_each].
  - intros st Hs. exact Hs.
  - apply keeps_shape_bind; [apply Hb | intros _; exact IH].
Qed.

Lemma keeps_shape_set_self (f : sensor -> sensor) :
  (forall s, shape s -> shape (f s)) -> keeps_shape (set_self f).
Proof. intros Hf [s b] Hs. apply Hf, Hs. Qed.

Lemma get_flash_keeps_shape : keeps_shape get_flash.
Proof.
  unfold get_flash.
  apply keeps_shape_bind;
    [apply keeps_shape_of_reads_only, read_reg_reads_only | intros result].
  apply keeps_shape_bind;
    [apply keeps_shape_of_reads_only, reads_only_index | intros value].
  apply keeps_shape_set_self. intros s Hs. exact Hs.
Qed.

Lemma shift_one_keeps_shape (i : nat) : keeps_shape (shift_one i).
Proof.
  intros [s b] [Hl Hc]. unfold shift_one, bind, self, index. cbn [fst snd].
  destruct (_oxygendata s !! (i - 1)%nat) as [x|]; [|split; assumption].
  unfold ret. destruct (decide _); [|split; assumption].
  unfold set_self, modify, shape. cbn. rewrite length_insert. auto.
Qed.

(** X6: get_oxygen_data keeps the shape of the driver: a history of 101
    cells and a count between 0 and 101 are so again after the call,
    whatever the window asked for and whether the call returns or raises. *)
Theorem get_oxygen_data_keeps_shape (collect_num : Z) (st : state) :
  shape (fst st) -> shape (fst (snd (get_oxygen_data collect_num st))).
Proof.
  revert st. change (keeps_shape (get_oxygen_data collect_num)).
  unfold get_oxygen_data.
  destruct ((collect_num <=? 0) || (collect_num >? MAX_BUFFER_SIZE)) eqn:G.
  { intros st Hs. exact Hs. }
  apply window_guard in G. unfold MAX_BUFFER_SIZE in G.
  apply keeps_shape_bind; [apply get_flash_keeps_shape | intros _].
  apply keeps_shape_bind;
    [apply keeps_shape_for_each, shift_one_keeps_shape | intros _].
  apply keeps_shape_bind;
    [apply keeps_shape_of_reads_only, read_reg_reads_only | intros result].
  intros [s b] Hs. unfold shape in Hs. cbn [fst] in Hs.
  destruct Hs as [Hl Hc].
  unfold bind, index, self, set_self, modify, _average, ret, raise.
  cbn [fst snd].
  destruct (result !! 0%nat); [|split; assumption].
  destruct (result !! 1%nat); [|split; assumption].
  destruct (result !! 2%nat); [|split; assumption].
  destruct (decide _); [|split; assumption].
  pose proof (Z.min_spec (_count s + 1) collect_num) as Hmin.
  cbn [fst snd set_count set_oxygendata _count _oxygendata].
  destruct (_ =? 0); cbn [fst snd]; unfold shape;
    cbn [set_count set_oxygendata _count _oxygendata];
    rewrite length_insert; split; try assumption; lia.
Qed.

Lemma get_oxygen_data_keeps_shape_witness :
  shape (fst (snd (get_oxygen_data 5 (fresh 0x73, Sample.gravity_bus)))).
Proof.
  apply (get_oxygen_data_keeps_shape 5 (fresh 0x73, Sample.gravity_bus)).
  split; [reflexivity | cbn; lia].
Defined.

Lemma read_reg_silent (reg : Z) (n : nat) (s : sensor) (b : I2C.bus) :
  silent b ->
  read_reg reg n (s, b)
  = (Raise OSError, (s, after_op (I2C.WriteTo (_addr s) [reg]) b)).
Proof.
  intros Hs. destruct b as [[|[a|] p] tr].
  - reflexivity.
  - exfalso. apply (Hs a p). reflexivity.
  - reflexivity.
Qed.

Lemma get_oxygen_data_silent (collect_num : Z) (s : sensor) (b : I2C.bus) :
  0 < collect_num <= 101 ->
  silent b ->
  get_oxygen_data collect_num (s, b)
  = (Raise OSError, (s, after_op (I2C.WriteTo (_addr s) [0x0A]) b)).
Proof.
  intros Hc Hs. unfold get_oxygen_data.
  rewrite (proj2 (window_guard collect_num) Hc).
  unfold bind at 1, get_flash, bind at 1.
  rewrite (read_reg_silent _ _ s b Hs). reflexivity.
Qed.

(** X7: On a driver whose probe succeeded, read_sensor with a window from
    1 to 101 does not turn a bus failure into the sentinel: when the
    sensor does not answer, OSError leaves read_sensor after the single
    write of the key register number 0x0A, and the driver object is
    unchanged. *)
Theorem read_sensor_bus_error (collect_num : Z) (s : sensor) (b : I2C.bus) :
  _init_success s = true ->
  0 < collect_num <= 101 ->
  silent b ->
  read_sensor collect_num (s, b)
  = (Raise OSError, (s, after_op (I2C.WriteTo (_addr s) [0x0A]) b)).
Proof.
  intros Hi Hc Hs. unfold read_sensor, bind at 1, self. cbn [fst].
  rewrite Hi. cbn [negb]. unfold bind at 1.
  rewrite (get_oxygen_data_silent collect_num s b Hc Hs). reflexivity.
Qed.

Lemma read_sensor_bus_error_witness :
  read_sensor 10 (set_init_success true (fresh ADDRESS_3),
                  {| I2C.pending := []; I2C.trace := [] |})
  = (Raise OSError,
     (set_init_success true (fresh ADDRESS_3),
      {| I2C.pending := [];
         I2C.trace := [I2C.WriteTo ADDRESS_3 [0x0A]] |})).
Proof.
  apply (read_sensor_bus_error 10 (set_init_success true (fresh ADDRESS_3))
           {| I2C.pending := []; I2C.trace := [] |}).
  - reflexivity.
  - lia.
  - intros bs rest. discriminate.
Defined.

(** X8: Constructing the oxygen driver on a bus where the sensor does not
    answer and reading it, as the recording loop does, yields -1.0 without
    an exception, after one write of the data register number 0x03 to
    address 0x73 and nothing more. *)
Theorem read_gravity_silent (b : I2C.bus) :
  silent b ->
  Master.read_gravity b
  = (Ok (PValue (VFloat (-1))), after_op (I2C.WriteTo 0x73 [0x03]) b).
Proof.
  intros Hs. unfold Master.read_gravity, bind at 1, init, _try_initialize,
    try_except, bind at 1.
  rewrite (read_reg_silent _ _ (fresh ADDRESS_3) b Hs). reflexivity.
Qed.

Lemma read_gravity_silent_witness :
  Master.read_gravity {| I2C.pending := [None]; I2C.trace := [] |}
  = (Ok (PValue (VFloat (-1))),
     {| I2C.pending := []; I2C.trace := [I2C.WriteTo 0x73 [0x03]] |}).
Proof.
  apply (read_gravity_silent {| I2C.pending := [None]; I2C.trace := [] |}).
  intros bs rest. discriminate.
Defined.

Lemma init_probe_answered (addr : Z) (b : I2C.bus) (a1 d1 a2 kr : list Z)
      (kb : Z) (rest : list (option (list Z))) :
  I2C.pending b = Some a1 :: Some d1 :: Some a2 :: Some (kb :: kr) :: rest ->
  init addr b
  = (Ok (set_init_success true (set_key (key_of kb) (fresh addr))),
     after_read_reg addr GET_KEY_REGISTER 1 rest
       (after_read_reg addr OXYGEN_DATA_REGISTER 1
          (Some a2 :: Some (kb :: kr) :: rest) b)).
Proof.
  intros Hp. unfold init, _try_initialize, try_except, bind at 1.
  rewrite (read_reg_run _ _ (fresh addr) b a1 d1 _ Hp).
  unfold bind at 1.
  rewrite (get_flash_run (fresh addr)
             (after_read_reg (_addr (fresh addr)) OXYGEN_DATA_REGISTER 1
                (Some a2 :: Some (kb :: kr) :: rest) b)
             a2 kr kb rest eq_refl).
  reflexivity.
Qed.

(** X9: The constructor of the oxygen driver never raises, whatever the
    bus does: it returns a driver at the given address with count 0 and a
    history of 101 zeros, and a driver whose probe failed holds the
    default key 20.9/120. *)
Theorem init_never_raises (addr : Z) (b : I2C.bus) :
  exists (s : sensor) (b' : I2C.bus),
    init addr b = (Ok s, b')
    /\ _addr s = addr /\ _count s = 0
    /\ _oxygendata s = replicate 101 0%Q
    /\ (_init_success s = false -> _key s = default_key).
Proof.
  unfold init, _try_initialize, try_except, bind at 1.
  pose proof (read_reg_reads_only OXYGEN_DATA_REGISTER 1 (fresh addr, b))
    as H1.
  destruct (read_reg OXYGEN_DATA_REGISTER 1 (fresh addr, b))
    as [[r1|e1] [s1 b1]]; cbn [fst snd] in H1; subst s1.
  2:{ eexists _, _. split; [reflexivity|]. cbn. auto. }
  unfold bind at 1, get_flash, bind at 1.
  pose proof (read_reg_reads_only GET_KEY_REGISTER 1 (fresh addr, b1))
    as H2.
  destruct (read_reg GET_KEY_REGISTER 1 (fresh addr, b1))
    as [[r2|e2] [s2 b2]]; cbn [fst snd] in H2; subst s2.
  2:{ eexists _, _. split; [reflexivity|]. cbn. auto. }
  unfold bind at 1, index.
  destruct (r2 !! 0%nat) as [value|].
  - eexists _, _. split; [reflexivity|]. cbn.
    repeat split; auto. discriminate.
  - eexists _, _. split; [reflexivity|]. cbn. auto.
Qed.

Section Loop2.

Variable float_str : Q -> string.

(** X10: When the first channel is a due oxygen channel from 0 to 15 whose
    sensor answers the two reads of the constructor and then stops
    answering, the recording loop ends with OSError in that pass: the
    reading is not buffered, while the channel's last-read time is already
    set to the current tick. *)
Theorem gravity_failure_ends_loop (t ch : Z) (i : Master.info)
        (more : list (Z * Master.info)) (ticks : list Z) (w : Master.world)
        (a1 d1 a2 kr : list Z) (kb : Z) (rest : list (option (list Z))) :
  Master.channel_maps w = (ch, i) :: more ->
  Master.due t i = true ->
  0 <= ch <= 15 ->
  Master.sensor_type i = Master.KGravitySensor ->
  I2C.pending (Master.i2c w)
  = Some a1 :: Some d1 :: Some a2 :: Some (kb :: kr) :: rest ->
  (forall bs rest', rest <> Some bs :: rest') ->
  fst (Master.record_data float_str (t :: ticks) w) = Raise OSError
  /\ Master.data_buffer (snd (Master.record_data float_str (t :: ticks) w))
     = Master.data_buffer w
  /\ Master.channel_maps (snd (Master.record_data float_str (t :: ticks) w))
     = Master.set_last ch t (Master.channel_maps w).
Proof.
  intros Hmap Hdue Hch Hkind Hp Hrest.
  assert (exists w',
             Master.visit t (ch, i) w = (Raise OSError, w')
             /\ Master.data_buffer w' = Master.data_buffer w
             /\ Master.channel_maps w'
                = Master.set_last ch t (Master.channel_maps w)) as Hv.
  { unfold Master.visit. rewrite Hdue.
    unfold bind at 1, Master.on_pins, zoom.
    pose proof (select_channel_accepts Master.mux ch (Master.pins w) Hch)
      as Hsel.
    destruct (Multiplexer.select_channel Master.mux ch (Master.pins w))
      as [r g]. cbn [fst] in Hsel. subst r.
    unfold bind at 1, modify at 1. rewrite Hkind.
    unfold bind at 1 2, Master.on_i2c, zoom.
    cbn [Master.i2c Master.with_channel_maps Master.with_pins].
    unfold Master.read_gravity, bind at 1.
    rewrite (init_probe_answered _ _ a1 d1 a2 kr kb rest Hp).
    unfold read_sensor, bind at 1, self.
    cbn [fst _init_success set_init_success negb]. unfold bind at 1.
    rewrite get_oxygen_data_silent;
      [| unfold DEFAULT_COLLECT_NUM; lia
       | intros bs rest'; cbn; apply Hrest].
    cbn [snd fst]. eexists. split; [reflexivity|].
    split; reflexivity. }
  destruct Hv as (w' & Ev & Hb & Hm).
  assert (Master.record_data float_str (t :: ticks) w = (Raise OSError, w'))
    as E.
  { unfold Master.record_data. cbn [for_each]. unfold bind at 1.
    unfold Master.tick, bind at 1, get at 1. rewrite Hmap at 1.
    cbn [for_each]. unfold bind at 1 2. rewrite Ev. reflexivity. }
  rewrite E. cbn [fst snd]. auto.
Qed.

End Loop2.

Lemma gravity_failure_ends_loop_witness :
  fst (Master.record_data (fun _ => EmptyString) [30000; 30050]
                          Sample.fading_world) = Raise OSError.
Proof.
  apply (gravity_failure_ends_loop (fun _ => EmptyString) 30000 0
           (snd Sample.o2_channel) [] [30050] Sample.fading_world
           [] [0] [] [] 0 []).
  - reflexivity.
  - reflexivity.
  - lia.
  - reflexivity.
  - reflexivity.
  - intros bs rest'. discriminate.
Defined.

Section Calibration.

Variable EPSILON : Q.
Variable float_mul : Q -> Q -> Q.
Variable float_div : Q -> Q -> Q.



End Calibration.


Import SDCardLogger.

(** ** More on the SD-card log *)

Lemma prepare_run (s : logger) (c : card) :
  _prepare_log_file (s, c)
  = (Ok tt,
     (s, if mounted c
         then card_with (log_file s) (default header (sd c !! log_file s)) c
         else c)).
Proof.
  unfold _prepare_log_file, try_except, bind at 1, self. cbn [fst snd].
  unfold bind at 1, listdir, bind at 1, the_card. cbn [fst snd].
  destruct (mounted c) eqn:Hm; [|reflexivity].
  unfold ret. unfold bind at 1, exists_in_sd, bind at 1, the_card.
  cbn [fst snd]. rewrite Hm. unfold ret.
  destruct (sd c !! log_file s) as [old|] eqn:Hf.
  - rewrite bool_decide_true by eauto. cbn [negb default from_option id].
    unfold card_with. rewrite insert_id by exact Hf.
    destruct c; cbn in *; subst; reflexivity.
  - rewrite bool_decide_false by (intros [? ?]; discriminate).
    reflexivity.
Qed.

(** X12: _prepare_log_file never raises, doing it twice is the same as
    doing it once, an existing log file is left as it is, and on a mounted
    card without the log file it creates the file holding just the header
    line. *)
Theorem prepare_log_file_idempotent (s : logger) (c : card) :
  fst (_prepare_log_file (s, c)) = Ok tt
  /\ _prepare_log_file (snd (_prepare_log_file (s, c)))
     = _prepare_log_file (s, c)
  /\ (forall old, sd c !! log_file s = Some old ->
                  snd (_prepare_log_file (s, c)) = (s, c))
  /\ (mounted c = true -> sd c !! log_file s = None ->
      sd (snd (snd (_prepare_log_file (s, c)))) !! log_file s = Some header).
Proof.
  rewrite !prepare_run. cbn [fst snd]. rewrite prepare_run.
  split; [reflexivity|]. split; [|split].
  - destruct (mounted c) eqn:Hm; [|rewrite Hm; reflexivity].
    cbn [card_with mounted sd]. rewrite Hm, lookup_insert_eq.
    cbn [default from_option id]. unfold card_with. cbn [mounted sd].
    rewrite insert_insert_eq. reflexivity.
  - intros old Hf. destruct (mounted c); [|reflexivity].
    rewrite Hf. cbn [default from_option id]. unfold card_with.
    rewrite insert_id by exact Hf. destruct c; reflexivity.
  - intros Hm Hf. rewrite Hm, Hf. cbn. apply lookup_insert_eq.
Qed.

Section Log2.

Variable float_str : Q -> string.

Lemma log_data_unmounted_run (batch : ref) (entries : list reading)
      (s : logger) (c : card) :
  mounted c = false ->
  log_data float_str batch entries (s, c) = (Ok tt, (recorded batch s, c)).
Proof.
  intros Hm. unfold log_data, bind at 1, modify at 1. cbn [fst snd].
  unfold try_except, bind at 1, statvfs, bind at 1, the_card, ret.
  cbn [fst snd]. rewrite Hm. reflexivity.
Qed.

Lemma log_data_zero_timer_run (batch : ref) (entries : list reading)
      (s : logger) (c : card) :
  mounted c = true ->
  Qeq_bool (timer s) 0 = true ->
  log_data float_str batch entries (s, c)
  = (Ok tt,
     (recorded batch s,
      card_with (log_file s) (default header (sd c !! log_file s)) c)).
Proof.
  intros Hm Ht. unfold log_data, bind at 1, modify at 1. cbn [fst snd].
  fold (recorded batch s).
  unfold try_except, bind at 1, statvfs, bind at 1, the_card, ret.
  cbn [fst snd]. rewrite Hm.
  unfold bind at 1. rewrite prepare_run. rewrite Hm.
  unfold bind at 1, self. cbn [fst snd].
  unfold bind at 1, open_append, set_files, modify.
  cbn [fst snd mounted sd card_with].
  change (log_file (recorded batch s)) with (log_file s).
  rewrite lookup_insert_eq, insert_insert_eq.
  destruct entries as [|e es].
  - reflexivity.
  - cbn [for_each]. unfold bind, format_line.
    change (timer (recorded batch s)) with (timer s). rewrite Ht.
    reflexivity.
Qed.

(** X13: log_data never raises and is append-only: the card stays mounted
    or unmounted as it was, every file other than the log file is
    untouched, an existing log file keeps its content as a prefix, and on
    an unmounted card nothing changes at all. *)
Theorem log_data_append_only (batch : ref) (entries : list reading)
        (s : logger) (c : card) :
  let c' := snd (snd (log_data float_str batch entries (s, c))) in
  fst (log_data float_str batch entries (s, c)) = Ok tt
  /\ mounted c' = mounted c
  /\ (forall f, f <> log_file s -> sd c' !! f = sd c !! f)
  /\ (forall old, sd c !! log_file s = Some old ->
                  exists added, sd c' !! log_file s = Some (old +:+ added))
  /\ (mounted c = false -> c' = c).
Proof.
  intros c'. subst c'.
  destruct (mounted c) eqn:Hm.
  - destruct (Qeq_bool (timer s) 0) eqn:Ht.
    + rewrite (log_data_zero_timer_run batch entries s c Hm Ht).
      cbn [fst snd card_with mounted sd].
      split; [reflexivity|]. split; [exact Hm|]. split; [|split].
      * intros f Hf. apply lookup_insert_ne. congruence.
      * intros old Hold. exists EmptyString.
        rewrite lookup_insert_eq, Hold, string_app_nil_r. reflexivity.
      * discriminate.
    + rewrite (log_data_run float_str batch entries s c Hm Ht).
      cbn [fst snd card_with mounted sd].
      split; [reflexivity|]. split; [exact Hm|]. split; [|split].
      * intros f Hf. apply lookup_insert_ne. congruence.
      * intros old Hold. eexists.
        rewrite lookup_insert_eq, Hold. reflexivity.
      * discriminate.
  - rewrite (log_data_unmounted_run batch entries s c Hm).
    cbn [fst snd]. split; [reflexivity|]. split; [exact Hm|].
    split; [reflexivity|]. split; [|reflexivity].
    intros old Hold. exists EmptyString.
    rewrite Hold, string_app_nil_r. reflexivity.
Qed.

(** X14: A logger constructed with timer 0 writes no entry: logging any
    batch to a mounted card without the log file returns normally and
    leaves a log file holding the header only (the division by the timer
    fails inside the try block). *)
Theorem log_data_zero_timer (batch : ref) (entries : list reading)
        (dev : option string) (cs : Z) (file : string) (c : card) :
  mounted c = true ->
  sd c !! file = None ->
  let s := fresh cs 0 dev file in
  fst (log_data float_str batch entries (s, c)) = Ok tt
  /\ sd (snd (snd (log_data float_str batch entries (s, c)))) !! file
     = Some header.
Proof.
  intros Hm Hf s.
  rewrite (log_data_zero_timer_run batch entries s c Hm eq_refl).
  cbn [fst snd card_with sd]. split; [reflexivity|].
  change (log_file s) with file. rewrite lookup_insert_eq, Hf. reflexivity.
Qed.

End Log2.

Lemma log_data_zero_timer_witness :
  sd (snd (snd (log_data (fun _ => EmptyString) 0%nat [Sample.r1; Sample.r2]
                         (fresh 20 0 None "log_sensors.txt",
                          Sample.blank_card))))
     !! "log_sensors.txt"
  = Some header.
Proof.
  apply (log_data_zero_timer (fun _ => EmptyString) 0%nat
           [Sample.r1; Sample.r2] None 20 "log_sensors.txt"
           Sample.blank_card eq_refl eq_refl).
Defined.

Import BLEPeripheral.

(** ** More on the BLE link *)

Lemma new_events_app (s s' : ble) (evs : list event) :
  log s' = log s ++ evs -> new_events s s' = evs.
Proof. intros H. unfold new_events. rewrite H. apply drop_app_length. Qed.

(** X15: send_data loses no reading: each reading of the retry buffer or
    of the batch is, after the call, in the retry buffer or in a frame
    that was notified during the call. *)
Theorem send_data_loses_nothing (data : list reading) (s : ble) (r : reading) :
  r ∈ buffer s ++ data ->
  r ∈ buffer (snd (send_data data s))
  \/ r ∈ concat (notified (new_events s (snd (send_data data s)))).
Proof.
  intros Hr.
  destruct (conn_handle s) as [c|] eqn:Hc.
  - destruct (quiet (2 * length (frames (buffer s ++ data))) (script s))
      eqn:Hq.
    + right. rewrite (send_data_delivered data s c Hc Hq). cbn [snd].
      erewrite new_events_app; [|cbn [log]; reflexivity].
      rewrite notified_app, notified_frame_events. cbn [notified omap].
      rewrite app_nil_r, frames_concat. exact Hr.
    + left.
      destruct (send_data_failed data s c Hc Hq) as (s' & E & Hb & _).
      rewrite E. cbn [snd]. rewrite Hb. apply elem_of_app. left. exact Hr.
  - left. rewrite (send_data_disconnected data s Hc). cbn [snd]. exact Hr.
Qed.

Lemma send_data_loses_nothing_witness :
  Sample.r4 ∈ buffer (snd (send_data [Sample.r4; Sample.r5]
                                     (Sample.connected [])))
  \/ Sample.r4 ∈ concat (notified
                           (new_events (Sample.connected [])
                              (snd (send_data [Sample.r4; Sample.r5]
                                              (Sample.connected []))))).
Proof.
  apply (send_data_loses_nothing [Sample.r4; Sample.r5]
                                 (Sample.connected []) Sample.r4).
  apply list_elem_of_In. simpl. tauto.
Defined.

Lemma frame_events_send (tx c : Z) (fs : list (list reading)) :
  Forall is_send_event (concat (map (frame_events tx c) fs)).
Proof.
  induction fs as [|f fs IH]; [constructor|].
  cbn [map concat frame_events app].
  constructor; [exact I|]. constructor; [exact I|]. exact IH.
Qed.

(** X16: With a central connected, send_data keeps the connection handle,
    and the only calls it makes on the stack are gatts_write, gatts_notify
    and active(False): it never re-enables the radio, registers services
    or advertises. *)
Theorem send_data_connected_stays (data : list reading) (s : ble) (c : Z) :
  conn_handle s = Some c ->
  conn_handle (snd (send_data data s)) = Some c
  /\ Forall is_send_event (new_events s (snd (send_data data s))).
Proof.
  intros Hc.
  destruct (quiet (2 * length (frames (buffer s ++ data))) (script s))
    eqn:Hq.
  - rewrite (send_data_delivered data s c Hc Hq). cbn [snd conn_handle].
    split; [reflexivity|].
    erewrite new_events_app; [|cbn [log]; reflexivity].
    apply Forall_app. split; [apply frame_events_send|].
    constructor; [exact I | constructor].
  - destruct (send_data_failed data s c Hc Hq)
      as (s' & E & _ & _ & Hch & evs & Hl & Hf).
    rewrite E. cbn [snd]. split; [exact Hch|].
    rewrite (new_events_app s s' evs Hl).
    eapply Forall_impl; [exact Hf|].
    intros [] H; cbn in *; try exact I; contradiction.
Qed.

Lemma send_data_connected_stays_witness :
  conn_handle (snd (send_data [Sample.r4; Sample.r5] (Sample.connected [])))
  = Some 64
  /\ Forall is_send_event
       (new_events (Sample.connected [])
          (snd (send_data [Sample.r4; Sample.r5] (Sample.connected [])))).
Proof.
  apply (send_data_connected_stays [Sample.r4; Sample.r5]
                                   (Sample.connected []) 64 eq_refl).
Defined.

Lemma frames_length (xs : list reading) :
  length (frames xs) = ((length xs + 1) / 2)%nat.
Proof.
  rewrite <- frames_count. unfold batch_starts, BATCH_SIZE.
  rewrite length_map, length_seq. f_equal. lia.
Qed.

(** X17: On a connection where no call fails, sending n readings in all
    (buffered and new) makes 2*ceil(n/2) + 1 calls on the stack: one write
    and one notification per frame of two readings, then the shutdown;
    with nothing to send the shutdown is the only call. *)
Theorem send_data_delivery_calls (data : list reading) (s : ble) (c : Z) :
  conn_handle s = Some c ->
  quiet (2 * length (frames (buffer s ++ data))) (script s) = true ->
  length (new_events s (snd (send_data data s)))
  = (2 * ((length (buffer s) + length data + 1) / 2) + 1)%nat
  /\ (buffer s = [] -> data = [] ->
      new_events s (snd (send_data data s)) = [Active false]).
Proof.
  intros Hc Hq. rewrite (send_data_delivered data s c Hc Hq). cbn [snd].
  erewrite new_events_app; [|cbn [log]; reflexivity].
  split.
  - rewrite length_app. cbn [length].
    assert (forall fs : list (list reading),
               length (concat (map (frame_events (tx_handle s) c) fs))
               = (2 * length fs)%nat) as Hlen.
    { induction fs as [|f fs IH]; [reflexivity|].
      cbn [map concat frame_events app length]. rewrite IH. lia. }
    rewrite Hlen, frames_length, length_app. lia.
  - intros -> ->. reflexivity.
Qed.

Lemma send_data_delivery_calls_witness :
  length (new_events (Sample.connected [])
            (snd (send_data [Sample.r4; Sample.r5] (Sample.connected []))))
  = 7%nat.
Proof.
  apply (send_data_delivery_calls [Sample.r4; Sample.r5]
                                  (Sample.connected []) 64 eq_refl eq_refl).
Defined.

(** ** More on the recording loop *)

(** X18: The gate of a channel is right across the wrap-around of the tick
    counter: for a last-read tick in range and a true delay d below 2^29
    ms, the channel is due at tick (last + d) mod 2^30 exactly when d >=
    30000. *)
Theorem due_across_wraparound (i : Master.info) (d : Z) :
  0 <= Master.last i < 2 ^ 30 ->
  0 <= d < 2 ^ 29 ->
  Master.due ((Master.last i + d) mod 2 ^ 30) i = (d >=? 30000).
Proof.
  intros Hl Hd. unfold Master.due, Master.sampling_timer. f_equal.
  unfold ticks_diff, TICKS_PERIOD. change (2 ^ 30 / 2) with (2 ^ 29).
  replace ((Master.last i + d) mod 2 ^ 30 - Master.last i + 2 ^ 29)
    with ((Master.last i + d) mod 2 ^ 30 + (2 ^ 29 - Master.last i)) by lia.
  rewrite Zplus_mod_idemp_l.
  replace (Master.last i + d + (2 ^ 29 - Master.last i)) with (d + 2 ^ 29)
    by lia.
  rewrite Z.mod_small by lia. lia.
Qed.

Lemma due_across_wraparound_witness :
  Master.due ((2 ^ 30 - 10000 + 30000) mod 2 ^ 30)
             {| Master.sensor_type := Master.KSCD40Sensor;
                Master.interval := 5000; Master.last := 2 ^ 30 - 10000 |}
  = (30000 >=? 30000).
Proof.
  apply (due_across_wraparound
           {| Master.sensor_type := Master.KSCD40Sensor;
              Master.interval := 5000; Master.last := 2 ^ 30 - 10000 |}
           30000).
  - cbn [Master.last]. lia.
  - lia.
Defined.

Lemma visits_idle (t : Z) (l : list (Z * Master.info)) (w : Master.world) :
  Forall (fun ci => Master.due t (snd ci) = false) l ->
  for_each l (Master.visit t) w = (Ok tt, w).
Proof.
  induction 1 as [|[ch i] l Hd Hl IH]; [reflexivity|].
  cbn [for_each]. unfold bind. cbn [snd] in Hd.
  rewrite (visit_not_due t ch i w Hd). exact IH.
Qed.

Section Loop3.

Variable float_str : Q -> string.

(** X19: A pass of the loop in which no channel is due and less than 60 s
    passed since the last flush changes nothing: no pin, no bus traffic,
    no file, no radio call, no buffer. *)
Theorem tick_idle (t : Z) (w : Master.world) :
  Forall (fun ci => Master.due t (snd ci) = false) (Master.channel_maps w) ->
  Master.flush_due t w = false ->
  Master.tick float_str t w = (Ok tt, w).
Proof.
  intros Hd Hf. unfold Master.tick, bind at 1, get at 1.
  unfold bind at 1. rewrite (visits_idle t _ w Hd).
  unfold bind, get. rewrite Hf. reflexivity.
Qed.

(** X20: A pass in which the channel visits succeed and the flush is due
    returns normally: the buffer, with the readings of this pass, is
    handed to log_data and to send_data, then emptied, and the last flush
    time becomes the current tick. *)
Theorem tick_flush (t : Z) (w : Master.world) :
  fst (for_each (Master.channel_maps w) (Master.visit t) w) = Ok tt ->
  Master.flush_due t w = true ->
  let w1 := snd (for_each (Master.channel_maps w) (Master.visit t) w) in
  let st := snd (SDCardLogger.log_data float_str Master.batch_ref
                   (Master.data_buffer w1)
                   (Master.sd_logger w, Master.card w)) in
  Master.tick float_str t w
  = (Ok tt,
     {| Master.i2c := Master.i2c w1;
        Master.pins := Master.pins w1;
        Master.sd_logger := fst st;
        Master.card := snd st;
        Master.ble_peripheral :=
          snd (BLEPeripheral.send_data (Master.data_buffer w1)
                                       (Master.ble_peripheral w));
        Master.channel_maps := Master.channel_maps w1;
        Master.data_buffer := [];
        Master.last_write_time := t |}).
Proof.
  intros Hok Hfd w1 st. subst st.
  unfold Master.tick, bind at 1, get at 1. unfold bind at 1.
  pose proof (keeps_for_each (Master.channel_maps w) (Master.visit t)
                (visit_keeps_sinks t) w) as Hs.
  fold w1 in Hs.
  destruct (for_each (Master.channel_maps w) (Master.visit t) w)
    as [r w1'] eqn:E. cbn [fst snd] in *. subst r w1.
  injection Hs as H1 H2 H3 H4.
  unfold bind at 1, get at 1.
  assert (Master.flush_due t w1' = true) as ->.
  { unfold Master.flush_due in *. rewrite H4. exact Hfd. }
  unfold bind at 1, Master.on_sd, zoom. rewrite H1, H2.
  destruct (log_data_records float_str Master.batch_ref
              (Master.data_buffer w1') (Master.sd_logger w) (Master.card w))
    as [c' El].
  rewrite El. cbn [fst snd].
  unfold bind at 1, Master.on_ble, zoom.
  cbn [Master.ble_peripheral Master.with_sd]. rewrite H3.
  pose proof (send_data_total (Master.data_buffer w1')
                              (Master.ble_peripheral w)) as Hsend.
  destruct (BLEPeripheral.send_data (Master.data_buffer w1')
                                    (Master.ble_peripheral w)) as [r b'].
  cbn [fst] in Hsend. subst r. reflexivity.
Qed.

End Loop3.

Lemma tick_idle_witness :
  Master.tick (fun _ => EmptyString) 29999 Sample.world0
  = (Ok tt, Sample.world0).
Proof.
  apply (tick_idle (fun _ => EmptyString) 29999 Sample.world0).
  - repeat constructor.
  - reflexivity.
Defined.

Lemma tick_flush_witness :
  Master.data_buffer
    (snd (Master.tick (fun _ => EmptyString) 60000 Sample.world0)) = []
  /\ Master.last_write_time
       (snd (Master.tick (fun _ => EmptyString) 60000 Sample.world0))
     = 60000.
Proof.
  rewrite (tick_flush (fun _ => EmptyString) 60000 Sample.world0);
    [split; reflexivity | vm_compute; reflexivity | reflexivity].
Defined.

(** X21: Visiting a due CO2 channel from 0 to 15 always succeeds and
    appends exactly one reading, with timestamp current_time/1000, the
    channel, the label CO2 and either (None, None, None) or a decoded
    triple; the channel's last-read time becomes the current tick and the
    multiplexer pins are those select_channel sets. *)
Theorem visit_scd40_records (t ch : Z) (i : Master.info) (w : Master.world) :
  Master.due t i = true ->
  0 <= ch <= 15 ->
  Master.sensor_type i = Master.KSCD40Sensor ->
  exists (d : payload) (w' : Master.world),
    Master.visit t (ch, i) w = (Ok tt, w')
    /\ Master.data_buffer w'
       = Master.data_buffer w
         ++ [mk_reading (inject_Z t / 1000) ch "CO2" d]
    /\ Master.channel_maps w' = Master.set_last ch t (Master.channel_maps w)
    /\ Master.pins w'
       = snd (Multiplexer.select_channel Master.mux ch (Master.pins w))
    /\ (d = SCD40Sensor.read_failed \/ exists data, d = decoded data).
Proof.
  intros Hdue Hch Hkind. unfold Master.visit. rewrite Hdue.
  unfold bind at 1, Master.on_pins, zoom.
  pose proof (select_channel_accepts Master.mux ch (Master.pins w) Hch)
    as Hsel.
  destruct (Multiplexer.select_channel Master.mux ch (Master.pins w))
    as [r g]. cbn [fst snd] in *. subst r.
  unfold bind at 1, modify at 1. rewrite Hkind.
  unfold bind at 1 2, Master.on_i2c, zoom.
  cbn [Master.i2c Master.with_channel_maps Master.with_pins].
  unfold Master.read_scd40, bind at 1, SCD40Sensor.init.
  rewrite start_periodic_measurement_run.
  destruct (read_sensor_run
              {| I2C.pending := tail (I2C.pending (Master.i2c w));
                 I2C.trace := I2C.trace (Master.i2c w)
                              ++ [I2C.WriteTo 98 [33; 177]] |})
    as (d & b' & E & Hd & _).
  rewrite E. unfold ret, modify. cbn [fst snd].
  exists d. eexists. split; [reflexivity|].
  cbn. repeat split.
  destruct Hd as [-> | (ack & data & rest & _ & _ & _ & ->)];
    [left; reflexivity | right; eexists; reflexivity].
Qed.

Lemma visit_scd40_records_witness :
  exists (d : payload) (w' : Master.world),
    Master.visit 30000 Sample.scd40_channel Sample.world0 = (Ok tt, w')
    /\ Master.data_buffer w'
       = Master.data_buffer Sample.world0
         ++ [mk_reading (inject_Z 30000 / 1000) 1 "CO2" d]
    /\ Master.channel_maps w'
       = Master.set_last 1 30000 (Master.channel_maps Sample.world0)
    /\ Master.pins w'
       = snd (Multiplexer.select_channel Master.mux 1
                                         (Master.pins Sample.world0))
    /\ (d = SCD40Sensor.read_failed \/ exists data, d = decoded data).
Proof.
  apply (visit_scd40_records 30000 1 (snd Sample.scd40_channel)
                             Sample.world0).
  - reflexivity.
  - lia.
  - reflexivity.
Defined.

Lemma with_pins_same (w : Master.world) :
  Master.with_pins (Master.pins w) w = w.
Proof. destruct w; reflexivity. Qed.

(** X22: Visiting a due channel outside 0..15 raises ValueError from
    select_channel before anything else happens: the pins, the bus, the
    buffer and the channel's last-read time are unchanged. *)
Theorem visit_bad_channel (t ch : Z) (i : Master.info) (w : Master.world) :
  Master.due t i = true ->
  ~ 0 <= ch <= 15 ->
  Master.visit t (ch, i) w = (Raise ValueError, w).
Proof.
  intros Hdue Hch. unfold Master.visit. rewrite Hdue.
  unfold bind at 1, Master.on_pins, zoom.
  rewrite (select_channel_rejects Master.mux ch (Master.pins w) Hch).
  rewrite with_pins_same. reflexivity.
Qed.

Lemma visit_bad_channel_witness :
  Master.visit 30000 (16, snd Sample.scd40_channel) Sample.world0
  = (Raise ValueError, Sample.world0).
Proof.
  apply (visit_bad_channel 30000 16 (snd Sample.scd40_channel)
                           Sample.world0).
  - reflexivity.
  - lia.
Defined.

Import CentralReceiver.
Import ReceivedRows.

(** ** The receiver on the host *)

Section Receiver2.

Variable loads : string -> option json.
Variable now : nat -> string.

Lemma write_entries_run (device_name : string)
      (good : list (list (string * json))) (rest : list json)
      (rows : list row) (t : nat) :
  write_entries now device_name (map JObj good ++ rest)
    {| output_file := Some rows; clock := t |}
  = write_entries now device_name rest
      {| output_file := Some (rows ++ entry_rows now device_name t good);
         clock := (t + length good)%nat |}.
Proof.
  revert rows t. induction good as [|e es IH]; intros rows t.
  - cbn [map app entry_rows length].
    rewrite app_nil_r, Nat.add_0_r. reflexivity.
  - cbn [map app]. cbn [write_entries]. unfold write_entry, writerow.
    cbn [output_file clock default from_option id].
    rewrite IH. cbn [entry_rows length].
    rewrite <- app_assoc. cbn [app].
    replace (S t + length es)%nat with (t + S (length es))%nat by lia.
    reflexivity.
Qed.

Lemma open_run (h : host) :
  (if negb (bool_decide (is_Some (output_file h)))
   then writerow header_row
          {| output_file := Some (default [] (output_file h));
             clock := clock h |}
   else {| output_file := Some (default [] (output_file h));
           clock := clock h |})
  = {| output_file := Some (opened h); clock := clock h |}.
Proof.
  destruct h as [[rows|] t]; reflexivity.
Qed.

Lemma write_batch_objects (device_name : string)
      (entries : list (list (string * json))) (rows : list row) (t : nat) :
  write_batch now device_name (JList (map JObj entries))
    {| output_file := Some rows; clock := t |}
  = (None,
     {| output_file := Some (rows ++ entry_rows now device_name t entries);
        clock := (t + length entries)%nat |}).
Proof.
  unfold write_batch.
  rewrite <- (app_nil_r (map JObj entries)), write_entries_run.
  reflexivity.
Qed.

(** X23: When the text parses to a list of objects, write_to_file returns
    normally and appends one row per object, in order, each stamped with
    its own reading of the clock; the rows follow the header when the file
    did not exist and the existing rows otherwise. *)
Theorem write_to_file_rows (device_name data : string)
        (entries : list (list (string * json))) (h : host) :
  loads data = Some (JList (map JObj entries)) ->
  write_to_file loads now device_name data h
  = (None,
     {| output_file :=
          Some (opened h ++ entry_rows now device_name (clock h) entries);
        clock := (clock h + length entries)%nat |}).
Proof.
  intros Hloads. unfold write_to_file. cbv zeta.
  rewrite Hloads, open_run. apply write_batch_objects.
Qed.

(** X24: Two deliveries in a row, starting without a file, leave one
    header followed by the rows of the first batch and then those of the
    second: the header is written by the first call only. *)
Theorem write_to_file_header_once (device_name data1 data2 : string)
        (batch1 batch2 : list (list (string * json))) (t : nat) :
  loads data1 = Some (JList (map JObj batch1)) ->
  loads data2 = Some (JList (map JObj batch2)) ->
  let first :=
    write_to_file loads now device_name data1
      {| output_file := None; clock := t |} in
  let second := write_to_file loads now device_name data2 first.2 in
  first.1 = None /\ second.1 = None /\
  output_file second.2
  = Some (header_row :: entry_rows now device_name t (batch1 ++ batch2)).
Proof.
  intros H1 H2. cbv zeta.
  assert (forall k a b,
             entry_rows now device_name k (a ++ b)
             = entry_rows now device_name k a
               ++ entry_rows now device_name (k + length a) b) as Happ.
  { intros k a. revert k. induction a as [|x a IH]; intros k b.
    - cbn. rewrite Nat.add_0_r. reflexivity.
    - cbn [app entry_rows length]. rewrite IH.
      replace (S k + length a)%nat with (k + S (length a))%nat by lia.
      reflexivity. }
  unfold write_to_file. cbv zeta.
  rewrite H1, open_run, write_batch_objects. cbn [fst snd].
  rewrite H2, open_run, write_batch_objects.
  cbn [fst snd output_file clock opened].
  repeat split. rewrite Happ, <- app_assoc. reflexivity.
Qed.

(** X25: A text the parser rejects makes write_to_file raise after the
    file was opened: an existing file is unchanged, a missing one is
    created holding the header only. *)
Theorem write_to_file_bad_json (device_name data : string) (h : host) :
  loads data = None ->
  write_to_file loads now device_name data h
  = (Some JSONError, {| output_file := Some (opened h); clock := clock h |}).
Proof.
  intros Hloads. unfold write_to_file. cbv zeta.
  rewrite Hloads, open_run. reflexivity.
Qed.

(** X26: A batch whose first element that is not an object comes after
    some objects raises AttributeError at that element: the rows of the
    objects before it are already in the file, and nothing of what follows
    is written. *)
Theorem write_to_file_stops_at_bad_entry (device_name data : string)
        (good : list (list (string * json))) (bad : json) (rest : list json)
        (h : host) :
  loads data = Some (JList (map JObj good ++ bad :: rest)) ->
  ~ is_object bad ->
  write_to_file loads now device_name data h
  = (Some AttributeError,
     {| output_file :=
          Some (opened h ++ entry_rows now device_name (clock h) good);
        clock := (clock h + length good)%nat |}).
Proof.
  intros Hloads Hbad. unfold write_to_file. cbv zeta.
  rewrite Hloads, open_run. unfold write_batch.
  rewrite write_entries_run.
  cbn [write_entries output_file clock default from_option id].
  destruct bad; try reflexivity. destruct Hbad. exact I.
Qed.

End Receiver2.

(** X27: Every data row has as many cells as the header, nine, and never
    fills both the O2 column and one of the CO2, temperature and humidity
    columns. *)
Theorem entry_row_columns (now device_name : string)
        (entry : list (string * json)) :
  let r := entry_row now device_name entry in
  length r = length header_row /\
  (r !! 8%nat = Some blank \/
   (r !! 5%nat = Some blank /\ r !! 6%nat = Some blank
    /\ r !! 7%nat = Some blank)).
Proof.
  cbv zeta. unfold entry_row.
  destruct (payload_cells (dict_get entry "data" JNull))
    as [[[o c] t] u] eqn:E.
  split; [reflexivity|].
  unfold payload_cells in E.
  destruct (dict_get entry "data" JNull) as [| | | |xs|];
    try (injection E as <- <- <- <-; cbn; tauto).
  destruct xs as [|a [|b [|c' [|d xs]]]];
    injection E as <- <- <- <-; cbn; tauto.
Qed.

Lemma write_to_file_rows_witness :
  write_to_file HostSample.loads HostSample.now "ESP32-SensorData-1" "batch"
                HostSample.no_file
  = (None,
     {| output_file :=
          Some [header_row;
                entry_row "0" "ESP32-SensorData-1" HostSample.o2_entry;
                entry_row "1" "ESP32-SensorData-1" HostSample.co2_entry];
        clock := 2 |}).
Proof.
  apply (write_to_file_rows HostSample.loads HostSample.now
           "ESP32-SensorData-1" "batch"
           [HostSample.o2_entry; HostSample.co2_entry] HostSample.no_file).
  reflexivity.
Defined.

Lemma write_to_file_header_once_witness :
  output_file
    (write_to_file HostSample.loads HostSample.now "ESP32-SensorData-1" "batch"
       (write_to_file HostSample.loads HostSample.now "ESP32-SensorData-1"
          "batch" HostSample.no_file).2).2
  = Some (header_row
          :: entry_rows HostSample.now "ESP32-SensorData-1" 0
               ([HostSample.o2_entry; HostSample.co2_entry]
                ++ [HostSample.o2_entry; HostSample.co2_entry])).
Proof.
  apply (write_to_file_header_once HostSample.loads HostSample.now
           "ESP32-SensorData-1" "batch" "batch"
           [HostSample.o2_entry; HostSample.co2_entry]
           [HostSample.o2_entry; HostSample.co2_entry] 0);
    reflexivity.
Defined.

Lemma write_to_file_bad_json_witness :
  write_to_file HostSample.loads HostSample.now "ESP32-SensorData-1" "{"
                HostSample.no_file
  = (Some JSONError, {| output_file := Some [header_row]; clock := 0 |}).
Proof.
  apply (write_to_file_bad_json HostSample.loads HostSample.now
           "ESP32-SensorData-1" "{" HostSample.no_file).
  reflexivity.
Defined.

Lemma write_to_file_stops_at_bad_entry_witness :
  write_to_file HostSample.loads HostSample.now "ESP32-SensorData-1" "mixed"
                HostSample.no_file
  = (Some AttributeError,
     {| output_file :=
          Some [header_row;
                entry_row "0" "ESP32-SensorData-1" HostSample.o2_entry];
        clock := 1 |}).
Proof.
  apply (write_to_file_stops_at_bad_entry HostSample.loads HostSample.now
           "ESP32-SensorData-1" "mixed" [HostSample.o2_entry] (JNum (7 # 1))
           [JObj HostSample.co2_entry] HostSample.no_file).
  - reflexivity.
  - intros H. exact H.
Defined.
